(** * Early-risk flag engine: a shallow embedding of [risk_utils.py] and
    [server.py]

    The repository computes five rule-based flags, a score, a tier and a
    reason string per customer row, once in the batch module
    ([risk_utils.compute_flags]) and once, duplicated, in the HTTP module
    ([server.compute_flags]).  Both are embedded here over a small model of
    the pandas operations they call.

    Modelling conventions.
    - A pandas column is a [list cell]; a cell is a number, a missing value
      (NaN) or a non-numeric text token.  float64 and int64 values are read
      as exact rationals ([Q]); rounding and infinities are not modelled.
    - A frame is its row count together with a finite map from column
      names to columns; the display order of columns is not modelled.
    - Python exceptions are the [Raise] results of an error monad.
    - [DataFrame.apply(axis=1)] is modelled for frames that have at least
      one row.  On a frame with no rows pandas hands back a frame instead of
      a series, and what the assignment to [df['reasons']] then does depends
      on the pandas version; the theorem that asserts that the engine
      returns on a given table is stated for tables with at least one
      record.

    Layout: the embedding of the two modules, then the definitions the
    statements and proofs use, among them the embedding of
    [early_risk_pipeline.py] and of the upload route of [server.py], then
    the lemmas, then one section per claim of the specification (C1 to
    C10), then further properties of the code (X1 to X22). *)

From Stdlib Require Import QArith Lqa.
From stdpp Require Import gmap strings list fin_maps.

(** ** The pandas fragment used by the engine *)

Module Pandas.

Inductive cell : Type :=
| Num (q : Q)
| NaN
| Text (s : string).

Inductive exn : Type := KeyError | TypeError | ValueError.

Inductive result (A : Type) : Type :=
| Ok (a : A)
| Raise (e : exn).
Arguments Ok {A} a.
Arguments Raise {A} e.

Definition rbind {A B : Type} (r : result A) (f : A → result B) : result B :=
  match r with Ok a => f a | Raise e => Raise e end.

Notation "'let!' x ':=' r 'in' k" := (rbind r (λ x, k))
  (at level 10, x name, r at level 100, k at level 200).

(** Run [f] over a list from left to right, stopping at the first
    exception. *)
Fixpoint mapR {A B : Type} (f : A → result B) (l : list A) : result (list B) :=
  match l with
  | [] => Ok []
  | a :: l => let! b := f a in let! bs := mapR f l in Ok (b :: bs)
  end.

Record DataFrame : Type := mkDF {
  nrows : nat;
  columns : gmap string (list cell)
}.

(** Every column of a frame has one cell per row. *)
Definition wf (df : DataFrame) : Prop :=
  map_Forall (λ _ s, length s = nrows df) (columns df).

(** [df[c]] *)
Definition getitem (df : DataFrame) (c : string) : result (list cell) :=
  match columns df !! c with
  | Some s => Ok s
  | None => Raise KeyError
  end.

(** [df[c] = s] *)
Definition setitem (df : DataFrame) (c : string) (s : list cell) : DataFrame :=
  mkDF (nrows df) (<[c := s]> (columns df)).

(** [df[c] = v] for a scalar [v] *)
Definition setitem_scalar (df : DataFrame) (c : string) (v : cell) : DataFrame :=
  setitem df c (replicate (nrows df) v).

(** [c in df.columns] *)
Definition has_col (df : DataFrame) (c : string) : bool :=
  match columns df !! c with Some _ => true | None => false end.

(** *** Rational comparisons as booleans *)

Definition Qltb (x y : Q) : bool := negb (Qle_bool y x).
Definition Qmaxb (x y : Q) : Q := if Qle_bool x y then y else x.

(** *** Cell-level views *)

Definition isnull (c : cell) : bool :=
  match c with NaN => true | _ => false end.

(** The numeric value of a cell inside an arithmetic or ordering
    operation: a [str] operand raises [TypeError]. *)
Definition as_num (c : cell) : result (option Q) :=
  match c with
  | Num q => Ok (Some q)
  | NaN => Ok None
  | Text _ => Raise TypeError
  end.

Definition of_num (x : option Q) : cell :=
  match x with Some q => Num q | None => NaN end.

Definition as_float (s : list cell) : result (list (option Q)) := mapR as_num s.
Definition of_float (xs : list (option Q)) : list cell := of_num <$> xs.

(** *** Series operations *)

(** [s.isnull().all()] *)
Definition isnull_all (s : list cell) : bool := forallb isnull s.

(** [pd.to_numeric(s, errors='coerce')]: text that is not a number
    becomes NaN. *)
Definition to_numeric (s : list cell) : list cell :=
  (λ c, match c with Text _ => NaN | _ => c end) <$> s.

(** [s.fillna(v)] *)
Definition fillna (v : cell) (s : list cell) : list cell :=
  (λ c, if isnull c then v else c) <$> s.

(** [s.astype(float)]: text that is not a number raises [ValueError]. *)
Definition astype_float (s : list cell) : result (list cell) :=
  mapR (λ c, match c with Text _ => Raise ValueError | _ => Ok c end) s.

(** The maximum of the observed (non-missing) values; [None] stands for the
    NaN that pandas returns when there is none. *)
Definition fmax (xs : list (option Q)) : option Q :=
  foldr (λ x acc,
           match x, acc with
           | Some q, Some m => Some (Qmaxb q m)
           | Some q, None => Some q
           | None, _ => acc
           end) None xs.

(** [s.max()] with the default [skipna=True].  On a column that holds text
    the expression [s.max() > 1.5] raises [TypeError]; the model raises it
    here. *)
Definition series_max (s : list cell) : result (option Q) :=
  let! xs := as_float s in Ok (fmax xs).

(** [m > t] for the scalar [m = s.max()]; a NaN compares false. *)
Definition scalar_gt (m : option Q) (t : Q) : bool :=
  match m with Some q => Qltb t q | None => false end.

Definition num_op (f : option Q → option Q) (s : list cell) : result (list cell) :=
  let! xs := as_float s in Ok (of_float (f <$> xs)).

Definition cmp_op (f : Q → bool) (s : list cell) : result (list bool) :=
  let! xs := as_float s in Ok ((λ x, match x with Some q => f q | None => false end) <$> xs).

(** [s / d] *)
Definition div_scalar (d : Q) : list cell → result (list cell) :=
  num_op (fmap (λ q, q / d)%Q).

Definition clipq (lo hi q : Q) : Q :=
  if Qltb q lo then lo else if Qltb hi q then hi else q.

(** [s.clip(lower=lo, upper=hi)]; NaN stays NaN. *)
Definition clip (lo hi : Q) : list cell → result (list cell) :=
  num_op (fmap (clipq lo hi)).

(** [s >= t], [s > t], [s <= t] against a scalar; NaN compares false. *)
Definition ge_scalar (t : Q) : list cell → result (list bool) := cmp_op (λ q, Qle_bool t q).
Definition gt_scalar (t : Q) : list cell → result (list bool) := cmp_op (λ q, Qltb t q).
Definition le_scalar (t : Q) : list cell → result (list bool) := cmp_op (λ q, Qle_bool q t).

(** [a & b] on boolean series *)
Definition series_and (a b : list bool) : list bool := zip_with andb a b.

(** [b.astype(int)] *)
Definition astype_int (bs : list bool) : list cell :=
  (λ b : bool, Num (if b then 1 else 0)%Q) <$> bs.

(** [s != 0]: anything that is not the number zero is different from it. *)
Definition ne_zero (s : list cell) : list bool :=
  (λ c, match c with Num q => negb (Qeq_bool q 0) | _ => true end) <$> s.

(** [a > b] between two columns, element by element: numbers by value,
    strings lexicographically, a string against a number raises. *)
Definition cell_gt (a b : cell) : result bool :=
  match a, b with
  | Num x, Num y => Ok (Qltb y x)
  | Text x, Text y => Ok (String.ltb y x)
  | NaN, _ | _, NaN => Ok false
  | _, _ => Raise TypeError
  end.

Definition series_gt (a b : list cell) : result (list bool) :=
  mapR (λ p, cell_gt p.1 p.2) (zip a b).

(** [df[cols].sum(axis=1)]: row sums, missing values skipped. *)
Definition add_skipna (acc : Q) (x : option Q) : Q :=
  match x with Some q => (acc + q)%Q | None => acc end.

Definition sum_axis1 (df : DataFrame) (cols : list string) : result (list cell) :=
  let! ss := mapR (getitem df) cols in
  let! xss := mapR as_float ss in
  Ok (Num <$> foldl (zip_with add_skipna) (replicate (nrows df) 0%Q) xss).

(** [pd.cut(s, bins, labels)] with the default [right=True]: the label of
    the first interval [(lo, hi]] that holds the value, NaN outside. *)
Fixpoint cut1 (bins : list Q) (labels : list string) (x : Q) : cell :=
  match bins, labels with
  | lo :: (hi :: _) as rest, l :: ls =>
      if Qltb lo x && Qle_bool x hi then Text l else cut1 rest ls x
  | _, _ => NaN
  end.

Definition cut (bins : list Q) (labels : list string) (s : list cell) : result (list cell) :=
  let! xs := as_float s in
  Ok ((λ x, match x with Some q => cut1 bins labels q | None => NaN end) <$> xs).

(** The row of index [i], as [df.apply(f, axis=1)] hands it to [f]. *)
Definition row (df : DataFrame) (i : nat) : gmap string cell :=
  omap (λ s : list cell, s !! i) (columns df).

(** [row[c]] *)
Definition row_get (r : gmap string cell) (c : string) : result cell :=
  match r !! c with Some v => Ok v | None => Raise KeyError end.

(** [df.apply(f, axis=1)] for an [f] that returns a string *)
Definition apply_rows (f : gmap string cell → result string) (df : DataFrame)
  : result (list cell) :=
  let! rs := mapR (λ i, f (row df i)) (seq 0 (nrows df)) in Ok (Text <$> rs).

(** Python truthiness of a cell in [if row[c]:] *)
Definition truthy (c : cell) : bool :=
  match c with
  | Num q => negb (Qeq_bool q 0)
  | NaN => true
  | Text s => negb (String.eqb s "")
  end.

Fixpoint foldM {A B} (f : B → A → result B) (l : list A) (b : B) : result B :=
  match l with
  | [] => Ok b
  | a :: l => let! b' := f b a in foldM f l b'
  end.

End Pandas.
Export Pandas.

(** Column names shared by both modules. *)
Definition numeric_cols : list string :=
  ["Utilisation %"; "Avg Payment Ratio"; "Min Due Paid Frequency";
   "Cash Withdrawal %"; "Recent Spend Change %"].

Definition flag_cols : list string :=
  ["flag_util_spike"; "flag_min_due_streak"; "flag_low_pay_ratio";
   "flag_cash_advance"; "flag_merchant_shift"].

Definition tier_bins : list Q := [(-1)%Q; 0%Q; 1%Q; 999%Q].
Definition tier_labels : list string := ["Low"; "Medium"; "High"].

(** The body shared by [reasons_for_row] (batch) and [get_reasons]
    (serving): the two functions are textually the same. *)
Definition reasons_body (r : gmap string cell) : result string :=
  let reasons : list string := [] in
  let! f := row_get r "flag_util_spike" in
  let reasons := if truthy f then reasons ++ ["Util Spike"] else reasons in
  let! f := row_get r "flag_min_due_streak" in
  let reasons := if truthy f then reasons ++ ["Min Due Streak"] else reasons in
  let! f := row_get r "flag_low_pay_ratio" in
  let reasons := if truthy f then reasons ++ ["Low Payment Ratio"] else reasons in
  let! f := row_get r "flag_cash_advance" in
  let reasons := if truthy f then reasons ++ ["Cash Advance"] else reasons in
  let! f := row_get r "flag_merchant_shift" in
  let reasons := if truthy f then reasons ++ ["Merchant Mix Shift"] else reasons in
  Ok (match reasons with [] => "None" | _ => String.concat ", " reasons end).

(** ** risk_utils.py: the batch path *)

Module RiskUtils.

Definition REQUIRED_COLUMNS : list string :=
  ["Customer ID"; "Credit Limit"; "Utilisation %"; "Avg Payment Ratio";
   "Min Due Paid Frequency"; "Merchant Mix Index"; "Cash Withdrawal %";
   "Recent Spend Change %"; "DPD Bucket Next Month"].

Definition normalize_merchant_mix (series : list cell) : result (list cell) :=
  let s := series in
  if isnull_all s then Ok s
  else
    let! m := series_max s in
    let! s := (if scalar_gt m 1.5 then div_scalar 100 s else Ok s) in
    clip 0 1 s.

Definition safe_load_defaults (df : DataFrame) : DataFrame :=
  foldl (λ df c, if has_col df c then df else setitem_scalar df c NaN)
        df REQUIRED_COLUMNS.

Definition reasons_for_row := reasons_body.

(** [compute_flags] works on a copy of its argument; the model returns the
    frame built by the successive column assignments. *)
Definition compute_flags (df : DataFrame) (merchant_col : string) : result DataFrame :=
  let df := safe_load_defaults df in
  let! mm := getitem df merchant_col in
  let! mmn := normalize_merchant_mix mm in
  let df := setitem df "MerchantMix_norm" mmn in
  let! df := foldM (λ df c,
                let df := if has_col df c then df else setitem_scalar df c (Num 0) in
                let! s := getitem df c in
                Ok (setitem df c (fillna (Num 0) (to_numeric s))))
             numeric_cols df in
  let! apr := getitem df "Avg Payment Ratio" in
  let! m := series_max apr in
  let! df := (if scalar_gt m 1.5
         then let! apr := getitem df "Avg Payment Ratio" in
              let! s := div_scalar 100 apr in
              Ok (setitem df "Avg Payment Ratio" s)
         else Ok df) in
  let! apr := getitem df "Avg Payment Ratio" in
  let! s := clip 0 1 apr in
  let df := setitem df "Avg Payment Ratio" s in
  let! u := getitem df "Utilisation %" in
  let! a := ge_scalar 80 u in
  let! r := getitem df "Recent Spend Change %" in
  let! b := ge_scalar 20 r in
  let df := setitem df "flag_util_spike" (astype_int (series_and a b)) in
  let! md := getitem df "Min Due Paid Frequency" in
  let! a := ge_scalar 2 md in
  let df := setitem df "flag_min_due_streak" (astype_int a) in
  let! apr := getitem df "Avg Payment Ratio" in
  let! a := le_scalar 0.4 apr in
  let df := setitem df "flag_low_pay_ratio" (astype_int a) in
  let! cw := getitem df "Cash Withdrawal %" in
  let! a := gt_scalar 0 cw in
  let! u := getitem df "Utilisation %" in
  let! b := gt_scalar 70 u in
  let df := setitem df "flag_cash_advance" (astype_int (series_and a b)) in
  let! mn := getitem df "MerchantMix_norm" in
  let! a := le_scalar 0.35 mn in
  let df := setitem df "flag_merchant_shift" (astype_int a) in
  let! sc := sum_axis1 df flag_cols in
  let df := setitem df "risk_score" sc in
  let! sc := getitem df "risk_score" in
  let! t := cut tier_bins tier_labels sc in
  let df := setitem df "risk_tier" t in
  let! rs := apply_rows reasons_for_row df in
  let df := setitem df "reasons" rs in
  let! nxt := getitem df "DPD Bucket Next Month" in
  let! tp := (if has_col df "Current DPD Bucket"
         then let! cur := getitem df "Current DPD Bucket" in
              if negb (isnull_all cur)
              then series_gt (fillna (Num 0) nxt) (fillna (Num 0) cur)
              else Ok (ne_zero (fillna (Num 0) nxt))
         else Ok (ne_zero (fillna (Num 0) nxt))) in
  Ok (setitem df "target_positive" (astype_int tp)).

End RiskUtils.

(** ** server.py: the serving path *)

Module Server.

Definition normalize_merchant_mix (series : list cell) : result (list cell) :=
  if isnull_all series then Ok series
  else
    let! s := astype_float series in
    let! m := series_max s in
    let! s := (if scalar_gt m 1.5 then div_scalar 100 s else Ok s) in
    clip 0 1 s.

Definition get_reasons := reasons_body.

(** [compute_flags] assigns into the frame it is given and returns it; the
    model returns the frame built by the successive column assignments. *)
Definition compute_flags (df : DataFrame) : result DataFrame :=
  let! df := foldM (λ df c,
                let df := if has_col df c then df else setitem_scalar df c NaN in
                let! s := getitem df c in
                Ok (setitem df c (to_numeric s)))
             numeric_cols df in
  let! df := (if has_col df "Merchant Mix Index"
         then let! mm := getitem df "Merchant Mix Index" in
              let! mmn := normalize_merchant_mix mm in
              Ok (setitem df "MerchantMix_norm" mmn)
         else Ok (setitem_scalar df "MerchantMix_norm" NaN)) in
  let! apr := getitem df "Avg Payment Ratio" in
  let! m := series_max apr in
  let! df := (if scalar_gt m 1.5
         then let! apr := getitem df "Avg Payment Ratio" in
              let! s := div_scalar 100 apr in
              Ok (setitem df "Avg Payment Ratio" s)
         else Ok df) in
  let! apr := getitem df "Avg Payment Ratio" in
  let! s := clip 0 1 apr in
  let df := setitem df "Avg Payment Ratio" (fillna (Num 0) s) in
  let! u := getitem df "Utilisation %" in
  let! a := ge_scalar 80 (fillna (Num 0) u) in
  let! r := getitem df "Recent Spend Change %" in
  let! b := ge_scalar 20 (fillna (Num 0) r) in
  let df := setitem df "flag_util_spike" (astype_int (series_and a b)) in
  let! md := getitem df "Min Due Paid Frequency" in
  let! a := ge_scalar 2 (fillna (Num 0) md) in
  let df := setitem df "flag_min_due_streak" (astype_int a) in
  let! apr := getitem df "Avg Payment Ratio" in
  let! a := le_scalar 0.4 (fillna (Num 1) apr) in
  let df := setitem df "flag_low_pay_ratio" (astype_int a) in
  let! cw := getitem df "Cash Withdrawal %" in
  let! a := gt_scalar 0 (fillna (Num 0) cw) in
  let! u := getitem df "Utilisation %" in
  let! b := gt_scalar 70 (fillna (Num 0) u) in
  let df := setitem df "flag_cash_advance" (astype_int (series_and a b)) in
  let! mn := getitem df "MerchantMix_norm" in
  let! a := le_scalar 0.35 (fillna (Num 1) mn) in
  let df := setitem df "flag_merchant_shift" (astype_int a) in
  let! sc := sum_axis1 df flag_cols in
  let df := setitem df "risk_score" sc in
  let! sc := getitem df "risk_score" in
  let! t := cut tier_bins tier_labels sc in
  let df := setitem df "risk_tier" t in
  let! rs := apply_rows get_reasons df in
  Ok (setitem df "reasons" rs).

End Server.

(** ** The engine behind both entry points *)

Inductive path : Type := Batch | Serving.

(** Both callers use the default [merchant_col]. *)
Definition engine (p : path) (df : DataFrame) : result DataFrame :=
  match p with
  | Batch => RiskUtils.compute_flags df "Merchant Mix Index"
  | Serving => Server.compute_flags df
  end.

(** The cell of column [c] at row [i] *)
Definition cell_at (df : DataFrame) (c : string) (i : nat) : option cell :=
  columns df !! c ≫= (λ s : list cell, s !! i).

(** ** Building tables *)

(** A frame of [n] rows from a list of named columns *)
Definition frame_of (n : nat) (cols : list (string * list cell)) : DataFrame :=
  mkDF n (list_to_map cols).

(** The first example of the specification: a utilisation spike *)
Definition spike_frame : DataFrame :=
  frame_of 1 [("Utilisation %", [Num 85%Q]); ("Recent Spend Change %", [Num 25%Q]);
              ("Avg Payment Ratio", [Num 0.9%Q]); ("Merchant Mix Index", [Num 90%Q])].

(** ** Numeric views of cells and columns, and the engine in closed form

    The definitions of this part name what the two [compute_flags] compute:
    float-level counterparts of the series operations, the frame each path
    returns as an explicit chain of column assignments ([BatchForm],
    [ServerForm], [closed]), and the checks that can raise ([target_of]). *)

Definition is_text (c : cell) : bool :=
  match c with Text _ => true | _ => false end.

(** A column that holds numbers and missing values only *)
Definition numeric (s : list cell) : Prop := Forall (λ c, is_text c = false) s.

(** The number a cell holds, if any: what [to_numeric] keeps of it *)
Definition numv (c : cell) : option Q :=
  match c with Num q => Some q | _ => None end.

Abbreviation c_util := "Utilisation %" (only parsing).
Abbreviation c_pay := "Avg Payment Ratio" (only parsing).
Abbreviation c_mindue := "Min Due Paid Frequency" (only parsing).
Abbreviation c_cash := "Cash Withdrawal %" (only parsing).
Abbreviation c_spend := "Recent Spend Change %" (only parsing).
Abbreviation c_mix := "Merchant Mix Index" (only parsing).
Abbreviation c_mixnorm := "MerchantMix_norm" (only parsing).
Abbreviation c_next := "DPD Bucket Next Month" (only parsing).
Abbreviation c_cur := "Current DPD Bucket" (only parsing).

(** Float-level counterparts of the series operations *)
Definition fnum (s : list cell) : list (option Q) := numv <$> s.
Definition ffill (v : Q) (xs : list (option Q)) : list (option Q) :=
  (λ x, Some (default v x)) <$> xs.
Definition fdiv (d : Q) (xs : list (option Q)) : list (option Q) :=
  (fmap (λ q, q / d)%Q : option Q → option Q) <$> xs.
Definition fclip (lo hi : Q) (xs : list (option Q)) : list (option Q) :=
  (fmap (clipq lo hi) : option Q → option Q) <$> xs.
Definition fcmp (f : Q → bool) (xs : list (option Q)) : list bool :=
  (λ x, match x with Some q => f q | None => false end) <$> xs.
Definition fscale (xs : list (option Q)) : list (option Q) :=
  if scalar_gt (fmax xs) 1.5 then fdiv 100 xs else xs.

(** The column [c] of a frame, or a column of [v] when there is none *)
Definition col_or (v : cell) (df : DataFrame) (c : string) : list cell :=
  default (replicate (nrows df) v) (columns df !! c).

(** The labels of the raised flags, in the order of the five tests *)
Definition labels_of (b1 b2 b3 b4 b5 : bool) : list string :=
  (if b1 then ["Util Spike"] else []) ++
  (if b2 then ["Min Due Streak"] else []) ++
  (if b3 then ["Low Payment Ratio"] else []) ++
  (if b4 then ["Cash Advance"] else []) ++
  (if b5 then ["Merchant Mix Shift"] else []).

Definition render (l : list string) : string :=
  match l with [] => "None" | _ => String.concat ", " l end.

Definition nthb (l : list bool) (i : nat) : bool := default false (l !! i).

Definition reasons_col (n : nat) (f1 f2 f3 f4 f5 : list bool) : list cell :=
  (λ i, Text (render (labels_of (nthb f1 i) (nthb f2 i) (nthb f3 i)
                                (nthb f4 i) (nthb f5 i)))) <$> seq 0 n.

Definition bits (f : list bool) : list (option Q) :=
  (λ b : bool, Some (if b then 1 else 0)%Q) <$> f.

Definition score_col (n : nat) (fs : list (list bool)) : list Q :=
  foldl (zip_with add_skipna) (replicate n 0%Q) (bits <$> fs).

Definition tier_col (sc : list Q) : list cell := cut1 tier_bins tier_labels <$> sc.

(** What the flag, score, tier and reason assignments add to a frame *)
Definition with_flags (D : DataFrame) (f1 f2 f3 f4 f5 : list bool) : DataFrame :=
  let sc := score_col (nrows D) [f1; f2; f3; f4; f5] in
  let D := setitem D "flag_util_spike" (astype_int f1) in
  let D := setitem D "flag_min_due_streak" (astype_int f2) in
  let D := setitem D "flag_low_pay_ratio" (astype_int f3) in
  let D := setitem D "flag_cash_advance" (astype_int f4) in
  let D := setitem D "flag_merchant_shift" (astype_int f5) in
  let D := setitem D "risk_score" (Num <$> sc) in
  let D := setitem D "risk_tier" (tier_col sc) in
  setitem D "reasons" (reasons_col (nrows D) f1 f2 f3 f4 f5).

Definition mix_norm (s : list cell) : list (option Q) :=
  if isnull_all s then fnum s else fclip 0 1 (fscale (fnum s)).

(** The values the batch path computes, as pure functions of the input
    frame. *)
Module BatchForm.

Definition U df := ffill 0 (fnum (col_or NaN df c_util)).
Definition P0 df := ffill 0 (fnum (col_or NaN df c_pay)).
Definition M df := ffill 0 (fnum (col_or NaN df c_mindue)).
Definition C df := ffill 0 (fnum (col_or NaN df c_cash)).
Definition R df := ffill 0 (fnum (col_or NaN df c_spend)).
Definition P df := fclip 0 1 (fscale (P0 df)).

Definition f1 df := series_and (fcmp (λ q, Qle_bool 80 q) (U df)) (fcmp (λ q, Qle_bool 20 q) (R df)).
Definition f2 df := fcmp (λ q, Qle_bool 2 q) (M df).
Definition f3 df := fcmp (λ q, Qle_bool q 0.4) (P df).
Definition f4 df := series_and (fcmp (λ q, Qltb 0 q) (C df)) (fcmp (λ q, Qltb 70 q) (U df)).
Definition f5 (mn : list (option Q)) := fcmp (λ q, Qle_bool q 0.35) mn.

(** The frame before the flags are added *)
Definition pre (df : DataFrame) (mn : list (option Q)) : DataFrame :=
  let D := RiskUtils.safe_load_defaults df in
  let D := setitem D c_mixnorm (of_float mn) in
  let D := setitem D c_util (of_float (U df)) in
  let D := setitem D c_pay (of_float (P0 df)) in
  let D := setitem D c_mindue (of_float (M df)) in
  let D := setitem D c_cash (of_float (C df)) in
  let D := setitem D c_spend (of_float (R df)) in
  setitem D c_pay (of_float (P df)).

Definition flagged (df : DataFrame) (mn : list (option Q)) : DataFrame :=
  with_flags (pre df mn) (f1 df) (f2 df) (f3 df) (f4 df) (f5 mn).

(** The comparison that yields [target_positive] *)
Definition target (df : DataFrame) : result (list bool) :=
  let nxt := col_or NaN df c_next in
  if has_col df c_cur
  then let! cur := getitem df c_cur in
       if negb (isnull_all cur)
       then series_gt (fillna (Num 0) nxt) (fillna (Num 0) cur)
       else Ok (ne_zero (fillna (Num 0) nxt))
  else Ok (ne_zero (fillna (Num 0) nxt)).

Definition out (df : DataFrame) (mn : list (option Q)) (tp : list bool) : DataFrame :=
  setitem (flagged df mn) "target_positive" (astype_int tp).

End BatchForm.

Module ServerForm.

Definition U df := fnum (col_or NaN df c_util).
Definition P0 df := fnum (col_or NaN df c_pay).
Definition M df := fnum (col_or NaN df c_mindue).
Definition C df := fnum (col_or NaN df c_cash).
Definition R df := fnum (col_or NaN df c_spend).
Definition P df := ffill 0 (fclip 0 1 (fscale (P0 df))).

Definition f1 df :=
  series_and (fcmp (λ q, Qle_bool 80 q) (ffill 0 (U df)))
             (fcmp (λ q, Qle_bool 20 q) (ffill 0 (R df))).
Definition f2 df := fcmp (λ q, Qle_bool 2 q) (ffill 0 (M df)).
Definition f3 df := fcmp (λ q, Qle_bool q 0.4) (ffill 1 (P df)).
Definition f4 df :=
  series_and (fcmp (λ q, Qltb 0 q) (ffill 0 (C df)))
             (fcmp (λ q, Qltb 70 q) (ffill 0 (U df))).
Definition f5 (mn : list (option Q)) := fcmp (λ q, Qle_bool q 0.35) (ffill 1 mn).

(** What the merchant-mix branch stores *)
Definition mixnorm (df : DataFrame) : result (list cell) :=
  if has_col df c_mix
  then Server.normalize_merchant_mix (col_or NaN df c_mix)
  else Ok (replicate (nrows df) NaN).

Definition pre (df : DataFrame) (mn : list (option Q)) : DataFrame :=
  let D := setitem df c_util (of_float (U df)) in
  let D := setitem D c_pay (of_float (P0 df)) in
  let D := setitem D c_mindue (of_float (M df)) in
  let D := setitem D c_cash (of_float (C df)) in
  let D := setitem D c_spend (of_float (R df)) in
  let D := setitem D c_mixnorm (of_float mn) in
  setitem D c_pay (of_float (P df)).

Definition out (df : DataFrame) (mn : list (option Q)) : DataFrame :=
  with_flags (pre df mn) (f1 df) (f2 df) (f3 df) (f4 df) (f5 mn).

End ServerForm.

Definition mixcol (df : DataFrame) : list cell := col_or NaN df c_mix.

Definition closed (p : path) (df : DataFrame) (tp : list bool) : DataFrame :=
  match p with
  | Batch => BatchForm.out df (mix_norm (mixcol df)) tp
  | Serving => ServerForm.out df (mix_norm (mixcol df))
  end.

(** The checks that can raise: the merchant-mix column must be numeric
    on both paths, and on the batch path the two DPD columns must be
    comparable. *)
Definition target_of (p : path) (df : DataFrame) : result (list bool) :=
  match p with
  | Batch => BatchForm.target df
  | Serving => Ok []
  end.

(** ** The rules, row by row *)

(** The value a cell contributes after [to_numeric] and [fillna(0)] *)
Definition n0 (c : cell) : Q := default 0%Q (numv c).

(** Does any observed value of the column exceed 1.5? *)
Definition pct_scale (s : list cell) : bool :=
  existsb (λ c, match numv c with Some q => Qltb 1.5 q | None => false end) s.

(** The cell of column [c] at row [i] of the input, NaN when the column is
    absent *)
Definition field (df : DataFrame) (c : string) (i : nat) : cell :=
  default NaN (col_or NaN df c !! i).

Definition rescale (scaled : bool) (q : Q) : Q :=
  clipq 0 1 (if scaled then q / 100 else q)%Q.

(** The five rules on the cells of one row.  [ps] and [ms] tell whether the
    payment-ratio and merchant-mix columns are read as percentages. *)
Definition rule_util_spike (u r : cell) : bool :=
  Qle_bool 80 (n0 u) && Qle_bool 20 (n0 r).
Definition rule_min_due_streak (m : cell) : bool := Qle_bool 2 (n0 m).
Definition rule_low_pay_ratio (ps : bool) (a : cell) : bool :=
  Qle_bool (rescale ps (n0 a)) 0.4.
Definition rule_cash_advance (c u : cell) : bool :=
  Qltb 0 (n0 c) && Qltb 70 (n0 u).
Definition rule_merchant_shift (ms : bool) (m : cell) : bool :=
  match numv m with Some q => Qle_bool (rescale ms q) 0.35 | None => false end.

(** The payment ratio each path stores back into its column *)
Definition pay_stored (p : path) (ps : bool) (a : cell) : Q :=
  match p with
  | Batch => rescale ps (n0 a)
  | Serving => default 0%Q (rescale ps <$> numv a)
  end.

Definition mix_stored (ms : bool) (m : cell) : cell :=
  of_num (rescale ms <$> numv m).

Definition flag_cell (b : bool) : cell := Num (if b then 1 else 0)%Q.

Definition score_of (bs : list bool) : Q :=
  foldl add_skipna 0%Q ((λ b : bool, Some (if b then 1 else 0)%Q) <$> bs).

(** The flags of row [i], computed from the cells of that row of the
    input and from the two column-wide scale tests *)
Definition row_flags (df : DataFrame) (i : nat) : list bool :=
  let ps := pct_scale (col_or NaN df c_pay) in
  let ms := pct_scale (mixcol df) in
  [ rule_util_spike (field df c_util i) (field df c_spend i);
    rule_min_due_streak (field df c_mindue i);
    rule_low_pay_ratio ps (field df c_pay i);
    rule_cash_advance (field df c_cash i) (field df c_util i);
    rule_merchant_shift ms (field df c_mix i) ].

Definition labels_of_list (bs : list bool) : list string :=
  match bs with
  | [b1; b2; b3; b4; b5] => labels_of b1 b2 b3 b4 b5
  | _ => []
  end.

(** What row [i] of the returned frame holds *)
Record row_spec (p : path) (df out : DataFrame) (i : nat) : Prop := {
  rs_flags :
    (λ c, cell_at out c i) <$> flag_cols = (λ b, Some (flag_cell b)) <$> row_flags df i;
  rs_score : cell_at out "risk_score" i = Some (Num (score_of (row_flags df i)));
  rs_tier :
    cell_at out "risk_tier" i
    = Some (cut1 tier_bins tier_labels (score_of (row_flags df i)));
  rs_reasons :
    cell_at out "reasons" i = Some (Text (render (labels_of_list (row_flags df i))));
  rs_pay :
    cell_at out c_pay i
    = Some (Num (pay_stored p (pct_scale (col_or NaN df c_pay)) (field df c_pay i)));
  rs_mix :
    cell_at out c_mixnorm i
    = Some (mix_stored (pct_scale (mixcol df)) (field df c_mix i))
}.

(** The columns that [with_flags] assigns *)
Definition flag_outputs : list string :=
  ["flag_util_spike"; "flag_min_due_streak"; "flag_low_pay_ratio";
   "flag_cash_advance"; "flag_merchant_shift";
   "risk_score"; "risk_tier"; "reasons"].

(** The five flag series of the closed form *)
Definition form_flags (p : path) (df : DataFrame) : list (list bool) :=
  match p with
  | Batch => [BatchForm.f1 df; BatchForm.f2 df; BatchForm.f3 df; BatchForm.f4 df;
              BatchForm.f5 (mix_norm (mixcol df))]
  | Serving => [ServerForm.f1 df; ServerForm.f2 df; ServerForm.f3 df;
                ServerForm.f4 df; ServerForm.f5 (mix_norm (mixcol df))]
  end.

(** ** Vocabulary of the claims *)

(** *** Score and reasons (C1, C9) *)

Fixpoint count_true (bs : list bool) : nat :=
  match bs with
  | [] => 0
  | b :: bs => (if b then 1 else 0) + count_true bs
  end.

(** Is the cell there, and true in the sense of [if row[c]:] ? *)
Definition is_raised (oc : option cell) : bool :=
  match oc with Some v => truthy v | None => false end.

(** How many of the five flag columns are true at row [i] *)
Definition true_flags (out : DataFrame) (i : nat) : nat :=
  count_true ((λ c, is_raised (cell_at out c i)) <$> flag_cols).

(** The flag columns with their labels, in the order of declaration *)
Definition flag_labels : list (string * string) :=
  [("flag_util_spike", "Util Spike");
   ("flag_min_due_streak", "Min Due Streak");
   ("flag_low_pay_ratio", "Low Payment Ratio");
   ("flag_cash_advance", "Cash Advance");
   ("flag_merchant_shift", "Merchant Mix Shift")].

(** The labels of the flags that are true at row [i] of a frame, in the
    order of [flag_labels] *)
Definition raised_labels (out : DataFrame) (i : nat) : list string :=
  snd <$> List.filter (λ cl, is_raised (cell_at out cl.1 i)) flag_labels.

(** *** Ranges (C4) *)

Definition in_unit_interval (oc : option cell) : Prop :=
  ∃ q : Q, oc = Some (Num q) ∧ (0 <= q ∧ q <= 1)%Q.

(** *** The merchant-mix normalisation as the specification words it (C5) *)

(** The values observed in a column, in order *)
Definition observed (col : list cell) : list Q := omap numv col.

(** The largest observed value, [None] when nothing is observed *)
Definition max_observed (col : list cell) : option Q :=
  foldl (λ acc q, Some (match acc with Some m => Qmaxb m q | None => q end))
        None (observed col).

Definition on_numbers (f : Q → Q) (col : list cell) : list cell :=
  (λ c, match c with Num q => Num (f q) | _ => c end) <$> col.

(** A column with no observed value passes through; otherwise the column
    is divided by 100 when its largest observed value exceeds 1.5, and then
    clipped to [0,1]. *)
Definition spec_merchant_mix_norm (col : list cell) : list cell :=
  match max_observed col with
  | None => col
  | Some m =>
      let col := if Qltb 1.5 m then on_numbers (λ q, q / 100)%Q col else col in
      on_numbers (λ q, if Qltb q 0 then 0 else if Qltb 1 q then 1 else q)%Q col
  end.

(** *** Columns read, assigned and added (C6, C7, C8, C10) *)

(** The input columns the five rules read *)
Definition rule_inputs : list string :=
  [c_util; c_pay; c_mindue; c_cash; c_spend; c_mix].

(** The per-record outputs of the rules *)
Definition rule_outputs : list string :=
  flag_cols ++ ["risk_score"; "risk_tier"; "reasons"].

(** The columns the engine reads *)
Definition engine_inputs : list string :=
  [c_util; c_pay; c_mindue; c_cash; c_spend; c_mix; c_next; c_cur].

(** The columns the engine assigns *)
Definition assigned : list string :=
  numeric_cols ++ [c_mixnorm] ++ flag_outputs ++ ["target_positive"].

(** The columns the engine adds to its input *)
Definition derived_cols : list string :=
  [c_mixnorm; "flag_util_spike"; "flag_min_due_streak"; "flag_low_pay_ratio";
   "flag_cash_advance"; "flag_merchant_shift"; "risk_score"; "risk_tier";
   "reasons"; "target_positive"].

(** [df.drop(columns=derived_cols, errors='ignore')] *)
Definition drop_derived (df : DataFrame) : DataFrame :=
  mkDF (nrows df) (foldr delete (columns df) derived_cols).

(** The columns each path reads without coercing them *)
Definition uncoerced (p : path) : list string :=
  match p with
  | Batch => [c_mix; c_next; c_cur]
  | Serving => [c_mix]
  end.

(** What the coercion loop of each path leaves in a cell *)
Definition coerced (p : path) (c : cell) : cell :=
  match p with
  | Batch => Num (n0 c)
  | Serving => of_num (numv c)
  end.

(** ** Sample tables and their runs *)

(** The frame an engine run returns, or the input itself when it raises;
    used to name the outputs of the sample runs. *)
Definition run_or_self (p : path) (df : DataFrame) : DataFrame :=
  match engine p df with Ok out => out | Raise _ => df end.

Definition spike_out (p : path) : DataFrame := run_or_self p spike_frame.

(** A column on the percent scale with a missing value *)
Definition pct_column : list cell := [Num 90%Q; NaN; Num 20%Q].

(** One record whose payment ratio is missing *)
Definition no_ratio_frame : DataFrame :=
  frame_of 1 [(c_util, [Num 10%Q]); (c_pay, [NaN]); (c_mix, [Num 0.9%Q])].

(** One record, no merchant-mix column *)
Definition no_mix_frame : DataFrame :=
  frame_of 1 [(c_util, [Num 10%Q]); (c_pay, [Num 0.9%Q])].

(** What the engine returns on [no_mix_frame] along path [p] *)
Definition no_mix_run (p : path) : Prop :=
  engine p no_mix_frame = Ok (run_or_self p no_mix_frame) ∧
  cell_at (run_or_self p no_mix_frame) c_mixnorm 0 = Some NaN ∧
  ¬ in_unit_interval (cell_at (run_or_self p no_mix_frame) c_mixnorm 0).

(** One record whose payment ratio is on the percent scale *)
Definition pay_pct_frame : DataFrame :=
  frame_of 1 [(c_pay, [Num 50%Q]); (c_mix, [Num 0.9%Q])].

(** What the engine returns on [pay_pct_frame] along path [p] *)
Definition pay_pct_run (p : path) : Prop :=
  engine p pay_pct_frame = Ok (run_or_self p pay_pct_frame) ∧
  columns (run_or_self p pay_pct_frame) !! c_pay = Some [Num (50 / 100)%Q] ∧
  columns (run_or_self p pay_pct_frame) !! c_pay ≠ columns pay_pct_frame !! c_pay ∧
  columns (run_or_self p pay_pct_frame) !! "AvgPaymentRatioNorm" = None.

(** A one-record table, and the same table with a second record appended *)
Definition lone_frame : DataFrame :=
  frame_of 1 [(c_pay, [Num 1%Q]); (c_mix, [Num 0.9%Q])].
Definition lone_frame_extended : DataFrame :=
  frame_of 2 [(c_pay, [Num 1%Q; Num 50%Q]); (c_mix, [Num 0.9%Q; Num 0.9%Q])].

(** What the engine returns on the two tables along path [p] *)
Definition lone_runs (p : path) : Prop :=
  engine p lone_frame = Ok (run_or_self p lone_frame) ∧
  engine p lone_frame_extended = Ok (run_or_self p lone_frame_extended) ∧
  cell_at (run_or_self p lone_frame) "flag_low_pay_ratio" 0 = Some (Num 0) ∧
  cell_at (run_or_self p lone_frame_extended) "flag_low_pay_ratio" 0 = Some (Num 1) ∧
  cell_at (run_or_self p lone_frame) "risk_tier" 0 = Some (Text "Low") ∧
  cell_at (run_or_self p lone_frame_extended) "risk_tier" 0 = Some (Text "Medium").

(** A second record that leaves both column-wide facts as they were *)
Definition lone_frame_grown : DataFrame :=
  frame_of 2 [(c_pay, [Num 1%Q; Num 0.5%Q]); (c_mix, [Num 0.9%Q; Num 0.2%Q])].

(** One record with no utilisation column, whose merchant-mix cell is not
    a number *)
Definition text_mix_frame : DataFrame :=
  frame_of 1 [(c_pay, [Num 0.9%Q]); (c_mix, [Text "high"])].

(** No utilisation column, and text in two coerced columns *)
Definition no_util_frame : DataFrame :=
  frame_of 2 [(c_cash, [Num 5%Q; Text "x"]); (c_spend, [Text "?"; Num 30%Q]);
              (c_mix, [Num 0.9%Q; NaN])].

(** *** Columns each path creates when the input lacks them *)

Definition created (p : path) : list string :=
  match p with
  | Batch => RiskUtils.REQUIRED_COLUMNS ++ [c_mixnorm] ++ flag_outputs ++ ["target_positive"]
  | Serving => numeric_cols ++ [c_mixnorm] ++ flag_outputs
  end.

(** *** The training label of the batch path *)

(** A DPD cell after [fillna(0)] *)
Definition filled0 (c : cell) : cell := if isnull c then Num 0 else c.

(** [c != 0] for one cell *)
Definition differs_from_zero (c : cell) : bool :=
  match c with Num q => negb (Qeq_bool q 0) | _ => true end.

(** Is the "Current DPD Bucket" column there with at least one value? *)
Definition has_current_dpd (df : DataFrame) : bool :=
  match columns df !! c_cur with
  | Some cur => negb (isnull_all cur)
  | None => false
  end.

(** Two records with both DPD columns *)
Definition dpd_frame : DataFrame :=
  frame_of 2 [(c_mix, [Num 0.9%Q; Num 0.9%Q]);
              (c_next, [Num 2%Q; NaN]); (c_cur, [Num 1%Q; Num 1%Q])].

(** *** Rows handed to [reasons_for_row] *)

(** The labels of the flags that are true in a row, in the order of
    [flag_labels] *)
Definition raised_in_row (r : gmap string cell) : list string :=
  snd <$> List.filter (λ cl, is_raised (r !! cl.1)) flag_labels.

(** A row whose five flags hold 0, NaN, 1, 0 and a text *)
Definition odd_row : gmap string cell :=
  list_to_map [("flag_util_spike", Num 0%Q); ("flag_min_due_streak", NaN);
               ("flag_low_pay_ratio", Num 1%Q); ("flag_cash_advance", Num 0%Q);
               ("flag_merchant_shift", Text "yes")].
(** ** early_risk_pipeline.py: reading the input and the data of the plots *)

Module Pipeline.

(** [str.lower()] on the ASCII letters.  Python also lowers letters
    outside ASCII, but none of them becomes a character of ".xls", ".xlsx"
    or ".csv", so the suffix tests below are unaffected. *)
Definition lower_ascii (a : Ascii.ascii) : Ascii.ascii :=
  let n := Ascii.N_of_ascii a in
  if (65 <=? n)%N && (n <=? 90)%N then Ascii.ascii_of_N (n + 32) else a.

Fixpoint lower (s : string) : string :=
  match s with
  | EmptyString => EmptyString
  | String a s => String (lower_ascii a) (lower s)
  end.

(** [s.endswith(suffix)] *)
Fixpoint endswith (s suffix : string) : bool :=
  if String.eqb s suffix then true
  else match s with
       | EmptyString => false
       | String _ s' => endswith s' suffix
       end.

(** The character "." *)
Definition dot : Ascii.ascii := Ascii.Ascii false true true true false true false false.

Section load_data.

(** [pd.read_excel] and [pd.read_csv], from a path to a table or an
    exception *)
Variables read_excel read_csv : string → result DataFrame.

Definition load_data (path : string) : result DataFrame :=
  if endswith (lower path) ".xls" || endswith (lower path) ".xlsx"
  then read_excel path
  else if endswith (lower path) ".csv"
       then read_csv path
       else Raise ValueError.

End load_data.

(** [s.dropna()] *)
Definition dropna (s : list cell) : list cell :=
  List.filter (λ c, negb (isnull c)) s.

(** How often [label] occurs in a column: one entry of [s.value_counts()] *)
Definition value_count (label : string) (s : list cell) : nat :=
  length (List.filter (λ c, match c with
                            | Text l => String.eqb l label
                            | _ => false
                            end) s).

(** The data of the two charts of [basic_plots]: the utilisation values
    handed to [plt.hist], and the bar heights
    [value_counts().reindex(['Low','Medium','High'], fill_value=0)].  Each is
    [None] when the column is not there and the chart is skipped. *)
Definition hist_data (df : DataFrame) : option (list cell) :=
  dropna <$> columns df !! c_util.

Definition tier_counts (df : DataFrame) : option (list nat) :=
  (λ s, (λ l, value_count l s) <$> tier_labels) <$> columns df !! "risk_tier".

End Pipeline.

(** ** server.py: the upload route *)

Module Route.

(** An entry of [request.files]: the file name and the bytes
    [file.read()] returns *)
Record FileStorage : Type := mkFile {
  filename : string;
  content : string
}.

(** The JSON body of a response *)
Inductive payload : Type :=
| no_file_uploaded                         (* {"error": "No file uploaded"} *)
| empty_file_name                          (* {"error": "Empty file name"} *)
| could_not_read (e : exn)                 (* {"error": "Could not read file: ..."} *)
| processing_error (e : exn)               (* {"error": "Processing error: ..."} *)
| scored (count : nat) (rows : list (list (string * cell))).

(** The columns of the dashboard, in the order of the source *)
Definition cols : list string :=
  ["Customer ID"; "risk_score"; "risk_tier"; "reasons";
   "Utilisation %"; "Avg Payment Ratio"; "Min Due Paid Frequency";
   "Cash Withdrawal %"].

(** [df[cols]]: the named columns that exist, in the order of [cols] *)
Definition select (df : DataFrame) (cols : list string) : list (string * list cell) :=
  omap (λ c, (λ s, (c, s)) <$> columns df !! c) cols.

(** [out.to_dict(orient="records")]: one dictionary per row *)
Definition to_records (n : nat) (out : list (string * list cell))
  : list (list (string * cell)) :=
  (λ i, omap (λ cs : string * list cell, (λ v, (cs.1, v)) <$> cs.2 !! i) out) <$> seq 0 n.

Section upload_file.

(** [pd.read_csv] and [pd.read_excel] on the uploaded bytes *)
Variables read_csv read_excel : string → result DataFrame.

(** [s.where(pd.notnull(s), None)] on one column.  What it leaves in a
    missing cell depends on the column's dtype and on the pandas version, so
    it is a parameter; the theorems assume of it only that it keeps the
    length of the column and every cell that is not missing. *)
Variable where_notnull : list cell → list cell.

(** The nested [try] that reads the stream: CSV first, Excel when that
    fails *)
Definition read_stream (bytes : string) : result DataFrame :=
  match read_csv bytes with
  | Ok df => Ok df
  | Raise _ => read_excel bytes
  end.

(** The response: status code and body *)
Definition upload_file (files : gmap string FileStorage) : nat * payload :=
  match files !! "file" with
  | None => (400, no_file_uploaded)
  | Some file =>
      if String.eqb (filename file) "" then (400, empty_file_name)
      else
        match read_stream (content file) with
        | Raise e => (400, could_not_read e)
        | Ok df =>
            match Server.compute_flags df with
            | Raise e => (500, processing_error e)
            | Ok df =>
                let cols := List.filter (has_col df) cols in
                let out := select df cols in
                let out := (λ cs : string * list cell, (cs.1, where_notnull cs.2)) <$> out in
                let records := to_records (nrows df) out in
                (200, scored (length records) records)
            end
        end
  end.

End upload_file.

End Route.

(** An upload of the first example of the specification, and the one row
    of the answer *)
Definition spike_upload : gmap string Route.FileStorage :=
  {[ "file" := Route.mkFile "may.csv" "" ]}.

Definition spike_row : list (string * cell) :=
  [("risk_score", Num 1%Q); ("risk_tier", Text "Medium");
   ("reasons", Text "Util Spike"); ("Utilisation %", Num 85%Q);
   ("Avg Payment Ratio", Num 0.9%Q); ("Min Due Paid Frequency", NaN);
   ("Cash Withdrawal %", NaN)].

(** ** Basic facts about the pandas fragment *)

Section pandas_facts.

Lemma Qltb_lt (x y : Q) : Qltb x y = true ↔ (x < y)%Q.
Proof.
  unfold Qltb. rewrite negb_true_iff, <- not_true_iff_false, Qle_bool_iff.
  split; [apply Qnot_le_lt | apply Qlt_not_le].
Qed.

Lemma Qltb_ge (x y : Q) : Qltb x y = false ↔ (y <= x)%Q.
Proof. unfold Qltb. rewrite negb_false_iff. apply Qle_bool_iff. Qed.

Lemma rbind_Ok_inv {A B} (r : result A) (f : A → result B) (b : B) :
  rbind r f = Ok b → ∃ a, r = Ok a ∧ f a = Ok b.
Proof. destruct r as [a|e]; simpl; [eauto | discriminate]. Qed.

Lemma mapR_Ok_fmap {A B} (f : A → result B) (g : A → B) (l : list A) :
  Forall (λ a, f a = Ok (g a)) l → mapR f l = Ok (g <$> l).
Proof.
  induction 1 as [|a l Ha _ IH]; simpl; [done|]. by rewrite Ha, IH.
Qed.

Lemma mapR_Ok_inv {A B} (f : A → result B) (l : list A) (bs : list B) :
  mapR f l = Ok bs → Forall2 (λ a b, f a = Ok b) l bs.
Proof.
  revert bs. induction l as [|a l IH]; simpl; intros bs H.
  - injection H as <-. constructor.
  - apply rbind_Ok_inv in H as (b & Hb & H).
    apply rbind_Ok_inv in H as (bs' & Hbs & H). injection H as <-.
    constructor; auto.
Qed.

Lemma as_float_of_float xs : as_float (of_float xs) = Ok xs.
Proof.
  unfold as_float, of_float.
  induction xs as [|x xs IH]; [done|].
  rewrite fmap_cons. cbn [mapR]. rewrite IH. by destruct x.
Qed.

Lemma as_float_numeric s : numeric s → as_float s = Ok (numv <$> s).
Proof.
  intros H. apply mapR_Ok_fmap. eapply Forall_impl; [exact H|].
  by intros [q| |t].
Qed.

Lemma as_float_Ok s xs : as_float s = Ok xs → numeric s ∧ s = of_float xs.
Proof.
  intros H%mapR_Ok_inv. induction H as [|c x s xs Hc _ [IH1 IH2]].
  - split; [constructor | done].
  - destruct c as [q| |t]; simplify_eq/=. all: split; [by constructor | done].
Qed.

Lemma numeric_of_float xs : numeric (of_float xs).
Proof.
  unfold numeric, of_float. apply Forall_fmap, Forall_true. by intros [q|].
Qed.

Lemma isnull_all_numeric s : isnull_all s = true → numeric s.
Proof.
  unfold isnull_all. rewrite forallb_forall. intros H.
  apply Forall_forall. intros c Hc%list_elem_of_In%H. by destruct c.
Qed.

Lemma to_numeric_of_float s : to_numeric s = of_float (numv <$> s).
Proof.
  unfold to_numeric, of_float. rewrite <- list_fmap_compose.
  apply list_fmap_ext. by intros _ [q| |t] _.
Qed.

Lemma fillna_of_float v xs :
  fillna (Num v) (of_float xs) = of_float ((λ x, Some (default v x)) <$> xs).
Proof.
  unfold fillna, of_float. rewrite <- !list_fmap_compose.
  apply list_fmap_ext. by intros _ [q|] _.
Qed.

Lemma series_max_of_float xs : series_max (of_float xs) = Ok (fmax xs).
Proof. unfold series_max. by rewrite as_float_of_float. Qed.

Lemma num_op_of_float f xs : num_op f (of_float xs) = Ok (of_float (f <$> xs)).
Proof. unfold num_op. by rewrite as_float_of_float. Qed.

Lemma cmp_op_of_float f xs :
  cmp_op f (of_float xs)
  = Ok ((λ x, match x with Some q => f q | None => false end) <$> xs).
Proof. unfold cmp_op. by rewrite as_float_of_float. Qed.

Lemma getitem_setitem_eq df c s : getitem (setitem df c s) c = Ok s.
Proof. unfold getitem, setitem; simpl. by rewrite lookup_insert_eq. Qed.

Lemma getitem_setitem_ne df c c' s :
  c ≠ c' → getitem (setitem df c s) c' = getitem df c'.
Proof. intros H. unfold getitem, setitem; simpl. by rewrite lookup_insert_ne. Qed.

Lemma has_col_setitem_eq df c s : has_col (setitem df c s) c = true.
Proof. unfold has_col, setitem; simpl. by rewrite lookup_insert_eq. Qed.

Lemma has_col_setitem_ne df c c' s :
  c ≠ c' → has_col (setitem df c s) c' = has_col df c'.
Proof. intros H. unfold has_col, setitem; simpl. by rewrite lookup_insert_ne. Qed.

Lemma getitem_Some df c s : columns df !! c = Some s → getitem df c = Ok s.
Proof. unfold getitem. by intros ->. Qed.

Lemma has_col_Some df c s : columns df !! c = Some s → has_col df c = true.
Proof. unfold has_col. by intros ->. Qed.

Lemma wf_setitem df c s : wf df → length s = nrows df → wf (setitem df c s).
Proof. intros H Hs. unfold wf, setitem; simpl. by apply map_Forall_insert_2. Qed.

Lemma wf_lookup df c s : wf df → columns df !! c = Some s → length s = nrows df.
Proof. intros H Hc. exact (H c s Hc). Qed.

End pandas_facts.

(** ** Running the engine on an arbitrary frame

    The two [compute_flags] read every column back from the frame they have
    just stored it in.  The lemmas of this part run those programs once and
    for all on an arbitrary frame, and show that the frame they return is
    the closed form defined above. *)

(** Membership of a literal column name in a literal list of names *)
Ltac in_list :=
  unfold RiskUtils.REQUIRED_COLUMNS, numeric_cols, flag_cols;
  rewrite ?elem_of_cons; repeat first [ left; reflexivity | right ].
Ltac notin_list :=
  unfold RiskUtils.REQUIRED_COLUMNS, numeric_cols, flag_cols;
  rewrite ?not_elem_of_cons; repeat split; first [done | apply not_elem_of_nil].

Section closed_form.

Lemma to_numeric_fnum s : to_numeric s = of_float (fnum s).
Proof. apply to_numeric_of_float. Qed.

Lemma fillna_ffill v xs : fillna (Num v) (of_float xs) = of_float (ffill v xs).
Proof. apply fillna_of_float. Qed.

Lemma div_scalar_fdiv d xs : div_scalar d (of_float xs) = Ok (of_float (fdiv d xs)).
Proof. apply num_op_of_float. Qed.

Lemma clip_fclip lo hi xs : clip lo hi (of_float xs) = Ok (of_float (fclip lo hi xs)).
Proof. apply num_op_of_float. Qed.

Lemma ge_scalar_fcmp t xs : ge_scalar t (of_float xs) = Ok (fcmp (λ q, Qle_bool t q) xs).
Proof. apply cmp_op_of_float. Qed.

Lemma gt_scalar_fcmp t xs : gt_scalar t (of_float xs) = Ok (fcmp (λ q, Qltb t q) xs).
Proof. apply cmp_op_of_float. Qed.

Lemma le_scalar_fcmp t xs : le_scalar t (of_float xs) = Ok (fcmp (λ q, Qle_bool q t) xs).
Proof. apply cmp_op_of_float. Qed.

Lemma as_float_astype_int f : as_float (astype_int f) = Ok (bits f).
Proof.
  rewrite <- (as_float_of_float (bits f)).
  f_equal. unfold astype_int, of_float, bits. by rewrite <- list_fmap_compose.
Qed.

Lemma setitem_setitem df c s s' : setitem (setitem df c s) c s' = setitem df c s'.
Proof. unfold setitem; simpl. by rewrite insert_insert_eq. Qed.

Lemma nrows_setitem df c s : nrows (setitem df c s) = nrows df.
Proof. done. Qed.

Lemma col_or_setitem_ne v df c c' s :
  c ≠ c' → col_or v (setitem df c s) c' = col_or v df c'.
Proof. intros H. unfold col_or, setitem; simpl. by rewrite lookup_insert_ne. Qed.

Lemma col_or_length v df c : wf df → length (col_or v df c) = nrows df.
Proof.
  intros H. unfold col_or. destruct (columns df !! c) as [s|] eqn:Hc; simpl.
  - by apply (wf_lookup df c).
  - apply length_replicate.
Qed.

(** One round of the coercion loop of either path. *)
Lemma coerce_step (φ : list cell → list cell) v df c :
  (let! s := getitem (if has_col df c then df else setitem_scalar df c v) c in
   Ok (setitem (if has_col df c then df else setitem_scalar df c v) c (φ s)))
  = Ok (setitem df c (φ (col_or v df c))).
Proof.
  unfold col_or, has_col, getitem, setitem_scalar.
  destruct (columns df !! c) as [s|] eqn:Hc; simpl.
  - by rewrite Hc.
  - rewrite lookup_insert_eq. simpl. by rewrite setitem_setitem.
Qed.

Lemma batch_coerce_step df c :
  (let! s := getitem (if has_col df c then df else setitem_scalar df c (Num 0)) c in
   Ok (setitem (if has_col df c then df else setitem_scalar df c (Num 0)) c
               (fillna (Num 0) (to_numeric s))))
  = Ok (setitem df c (of_float (ffill 0 (fnum (col_or (Num 0) df c))))).
Proof.
  rewrite (coerce_step (λ s, fillna (Num 0) (to_numeric s))).
  by rewrite to_numeric_fnum, fillna_ffill.
Qed.

Lemma server_coerce_step df c :
  (let! s := getitem (if has_col df c then df else setitem_scalar df c NaN) c in
   Ok (setitem (if has_col df c then df else setitem_scalar df c NaN) c
               (to_numeric s)))
  = Ok (setitem df c (of_float (fnum (col_or NaN df c)))).
Proof.
  rewrite (coerce_step to_numeric). by rewrite to_numeric_fnum.
Qed.

End closed_form.

Section tail.

Lemma row_get_setitem_eq df c s i v :
  s !! i = Some v → row_get (row (setitem df c s) i) c = Ok v.
Proof.
  intros H. unfold row_get, row, setitem; simpl.
  by rewrite lookup_omap, lookup_insert_eq; simpl; rewrite H.
Qed.

Lemma row_get_setitem_ne df c c' s i :
  c ≠ c' → row_get (row (setitem df c s) i) c' = row_get (row df i) c'.
Proof.
  intros H. unfold row_get, row, setitem; simpl.
  by rewrite !lookup_omap, lookup_insert_ne.
Qed.

Lemma astype_int_lookup f i :
  i < length f →
  astype_int f !! i = Some (Num (if nthb f i then 1 else 0)%Q).
Proof.
  intros H. unfold astype_int, nthb. rewrite list_lookup_fmap.
  destruct (lookup_lt_is_Some_2 f i H) as [b ->]. done.
Qed.

Lemma reasons_body_flags (r : gmap string cell) (b1 b2 b3 b4 b5 : bool) :
  row_get r "flag_util_spike" = Ok (Num (if b1 then 1 else 0)%Q) →
  row_get r "flag_min_due_streak" = Ok (Num (if b2 then 1 else 0)%Q) →
  row_get r "flag_low_pay_ratio" = Ok (Num (if b3 then 1 else 0)%Q) →
  row_get r "flag_cash_advance" = Ok (Num (if b4 then 1 else 0)%Q) →
  row_get r "flag_merchant_shift" = Ok (Num (if b5 then 1 else 0)%Q) →
  reasons_body r = Ok (render (labels_of b1 b2 b3 b4 b5)).
Proof.
  intros H1 H2 H3 H4 H5. unfold reasons_body.
  rewrite H1, H2, H3, H4, H5.
  by destruct b1, b2, b3, b4, b5.
Qed.

Lemma cut_Num bins labels (sc : list Q) :
  cut bins labels (Num <$> sc) = Ok (cut1 bins labels <$> sc).
Proof.
  unfold cut. replace (Num <$> sc) with (of_float (Some <$> sc)).
  - rewrite as_float_of_float. cbn [rbind]. by rewrite <- list_fmap_compose.
  - unfold of_float. by rewrite <- list_fmap_compose.
Qed.

(** The score and the reasons, on a frame that holds the five flag
    columns. *)
Lemma sum_axis1_flags (D : DataFrame) (f1 f2 f3 f4 f5 : list bool) :
  sum_axis1
    (setitem (setitem (setitem (setitem (setitem D
      "flag_util_spike" (astype_int f1))
      "flag_min_due_streak" (astype_int f2))
      "flag_low_pay_ratio" (astype_int f3))
      "flag_cash_advance" (astype_int f4))
      "flag_merchant_shift" (astype_int f5))
    flag_cols
  = Ok (Num <$> score_col (nrows D) [f1; f2; f3; f4; f5]).
Proof.
  unfold sum_axis1, flag_cols. cbn [mapR].
  repeat first [ rewrite getitem_setitem_eq
               | rewrite getitem_setitem_ne by done ].
  cbn [rbind mapR]. rewrite !as_float_astype_int. done.
Qed.

Lemma apply_rows_flags (D : DataFrame) (f1 f2 f3 f4 f5 : list bool)
    (sc t : list cell) :
  length f1 = nrows D → length f2 = nrows D → length f3 = nrows D →
  length f4 = nrows D → length f5 = nrows D →
  apply_rows reasons_body
    (setitem (setitem
    (setitem (setitem (setitem (setitem (setitem D
      "flag_util_spike" (astype_int f1))
      "flag_min_due_streak" (astype_int f2))
      "flag_low_pay_ratio" (astype_int f3))
      "flag_cash_advance" (astype_int f4))
      "flag_merchant_shift" (astype_int f5))
      "risk_score" sc)
      "risk_tier" t)
  = Ok (reasons_col (nrows D) f1 f2 f3 f4 f5).
Proof.
  intros L1 L2 L3 L4 L5. unfold apply_rows.
  rewrite (mapR_Ok_fmap _
    (λ i, render (labels_of (nthb f1 i) (nthb f2 i) (nthb f3 i)
                            (nthb f4 i) (nthb f5 i)))).
  - cbn [rbind]. rewrite <- list_fmap_compose. done.
  - apply Forall_forall. intros i Hi%elem_of_seq.
    change (nrows (setitem _ _ _)) with (nrows D) in Hi.
    apply reasons_body_flags.
    all: repeat rewrite row_get_setitem_ne by done.
    all: apply row_get_setitem_eq, astype_int_lookup; lia.
Qed.

End tail.

(** ** Merchant-mix normalisation in closed form *)

Section normalize.

Lemma numeric_fnum s : numeric s → s = of_float (fnum s).
Proof.
  unfold of_float, fnum. rewrite <- list_fmap_compose.
  induction 1 as [|c s Hc _ IH]; [done|]. rewrite fmap_cons, <- IH.
  by destruct c.
Qed.

Lemma astype_float_numeric s : numeric s → astype_float s = Ok s.
Proof.
  intros H. unfold astype_float. rewrite <- (list_fmap_id s) at 2.
  apply mapR_Ok_fmap. eapply Forall_impl; [exact H|]. by intros [q| |t].
Qed.

Lemma astype_float_Ok s r : astype_float s = Ok r → numeric s.
Proof.
  intros H%mapR_Ok_inv. induction H as [|c x s xs Hc _ IH]; [constructor|].
  constructor; [|done]. by destruct c.
Qed.

Lemma scale_clip_of_float xs :
  (let! m := series_max (of_float xs) in
   let! s := (if scalar_gt m 1.5 then div_scalar 100 (of_float xs)
              else Ok (of_float xs)) in
   clip 0 1 s)
  = Ok (of_float (fclip 0 1 (fscale xs))).
Proof.
  rewrite series_max_of_float. cbn [rbind]. unfold fscale.
  destruct (scalar_gt (fmax xs) 1.5).
  - rewrite div_scalar_fdiv. cbn [rbind]. apply clip_fclip.
  - cbn [rbind]. apply clip_fclip.
Qed.

Lemma batch_normalize_numeric s :
  numeric s → RiskUtils.normalize_merchant_mix s = Ok (of_float (mix_norm s)).
Proof.
  intros H. unfold RiskUtils.normalize_merchant_mix, mix_norm.
  destruct (isnull_all s); [by rewrite <- numeric_fnum|].
  pose proof (numeric_fnum s H) as Hs. revert Hs.
  generalize (fnum s). intros xs ->. apply scale_clip_of_float.
Qed.

Lemma batch_normalize_Ok s r :
  RiskUtils.normalize_merchant_mix s = Ok r → numeric s.
Proof.
  unfold RiskUtils.normalize_merchant_mix.
  destruct (isnull_all s) eqn:E; [intros _; by apply isnull_all_numeric|].
  intros (m & Hm & _)%rbind_Ok_inv. unfold series_max in Hm.
  apply rbind_Ok_inv in Hm as (xs & Hxs & _). by apply as_float_Ok in Hxs as [? _].
Qed.

Lemma server_normalize_numeric s :
  numeric s → Server.normalize_merchant_mix s = Ok (of_float (mix_norm s)).
Proof.
  intros H. unfold Server.normalize_merchant_mix, mix_norm.
  destruct (isnull_all s); [by rewrite <- numeric_fnum|].
  rewrite (astype_float_numeric s H). cbn [rbind].
  pose proof (numeric_fnum s H) as Hs. revert Hs.
  generalize (fnum s). intros xs ->. apply scale_clip_of_float.
Qed.

Lemma server_normalize_Ok s r :
  Server.normalize_merchant_mix s = Ok r → numeric s.
Proof.
  unfold Server.normalize_merchant_mix.
  destruct (isnull_all s) eqn:E; [intros _; by apply isnull_all_numeric|].
  intros (m & Hm & _)%rbind_Ok_inv. by apply astype_float_Ok in Hm.
Qed.

End normalize.

(** ** The batch path in closed form *)

Section batch.

Lemma defaults_columns (L : list string) (df : DataFrame) (c : string) :
  let df' := foldl (λ df c, if has_col df c then df else setitem_scalar df c NaN) df L in
  nrows df' = nrows df ∧
  columns df' !! c =
    match columns df !! c with
    | Some s => Some s
    | None => if bool_decide (c ∈ L) then Some (replicate (nrows df) NaN) else None
    end.
Proof.
  revert df. induction L as [|a L IH]; intros df; simpl.
  { split; [done|]. by destruct (columns df !! c). }
  destruct (IH (if has_col df a then df else setitem_scalar df a NaN)) as [IH1 IH2].
  rewrite IH1, IH2. clear IH IH1 IH2. unfold has_col.
  destruct (columns df !! a) as [sa|] eqn:Ha; simpl.
  - split; [done|]. destruct (columns df !! c) as [s|] eqn:Hc; [done|].
    assert (a ≠ c) by congruence.
    rewrite (bool_decide_ext (c ∈ a :: L) (c ∈ L)); [done|].
    rewrite elem_of_cons. split; [by intros [->|?] | by right].
  - split; [done|]. destruct (decide (a = c)) as [->|Hne].
    + rewrite lookup_insert_eq, Ha. rewrite bool_decide_eq_true_2; [done|].
      rewrite elem_of_cons. by left.
    + rewrite lookup_insert_ne by done. destruct (columns df !! c); [done|].
      rewrite (bool_decide_ext (c ∈ a :: L) (c ∈ L)); [done|].
      rewrite elem_of_cons. split; [by intros [->|?] | by right].
Qed.

Lemma defaults_nrows df : nrows (RiskUtils.safe_load_defaults df) = nrows df.
Proof. apply (defaults_columns RiskUtils.REQUIRED_COLUMNS df ""). Qed.

Lemma defaults_required df c :
  c ∈ RiskUtils.REQUIRED_COLUMNS →
  columns (RiskUtils.safe_load_defaults df) !! c = Some (col_or NaN df c).
Proof.
  intros Hc. unfold RiskUtils.safe_load_defaults, col_or.
  rewrite (proj2 (defaults_columns RiskUtils.REQUIRED_COLUMNS df c)).
  destruct (columns df !! c); [done|]. by rewrite bool_decide_eq_true_2.
Qed.

Lemma defaults_other df c :
  c ∉ RiskUtils.REQUIRED_COLUMNS →
  columns (RiskUtils.safe_load_defaults df) !! c = columns df !! c.
Proof.
  intros Hc. unfold RiskUtils.safe_load_defaults.
  rewrite (proj2 (defaults_columns RiskUtils.REQUIRED_COLUMNS df c)).
  destruct (columns df !! c); [done|]. by rewrite bool_decide_eq_false_2.
Qed.

Lemma defaults_keeps df c s :
  columns df !! c = Some s →
  columns (RiskUtils.safe_load_defaults df) !! c = Some s.
Proof.
  intros Hc. unfold RiskUtils.safe_load_defaults.
  rewrite (proj2 (defaults_columns RiskUtils.REQUIRED_COLUMNS df c)). by rewrite Hc.
Qed.

Lemma col_or_defaults v df c :
  c ∈ RiskUtils.REQUIRED_COLUMNS →
  col_or v (RiskUtils.safe_load_defaults df) c = col_or NaN df c.
Proof. intros Hc. unfold col_or at 1. by rewrite defaults_required. Qed.

Lemma wf_defaults df : wf df → wf (RiskUtils.safe_load_defaults df).
Proof.
  intros H c s Hc. rewrite defaults_nrows.
  unfold RiskUtils.safe_load_defaults in Hc.
  rewrite (proj2 (defaults_columns RiskUtils.REQUIRED_COLUMNS df c)) in Hc.
  destruct (columns df !! c) as [s'|] eqn:E.
  - injection Hc as <-. by apply (H c).
  - case_bool_decide; [|done]. injection Hc as <-. apply length_replicate.
Qed.

End batch.


(** Symbolic execution of the straight-line part of [compute_flags]:
    read back what was stored, and replace each series operation on a
    numeric column by its float-level counterpart. *)
Ltac run_step :=
  first [ rewrite getitem_setitem_eq
        | rewrite getitem_setitem_ne by done
        | rewrite setitem_setitem
        | rewrite div_scalar_fdiv
        | rewrite clip_fclip
        | rewrite fillna_ffill
        | rewrite ge_scalar_fcmp
        | rewrite gt_scalar_fcmp
        | rewrite le_scalar_fcmp ].
Ltac run := repeat (cbn [rbind]; run_step); cbn [rbind].

Ltac len :=
  unfold series_and, fcmp, fclip, fscale, fdiv, ffill, fnum;
  repeat first [ rewrite length_fmap | rewrite length_zip_with
               | rewrite col_or_length by assumption
               | match goal with |- context [if ?b then _ else _] => destruct b end ];
  try lia.

Section batch_exec.

Lemma batch_lengths df :
  wf df →
  length (BatchForm.f1 df) = nrows df ∧ length (BatchForm.f2 df) = nrows df ∧
  length (BatchForm.f3 df) = nrows df ∧ length (BatchForm.f4 df) = nrows df.
Proof.
  intros Hwf.
  unfold BatchForm.f1, BatchForm.f2, BatchForm.f3, BatchForm.f4, BatchForm.P,
    BatchForm.U, BatchForm.P0, BatchForm.M, BatchForm.C, BatchForm.R.
  repeat split; len.
Qed.

Lemma batch_exec df mc mm mn :
  wf df →
  length mn = nrows df →
  getitem (RiskUtils.safe_load_defaults df) mc = Ok mm →
  RiskUtils.normalize_merchant_mix mm = Ok (of_float mn) →
  RiskUtils.compute_flags df mc
  = let! tp := BatchForm.target df in Ok (BatchForm.out df mn tp).
Proof.
  intros Hwf Hmn Hmm Hnorm. unfold RiskUtils.compute_flags.
  rewrite Hmm. cbn [rbind]. rewrite Hnorm. cbn [rbind].
  unfold numeric_cols. cbn [foldM].
  do 5 (rewrite batch_coerce_step; cbn [rbind];
        rewrite ?col_or_setitem_ne by done;
        rewrite col_or_defaults by in_list).
  fold (BatchForm.U df) (BatchForm.P0 df) (BatchForm.M df) (BatchForm.C df) (BatchForm.R df).
  repeat first [ rewrite getitem_setitem_eq | rewrite getitem_setitem_ne by done ].
  cbn [rbind]. rewrite series_max_of_float. cbn [rbind].
  destruct (batch_lengths df Hwf) as (L1 & L2 & L3 & L4).
  assert (L5 : length (BatchForm.f5 mn) = nrows df) by (unfold BatchForm.f5; len).
  assert (HP : BatchForm.P df
               = fclip 0 1 (if scalar_gt (fmax (BatchForm.P0 df)) 1.5
                            then fdiv 100 (BatchForm.P0 df) else BatchForm.P0 df))
    by done.
  destruct (scalar_gt (fmax (BatchForm.P0 df)) 1.5); run; rewrite <- HP.
  all: rewrite sum_axis1_flags; run; rewrite cut_Num; cbn [rbind].
  all: unfold RiskUtils.reasons_for_row.
  all: rewrite apply_rows_flags
         by (cbn [nrows setitem]; rewrite defaults_nrows; assumption).
  all: cbn [rbind].
  all: rewrite !getitem_setitem_ne by done.
  all: rewrite !has_col_setitem_ne by done.
  all: rewrite (getitem_Some _ c_next (col_or NaN df c_next))
      by (apply defaults_required; in_list).
  all: cbn [rbind].
  all: unfold BatchForm.target, has_col, getitem.
  all: rewrite (defaults_other df c_cur) by notin_list.
  all: reflexivity.
Qed.

End batch_exec.

(** ** The serving path in closed form *)

Section server_exec.

Lemma server_lengths df :
  wf df →
  length (ServerForm.f1 df) = nrows df ∧ length (ServerForm.f2 df) = nrows df ∧
  length (ServerForm.f3 df) = nrows df ∧ length (ServerForm.f4 df) = nrows df.
Proof.
  intros Hwf.
  unfold ServerForm.f1, ServerForm.f2, ServerForm.f3, ServerForm.f4, ServerForm.P,
    ServerForm.U, ServerForm.P0, ServerForm.M, ServerForm.C, ServerForm.R.
  repeat split; len.
Qed.

(** The coercion loop and the merchant-mix branch *)
Lemma server_prefix {A} df (K : DataFrame → result A) :
  (let! df0 := foldM (λ df c,
                 let df := if has_col df c then df else setitem_scalar df c NaN in
                 let! s := getitem df c in Ok (setitem df c (to_numeric s)))
               numeric_cols df in
   let! df1 := (if has_col df0 c_mix
                then let! mm := getitem df0 c_mix in
                     let! mmn := Server.normalize_merchant_mix mm in
                     Ok (setitem df0 c_mixnorm mmn)
                else Ok (setitem_scalar df0 c_mixnorm NaN)) in
   K df1)
  = let! mmn := ServerForm.mixnorm df in
    K (setitem
         (setitem (setitem (setitem (setitem (setitem df
            c_util (of_float (ServerForm.U df)))
            c_pay (of_float (ServerForm.P0 df)))
            c_mindue (of_float (ServerForm.M df)))
            c_cash (of_float (ServerForm.C df)))
            c_spend (of_float (ServerForm.R df)))
         c_mixnorm mmn).
Proof.
  unfold numeric_cols. cbn [foldM].
  do 5 (rewrite server_coerce_step; cbn [rbind];
        rewrite ?col_or_setitem_ne by done).
  fold (ServerForm.U df) (ServerForm.P0 df) (ServerForm.M df) (ServerForm.C df)
       (ServerForm.R df).
  rewrite !has_col_setitem_ne by done. rewrite !getitem_setitem_ne by done.
  unfold ServerForm.mixnorm, has_col, getitem, col_or, setitem_scalar.
  destruct (columns df !! c_mix) as [mm|]; cbn [rbind default]; [|done].
  change (id mm) with mm. by destruct (Server.normalize_merchant_mix mm).
Qed.

Lemma server_exec df mn :
  wf df →
  length mn = nrows df →
  ServerForm.mixnorm df = Ok (of_float mn) →
  Server.compute_flags df = Ok (ServerForm.out df mn).
Proof.
  intros Hwf Hmn Hmix. unfold Server.compute_flags.
  rewrite server_prefix, Hmix. cbn [rbind].
  repeat first [ rewrite getitem_setitem_eq | rewrite getitem_setitem_ne by done ].
  cbn [rbind]. rewrite series_max_of_float. cbn [rbind].
  destruct (server_lengths df Hwf) as (L1 & L2 & L3 & L4).
  assert (L5 : length (ServerForm.f5 mn) = nrows df) by (unfold ServerForm.f5; len).
  assert (HP : ServerForm.P df
               = ffill 0 (fclip 0 1 (if scalar_gt (fmax (ServerForm.P0 df)) 1.5
                            then fdiv 100 (ServerForm.P0 df) else ServerForm.P0 df)))
    by done.
  destruct (scalar_gt (fmax (ServerForm.P0 df)) 1.5); run; rewrite <- HP.
  all: rewrite sum_axis1_flags; run; rewrite cut_Num; cbn [rbind].
  all: unfold Server.get_reasons.
  all: rewrite apply_rows_flags by (cbn [nrows setitem]; assumption).
  all: reflexivity.
Qed.

Lemma server_raise df e :
  ServerForm.mixnorm df = Raise e → Server.compute_flags df = Raise e.
Proof.
  intros Hmix. unfold Server.compute_flags. by rewrite server_prefix, Hmix.
Qed.

End server_exec.

(** ** When the engine returns, and what *)

Section engine_results.

Lemma mix_norm_length s : length (mix_norm s) = length s.
Proof. unfold mix_norm. destruct (isnull_all s); len. Qed.

Lemma mixcol_length df : wf df → length (mix_norm (mixcol df)) = nrows df.
Proof. intros H. rewrite mix_norm_length. by apply col_or_length. Qed.

Lemma getitem_defaults_mix df :
  getitem (RiskUtils.safe_load_defaults df) c_mix = Ok (mixcol df).
Proof. apply getitem_Some, defaults_required. in_list. Qed.

Lemma numeric_replicate_NaN n : numeric (replicate n NaN).
Proof. apply Forall_replicate. done. Qed.

Lemma isnull_all_replicate_NaN n : isnull_all (replicate n NaN) = true.
Proof. unfold isnull_all. induction n; simpl; auto. Qed.

Lemma server_mixnorm_numeric df :
  numeric (mixcol df) →
  ServerForm.mixnorm df = Ok (of_float (mix_norm (mixcol df))).
Proof.
  intros H. unfold ServerForm.mixnorm. fold (mixcol df).
  destruct (has_col df c_mix) eqn:E; [by apply server_normalize_numeric|].
  unfold mixcol, col_or, has_col in *.
  destruct (columns df !! c_mix); [done|]. simpl.
  unfold mix_norm. rewrite isnull_all_replicate_NaN.
  by rewrite <- numeric_fnum by apply numeric_replicate_NaN.
Qed.

Lemma server_mixnorm_Ok df r : ServerForm.mixnorm df = Ok r → numeric (mixcol df).
Proof.
  unfold ServerForm.mixnorm. fold (mixcol df).
  destruct (has_col df c_mix) eqn:E; [apply server_normalize_Ok|].
  intros _. unfold mixcol, col_or, has_col in *.
  destruct (columns df !! c_mix); [done|]. apply numeric_replicate_NaN.
Qed.

Lemma batch_raise df mc mm e :
  getitem (RiskUtils.safe_load_defaults df) mc = Ok mm →
  RiskUtils.normalize_merchant_mix mm = Raise e →
  RiskUtils.compute_flags df mc = Raise e.
Proof.
  intros Hmm Hn. unfold RiskUtils.compute_flags.
  rewrite Hmm. cbn [rbind]. by rewrite Hn.
Qed.

(** The engine returns exactly when its raising checks pass, and then
    returns the closed form. *)
Lemma engine_run p df :
  wf df → numeric (mixcol df) →
  engine p df = let! tp := target_of p df in Ok (closed p df tp).
Proof.
  intros Hwf Hnum. destruct p; simpl.
  - apply (batch_exec df c_mix (mixcol df)); auto using mixcol_length,
      getitem_defaults_mix, batch_normalize_numeric.
  - apply server_exec; auto using mixcol_length, server_mixnorm_numeric.
Qed.

Lemma engine_numeric p df out : engine p df = Ok out → numeric (mixcol df).
Proof.
  destruct p; simpl; intros H.
  - destruct (RiskUtils.normalize_merchant_mix (mixcol df)) as [r|e] eqn:E.
    + by apply batch_normalize_Ok in E.
    + by rewrite (batch_raise df c_mix (mixcol df) e) in H
        by auto using getitem_defaults_mix.
  - destruct (ServerForm.mixnorm df) as [r|e] eqn:E.
    + by apply server_mixnorm_Ok in E.
    + by rewrite (server_raise df e) in H.
Qed.

Lemma engine_inv p df out :
  wf df → engine p df = Ok out →
  numeric (mixcol df) ∧ ∃ tp, target_of p df = Ok tp ∧ out = closed p df tp.
Proof.
  intros Hwf H. pose proof (engine_numeric p df out H) as Hnum.
  split; [done|]. rewrite engine_run in H by done.
  apply rbind_Ok_inv in H as (tp & Htp & H). exists tp. split; [done|].
  by injection H.
Qed.

End engine_results.

(** ** Row-level reading of the closed form *)

Section rows.

Lemma scalar_gt_fmax xs t :
  scalar_gt (fmax xs) t
  = existsb (λ x, match x with Some q => Qltb t q | None => false end) xs.
Proof.
  induction xs as [|[q|] xs IH]; simpl; [done| |done].
  rewrite <- IH. destruct (fmax xs) as [m|]; simpl; [|by rewrite orb_false_r].
  unfold Qmaxb. destruct (Qle_bool q m) eqn:E.
  - destruct (Qltb t q) eqn:E1; [|done]. simpl.
    apply Qltb_lt. apply Qltb_lt in E1. apply Qle_bool_iff in E.
    eapply Qlt_le_trans; eauto.
  - destruct (Qltb t m) eqn:E1; [|by rewrite orb_false_r].
    rewrite orb_true_r. apply Qltb_lt. apply Qltb_lt in E1.
    apply not_true_iff_false in E. rewrite Qle_bool_iff in E.
    apply Qnot_le_lt in E. eapply Qlt_trans; eauto.
Qed.

Lemma scaled_fnum s : scalar_gt (fmax (fnum s)) 1.5 = pct_scale s.
Proof.
  rewrite scalar_gt_fmax. unfold pct_scale, fnum.
  induction s as [|c s IH]; [done|].
  rewrite fmap_cons. cbn [existsb]. by rewrite IH.
Qed.

Lemma scaled_ffill_fnum s : scalar_gt (fmax (ffill 0 (fnum s))) 1.5 = pct_scale s.
Proof.
  rewrite scalar_gt_fmax. unfold pct_scale, ffill, fnum.
  induction s as [|c s IH]; [done|].
  rewrite !fmap_cons. cbn [existsb]. rewrite IH. by destruct c.
Qed.

Lemma field_lookup df c i :
  wf df → i < nrows df → col_or NaN df c !! i = Some (field df c i).
Proof.
  intros Hwf Hi. unfold field.
  destruct (lookup_lt_is_Some_2 (col_or NaN df c) i) as [x ->]; [|done].
  by rewrite col_or_length.
Qed.

Lemma fscale_lookup xs i :
  fscale xs !! i
  = fmap (λ q, if scalar_gt (fmax xs) 1.5 then q / 100 else q)%Q <$> xs !! i.
Proof.
  unfold fscale, fdiv. destruct (scalar_gt (fmax xs) 1.5).
  - by rewrite list_lookup_fmap.
  - destruct (xs !! i) as [[q|]|]; done.
Qed.

Lemma mix_norm_lookup s i :
  of_float (mix_norm s) !! i = mix_stored (pct_scale s) <$> s !! i.
Proof.
  unfold mix_norm, of_float, mix_stored, rescale. rewrite list_lookup_fmap.
  destruct (isnull_all s) eqn:E.
  - unfold fnum. rewrite list_lookup_fmap.
    destruct (s !! i) as [c|] eqn:Hc; [|done]. simpl.
    unfold isnull_all in E. rewrite forallb_forall in E.
    specialize (E c). rewrite <- list_elem_of_In in E.
    assert (isnull c = true) by (apply E; eapply list_elem_of_lookup_2; eauto).
    by destruct c.
  - unfold fclip. rewrite list_lookup_fmap, fscale_lookup, scaled_fnum.
    unfold fnum. rewrite list_lookup_fmap.
    destruct (s !! i) as [c|]; [|done]. simpl. by destruct (numv c).
Qed.

End rows.

Section row_facts.

Lemma mix_norm_lookup_float s i :
  mix_norm s !! i = (λ c, rescale (pct_scale s) <$> numv c) <$> s !! i.
Proof.
  pose proof (mix_norm_lookup s i) as H. unfold of_float, mix_stored in H.
  rewrite list_lookup_fmap in H.
  destruct (mix_norm s !! i) as [x|], (s !! i) as [c|]; simplify_eq/=; [|done].
  f_equal. destruct x as [q|], (numv c) as [q'|]; simplify_eq/=; done.
Qed.

Lemma foldl_zip_add_lookup (xss : list (list (option Q))) (acc : list Q)
    (i : nat) (a : Q) (xs : list (option Q)) :
  acc !! i = Some a →
  Forall2 (λ l x, l !! i = Some x) xss xs →
  foldl (zip_with add_skipna) acc xss !! i = Some (foldl add_skipna a xs).
Proof.
  intros Ha H. revert acc a Ha.
  induction H as [|l x xss xs Hl _ IH]; intros acc a Ha; simpl; [done|].
  apply IH. by rewrite lookup_zip_with, Ha; simpl; rewrite Hl.
Qed.

Lemma nthb_lookup f i b : f !! i = Some b → nthb f i = b.
Proof. unfold nthb. by intros ->. Qed.

Lemma cell_at_setitem_eq D c s i : cell_at (setitem D c s) c i = s !! i.
Proof. unfold cell_at, setitem; simpl. by rewrite lookup_insert_eq. Qed.

Lemma cell_at_setitem_ne D c c' s i :
  c ≠ c' → cell_at (setitem D c s) c' i = cell_at D c' i.
Proof. intros H. unfold cell_at, setitem; simpl. by rewrite lookup_insert_ne. Qed.

Lemma with_flags_cells D f1 f2 f3 f4 f5 i b1 b2 b3 b4 b5 :
  f1 !! i = Some b1 → f2 !! i = Some b2 → f3 !! i = Some b3 →
  f4 !! i = Some b4 → f5 !! i = Some b5 → i < nrows D →
  let out := with_flags D f1 f2 f3 f4 f5 in
  (λ c, cell_at out c i) <$> flag_cols
    = (λ b, Some (flag_cell b)) <$> [b1; b2; b3; b4; b5] ∧
  cell_at out "risk_score" i = Some (Num (score_of [b1; b2; b3; b4; b5])) ∧
  cell_at out "risk_tier" i
    = Some (cut1 tier_bins tier_labels (score_of [b1; b2; b3; b4; b5])) ∧
  cell_at out "reasons" i = Some (Text (render (labels_of b1 b2 b3 b4 b5))).
Proof.
  intros H1 H2 H3 H4 H5 Hi out.
  assert (Hsc : score_col (nrows D) [f1; f2; f3; f4; f5] !! i
                = Some (score_of [b1; b2; b3; b4; b5])).
  { unfold score_col, score_of.
    apply foldl_zip_add_lookup; [by apply lookup_replicate_2|].
    repeat constructor; unfold bits; rewrite list_lookup_fmap;
      by rewrite ?H1, ?H2, ?H3, ?H4, ?H5. }
  assert (Hfl : ∀ f b, f !! i = Some b → astype_int f !! i = Some (flag_cell b)).
  { intros f b Hf. unfold astype_int. by rewrite list_lookup_fmap, Hf. }
  unfold out, with_flags, flag_cols. cbn zeta. repeat split.
  - cbn [fmap list_fmap].
    repeat first [ rewrite cell_at_setitem_eq | rewrite cell_at_setitem_ne by done ].
    by rewrite (Hfl _ _ H1), (Hfl _ _ H2), (Hfl _ _ H3), (Hfl _ _ H4), (Hfl _ _ H5).
  - repeat first [ rewrite cell_at_setitem_eq | rewrite cell_at_setitem_ne by done ].
    by rewrite list_lookup_fmap, Hsc.
  - repeat first [ rewrite cell_at_setitem_eq | rewrite cell_at_setitem_ne by done ].
    unfold tier_col. by rewrite list_lookup_fmap, Hsc.
  - rewrite cell_at_setitem_eq. unfold reasons_col.
    rewrite list_lookup_fmap, lookup_seq_lt by done. simpl.
    by rewrite (nthb_lookup _ _ _ H1), (nthb_lookup _ _ _ H2),
      (nthb_lookup _ _ _ H3), (nthb_lookup _ _ _ H4), (nthb_lookup _ _ _ H5).
Qed.

Lemma with_flags_other D f1 f2 f3 f4 f5 c :
  c ∉ flag_outputs →
  columns (with_flags D f1 f2 f3 f4 f5) !! c = columns D !! c.
Proof.
  unfold flag_outputs. rewrite !not_elem_of_cons. intros (?&?&?&?&?&?&?&?&_).
  unfold with_flags, setitem; cbn. by rewrite !lookup_insert_ne.
Qed.

End row_facts.

Section engine_rows.

Variables (df : DataFrame) (i : nat).
Hypothesis Hwf : wf df.
Hypothesis Hi : i < nrows df.

Local Ltac look :=
  repeat first [ rewrite lookup_zip_with | rewrite list_lookup_fmap
               | rewrite fscale_lookup | rewrite mix_norm_lookup_float
               | rewrite field_lookup by assumption ];
  cbn [fmap option_fmap option_map mbind option_bind].

Lemma batch_flags_lookup :
  Forall2 (λ f b, f !! i = Some b)
    [BatchForm.f1 df; BatchForm.f2 df; BatchForm.f3 df; BatchForm.f4 df;
     BatchForm.f5 (mix_norm (mixcol df))]
    (row_flags df i).
Proof.
  unfold row_flags.
  repeat constructor.
  - unfold BatchForm.f1, BatchForm.U, BatchForm.R, series_and, fcmp, ffill, fnum. by look.
  - unfold BatchForm.f2, BatchForm.M, fcmp, ffill, fnum. by look.
  - unfold BatchForm.f3, BatchForm.P, BatchForm.P0, fcmp, fclip.
    look. rewrite scaled_ffill_fnum. unfold ffill, fnum. by look.
  - unfold BatchForm.f4, BatchForm.U, BatchForm.C, series_and, fcmp, ffill, fnum. by look.
  - unfold BatchForm.f5, fcmp, mixcol. look.
    unfold rule_merchant_shift. by destruct (numv (field df c_mix i)).
Qed.

Lemma server_flags_lookup :
  Forall2 (λ f b, f !! i = Some b)
    [ServerForm.f1 df; ServerForm.f2 df; ServerForm.f3 df; ServerForm.f4 df;
     ServerForm.f5 (mix_norm (mixcol df))]
    (row_flags df i).
Proof.
  unfold row_flags.
  repeat constructor.
  - unfold ServerForm.f1, ServerForm.U, ServerForm.R, series_and, fcmp, ffill, fnum. by look.
  - unfold ServerForm.f2, ServerForm.M, fcmp, ffill, fnum. by look.
  - unfold ServerForm.f3, ServerForm.P, ServerForm.P0, fcmp, ffill, fclip.
    look. rewrite scaled_fnum. unfold fnum. look.
    unfold rule_low_pay_ratio, n0.
    destruct (numv (field df c_pay i)); [done|].
    by destruct (pct_scale (col_or NaN df c_pay)).
  - unfold ServerForm.f4, ServerForm.U, ServerForm.C, series_and, fcmp, ffill, fnum. by look.
  - unfold ServerForm.f5, fcmp, ffill, mixcol. look.
    unfold rule_merchant_shift. by destruct (numv (field df c_mix i)).
Qed.

Lemma batch_pay_lookup :
  of_float (BatchForm.P df) !! i
  = Some (Num (pay_stored Batch (pct_scale (col_or NaN df c_pay)) (field df c_pay i))).
Proof.
  unfold of_float, BatchForm.P, BatchForm.P0, fclip. look.
  rewrite scaled_ffill_fnum. unfold ffill, fnum. by look.
Qed.

Lemma server_pay_lookup :
  of_float (ServerForm.P df) !! i
  = Some (Num (pay_stored Serving (pct_scale (col_or NaN df c_pay)) (field df c_pay i))).
Proof.
  unfold of_float, ServerForm.P, ServerForm.P0, ffill, fclip. look.
  rewrite scaled_fnum. unfold fnum. look.
  unfold pay_stored, rescale. by destruct (numv (field df c_pay i)).
Qed.

Lemma mix_lookup :
  of_float (mix_norm (mixcol df)) !! i
  = Some (mix_stored (pct_scale (mixcol df)) (field df c_mix i)).
Proof. rewrite mix_norm_lookup. unfold mixcol. by rewrite field_lookup. Qed.

Lemma closed_row p tp : row_spec p df (closed p df tp) i.
Proof.
  destruct p; unfold closed.
  - pose proof batch_flags_lookup as H. unfold row_flags in H.
    apply Forall2_cons_1 in H as [H1 H]. apply Forall2_cons_1 in H as [H2 H].
    apply Forall2_cons_1 in H as [H3 H]. apply Forall2_cons_1 in H as [H4 H].
    apply Forall2_cons_1 in H as [H5 _].
    destruct (with_flags_cells (BatchForm.pre df (mix_norm (mixcol df)))
                _ _ _ _ _ i _ _ _ _ _ H1 H2 H3 H4 H5)
      as (Hf & Hs & Ht & Hr).
    { unfold BatchForm.pre. cbn [nrows setitem]. by rewrite defaults_nrows. }
    unfold BatchForm.out, BatchForm.flagged.
    split; unfold row_flags, flag_cols; cbn [fmap list_fmap labels_of_list];
      rewrite ?cell_at_setitem_ne by done; try assumption.
    + unfold cell_at. rewrite with_flags_other by (unfold flag_outputs; notin_list).
      unfold BatchForm.pre; cbn [columns setitem]. rewrite lookup_insert_eq. cbn [mbind option_bind].
      apply batch_pay_lookup.
    + unfold cell_at. rewrite with_flags_other by (unfold flag_outputs; notin_list).
      unfold BatchForm.pre; cbn [columns setitem]. rewrite !lookup_insert_ne by done.
      rewrite lookup_insert_eq. cbn [mbind option_bind]. apply mix_lookup.
  - pose proof server_flags_lookup as H. unfold row_flags in H.
    apply Forall2_cons_1 in H as [H1 H]. apply Forall2_cons_1 in H as [H2 H].
    apply Forall2_cons_1 in H as [H3 H]. apply Forall2_cons_1 in H as [H4 H].
    apply Forall2_cons_1 in H as [H5 _].
    destruct (with_flags_cells (ServerForm.pre df (mix_norm (mixcol df)))
                _ _ _ _ _ i _ _ _ _ _ H1 H2 H3 H4 H5)
      as (Hf & Hs & Ht & Hr).
    { unfold ServerForm.pre. by cbn [nrows setitem]. }
    unfold ServerForm.out.
    split; unfold row_flags, flag_cols; cbn [fmap list_fmap labels_of_list];
      try assumption.
    + unfold cell_at. rewrite with_flags_other by (unfold flag_outputs; notin_list).
      unfold ServerForm.pre; cbn [columns setitem]. rewrite lookup_insert_eq. cbn [mbind option_bind].
      apply server_pay_lookup.
    + unfold cell_at. rewrite with_flags_other by (unfold flag_outputs; notin_list).
      unfold ServerForm.pre; cbn [columns setitem]. rewrite !lookup_insert_ne by done.
      rewrite lookup_insert_eq. cbn [mbind option_bind]. apply mix_lookup.
Qed.

Lemma engine_row p out : engine p df = Ok out → row_spec p df out i.
Proof.
  intros (_ & tp & _ & ->)%engine_inv; [|done]. apply closed_row.
Qed.

End engine_rows.

(** ** The sample tables are well formed *)

Lemma wf_frame_of n cols :
  Forall (λ cs : string * list cell, length cs.2 = n) cols → wf (frame_of n cols).
Proof.
  unfold wf, frame_of; simpl. induction 1 as [|[c s] cols Hs _ IH]; simpl.
  - apply map_Forall_empty.
  - by apply map_Forall_insert_2.
Qed.

Lemma wf_spike_frame : wf spike_frame.
Proof. apply wf_frame_of. repeat constructor. Defined.

Lemma engine_spike_frame p : engine p spike_frame = Ok (spike_out p).
Proof. destruct p; vm_compute; reflexivity. Defined.

(** ** C1: the score counts the raised flags *)

Section score.

Lemma score_of_count b1 b2 b3 b4 b5 :
  score_of [b1; b2; b3; b4; b5]
  = inject_Z (Z.of_nat (count_true [b1; b2; b3; b4; b5])).
Proof. by destruct b1, b2, b3, b4, b5. Qed.

Lemma row_flags_five df i :
  ∃ b1 b2 b3 b4 b5, row_flags df i = [b1; b2; b3; b4; b5].
Proof. unfold row_flags. eauto 10. Qed.

Lemma is_raised_flag_cell b : is_raised (Some (flag_cell b)) = b.
Proof. by destruct b. Qed.

End score.

(** C1.  For every table the engine accepts, on either path, and every
    record [i] of it: each of the five flag columns holds 0 or 1, and
    [risk_score] is the number of flags that are true, an integer between
    0 and 5. *)
Theorem C1_risk_score_counts_true_flags (p : path) (df out : DataFrame) (i : nat) :
  wf df → engine p df = Ok out → i < nrows df →
  Forall (λ c, cell_at out c i = Some (Num 0) ∨ cell_at out c i = Some (Num 1))
         flag_cols ∧
  cell_at out "risk_score" i = Some (Num (inject_Z (Z.of_nat (true_flags out i)))) ∧
  true_flags out i ≤ 5.
Proof.
  intros Hwf Hrun Hi.
  destruct (engine_row df i Hwf Hi p out Hrun) as [Hf Hs _ _ _ _].
  destruct (row_flags_five df i) as (b1 & b2 & b3 & b4 & b5 & Hb).
  rewrite Hb in Hf, Hs. unfold true_flags, flag_cols in *.
  cbn [fmap list_fmap] in *. injection Hf as H1 H2 H3 H4 H5.
  rewrite H1, H2, H3, H4, H5, !is_raised_flag_cell. split; [|split].
  - repeat (apply Forall_cons; split); [..|apply Forall_nil].
    all: rewrite ?H1, ?H2, ?H3, ?H4, ?H5; unfold flag_cell.
    all: try match goal with |- context [if ?b then _ else _] => destruct b end; auto.
  - by rewrite Hs, score_of_count.
  - destruct b1, b2, b3, b4, b5; simpl; lia.
Qed.

Lemma C1_witness :
  cell_at (spike_out Batch) "risk_score" 0
  = Some (Num (inject_Z (Z.of_nat (true_flags (spike_out Batch) 0)))).
Proof.
  apply (C1_risk_score_counts_true_flags Batch spike_frame (spike_out Batch) 0).
  - apply wf_spike_frame.
  - apply engine_spike_frame.
  - simpl; lia.
Defined.

(** ** C2: the tier is a function of the score *)

Section tier.

Lemma cut1_tier_bounds (x : Q) :
  (cut1 tier_bins tier_labels x = Text "Low" ↔ (-1 < x ∧ x <= 0)%Q) ∧
  (cut1 tier_bins tier_labels x = Text "Medium" ↔ (0 < x ∧ x <= 1)%Q) ∧
  (cut1 tier_bins tier_labels x = Text "High" ↔ (1 < x ∧ x <= 999)%Q).
Proof.
  unfold tier_bins, tier_labels. cbn [cut1].
  destruct (Qltb (-1) x) eqn:E1, (Qle_bool x 0) eqn:E2,
           (Qltb 0 x) eqn:E3, (Qle_bool x 1) eqn:E4,
           (Qltb 1 x) eqn:E5, (Qle_bool x 999) eqn:E6; cbn [andb].
  all: rewrite ?Qltb_lt, ?Qltb_ge in *.
  all: rewrite ?Qle_bool_iff in *.
  all: repeat match goal with
         | H : Qle_bool _ _ = false |- _ =>
             apply not_true_iff_false in H; rewrite Qle_bool_iff in H;
             apply Qnot_le_lt in H
         end.
  all: repeat split; intros; try discriminate; try lra.
Qed.

Lemma tier_of_count (n : nat) :
  n ≤ 5 →
  let q := inject_Z (Z.of_nat n) in
  (cut1 tier_bins tier_labels q = Text "Low" ↔ q == 0) ∧
  (cut1 tier_bins tier_labels q = Text "Medium" ↔ q == 1) ∧
  (cut1 tier_bins tier_labels q = Text "High" ↔ (2 <= q)%Q).
Proof.
  intros Hn. do 6 (destruct n as [|n]; [by vm_compute|]). lia.
Qed.

End tier.

(** C2.  For every record the engine returns, [risk_tier] is the [pd.cut]
    label of that record's [risk_score]: Low exactly when the score is 0,
    Medium exactly when it is 1, High exactly when it is at least 2.  The
    three buckets are the left-open, right-closed intervals (-1,0], (0,1]
    and (1,999]. *)
Theorem C2_risk_tier_from_score (p : path) (df out : DataFrame) (i : nat) :
  wf df → engine p df = Ok out → i < nrows df →
  (∃ q : Q,
     cell_at out "risk_score" i = Some (Num q) ∧
     cell_at out "risk_tier" i = Some (cut1 tier_bins tier_labels q) ∧
     (cell_at out "risk_tier" i = Some (Text "Low") ↔ q == 0) ∧
     (cell_at out "risk_tier" i = Some (Text "Medium") ↔ q == 1) ∧
     (cell_at out "risk_tier" i = Some (Text "High") ↔ (2 <= q)%Q)) ∧
  (∀ x : Q,
     (cut1 tier_bins tier_labels x = Text "Low" ↔ (-1 < x ∧ x <= 0)%Q) ∧
     (cut1 tier_bins tier_labels x = Text "Medium" ↔ (0 < x ∧ x <= 1)%Q) ∧
     (cut1 tier_bins tier_labels x = Text "High" ↔ (1 < x ∧ x <= 999)%Q)).
Proof.
  intros Hwf Hrun Hi. split; [|apply cut1_tier_bounds].
  destruct (engine_row df i Hwf Hi p out Hrun) as [_ Hs Ht _ _ _].
  destruct (row_flags_five df i) as (b1 & b2 & b3 & b4 & b5 & Hb).
  rewrite Hb, score_of_count in Hs, Ht.
  set (n := count_true [b1; b2; b3; b4; b5]) in *.
  assert (Hn : n ≤ 5) by (unfold n; destruct b1, b2, b3, b4, b5; simpl; lia).
  destruct (tier_of_count n Hn) as (HL & HM & HH).
  exists (inject_Z (Z.of_nat n)). rewrite Ht. repeat split; try done.
  all: intros H; first [ injection H as H | f_equal ];
    first [ by apply HL | by apply HM | by apply HH ].
Qed.

Lemma C2_witness :
  cell_at (spike_out Serving) "risk_score" 0 = Some (Num 1) ∧
  cell_at (spike_out Serving) "risk_tier" 0 = Some (Text "Medium").
Proof.
  destruct (C2_risk_tier_from_score Serving spike_frame (spike_out Serving) 0)
    as [(q & Hq & _ & _ & HM & _) _].
  - apply wf_spike_frame.
  - apply engine_spike_frame.
  - simpl; lia.
  - split; [by vm_compute|]. apply HM.
    assert (Some (Num q) = Some (Num 1)) as [= ->]; [|reflexivity].
    rewrite <- Hq. by vm_compute.
Defined.

(** ** C9: the reasons string *)

(** C9.  For every record the engine returns, [reasons] is the labels of
    exactly the flags that are true on that record, in declaration order
    and separated by ", ", and is the string "None" when no flag is
    true. *)
Theorem C9_reasons_list_the_true_flags (p : path) (df out : DataFrame) (i : nat) :
  wf df → engine p df = Ok out → i < nrows df →
  cell_at out "reasons" i
  = Some (Text (match raised_labels out i with
                | [] => "None"
                | ls => String.concat ", " ls
                end)).
Proof.
  intros Hwf Hrun Hi.
  destruct (engine_row df i Hwf Hi p out Hrun) as [Hf _ _ Hr _ _].
  destruct (row_flags_five df i) as (b1 & b2 & b3 & b4 & b5 & Hb).
  rewrite Hb in Hf, Hr. unfold flag_cols in Hf. cbn [fmap list_fmap] in Hf.
  injection Hf as H1 H2 H3 H4 H5.
  rewrite Hr. unfold raised_labels, flag_labels. cbn [List.filter fst].
  rewrite H1, H2, H3, H4, H5, !is_raised_flag_cell.
  by destruct b1, b2, b3, b4, b5.
Qed.

Lemma C9_witness :
  cell_at (spike_out Batch) "reasons" 0 = Some (Text "Util Spike").
Proof.
  rewrite (C9_reasons_list_the_true_flags Batch spike_frame (spike_out Batch) 0).
  - by vm_compute.
  - apply wf_spike_frame.
  - apply engine_spike_frame.
  - simpl; lia.
Defined.

(** ** C3: a missing payment ratio *)

Lemma wf_no_ratio_frame : wf no_ratio_frame.
Proof. apply wf_frame_of. repeat constructor. Defined.

Lemma engine_no_ratio_frame p :
  engine p no_ratio_frame = Ok (run_or_self p no_ratio_frame).
Proof. destruct p; vm_compute; reflexivity. Defined.

(** C3.  What the code does with a missing payment ratio: on both paths
    the record is flagged.  On the serving path the column has already been
    filled with 0 when the flag is computed (the stored cell is 0), so the
    later [fillna(1)] finds nothing to fill. *)
Theorem C3_missing_ratio_is_flagged (p : path) (df out : DataFrame) (i : nat) :
  wf df → engine p df = Ok out → i < nrows df →
  numv (field df c_pay i) = None →
  cell_at out "flag_low_pay_ratio" i = Some (Num 1) ∧
  (p = Serving → cell_at out c_pay i = Some (Num 0)).
Proof.
  intros Hwf Hrun Hi Hmiss.
  destruct (engine_row df i Hwf Hi p out Hrun) as [Hf _ _ _ Hp _].
  unfold row_flags, flag_cols in Hf. cbn [fmap list_fmap] in Hf.
  injection Hf as _ _ H3 _ _. split.
  - rewrite H3. unfold rule_low_pay_ratio, n0. rewrite Hmiss.
    by destruct (pct_scale (col_or NaN df c_pay)).
  - intros ->. rewrite Hp. unfold pay_stored. by rewrite Hmiss.
Qed.

Lemma C3_witness :
  cell_at (run_or_self Serving no_ratio_frame) "flag_low_pay_ratio" 0 = Some (Num 1) ∧
  cell_at (run_or_self Serving no_ratio_frame) c_pay 0 = Some (Num 0).
Proof.
  destruct (C3_missing_ratio_is_flagged Serving no_ratio_frame
              (run_or_self Serving no_ratio_frame) 0) as [H1 H2].
  - apply wf_no_ratio_frame.
  - apply engine_no_ratio_frame.
  - simpl; lia.
  - by vm_compute.
  - split; [exact H1 | exact (H2 eq_refl)].
Defined.

(** ** C4: the range of the normalised values *)

Lemma wf_no_mix_frame : wf no_mix_frame.
Proof. apply wf_frame_of. repeat constructor. Defined.

Lemma engine_no_mix_frame p :
  engine p no_mix_frame = Ok (run_or_self p no_mix_frame).
Proof. destruct p; vm_compute; reflexivity. Defined.

(** C4 as stated fails: with no merchant-mix column the engine returns,
    on either path, a [MerchantMix_norm] that is missing, not a number of
    [0,1]. *)
Lemma C4_counterexample :
  wf no_mix_frame ∧ no_mix_run Batch ∧ no_mix_run Serving.
Proof.
  split; [apply wf_no_mix_frame|].
  assert (H : ∀ p, no_mix_run p); [|by split].
  intros p. split; [apply engine_no_mix_frame|].
  assert (H : cell_at (run_or_self p no_mix_frame) c_mixnorm 0 = Some NaN)
    by (destruct p; vm_compute; reflexivity).
  split; [exact H|]. rewrite H. intros (q & Hq & _). discriminate.
Qed.

Section unit_interval.

Lemma clipq_unit q : (0 <= clipq 0 1 q ∧ clipq 0 1 q <= 1)%Q.
Proof.
  unfold clipq. destruct (Qltb q 0) eqn:E0; [split; lra|].
  destruct (Qltb 1 q) eqn:E1; [split; lra|].
  apply Qltb_ge in E0, E1. done.
Qed.

Lemma rescale_unit b q : (0 <= rescale b q ∧ rescale b q <= 1)%Q.
Proof. apply clipq_unit. Qed.

Lemma pay_stored_unit p b a : (0 <= pay_stored p b a ∧ pay_stored p b a <= 1)%Q.
Proof.
  destruct p; simpl; [apply rescale_unit|].
  destruct (numv a); simpl; [apply rescale_unit | split; lra].
Qed.

End unit_interval.

(** C4, amended.  The normalised payment ratio, which the engine writes
    back into "Avg Payment Ratio", is always a number of [0,1].
    [MerchantMix_norm] is a number of [0,1] on every record that has a
    merchant-mix value, and is missing on every record that has none. *)
Theorem C4_normalised_values_range (p : path) (df out : DataFrame) (i : nat) :
  wf df → engine p df = Ok out → i < nrows df →
  in_unit_interval (cell_at out c_pay i) ∧
  match field df c_mix i with
  | Num _ => in_unit_interval (cell_at out c_mixnorm i)
  | _ => cell_at out c_mixnorm i = Some NaN
  end.
Proof.
  intros Hwf Hrun Hi.
  destruct (engine_row df i Hwf Hi p out Hrun) as [_ _ _ _ Hp Hm].
  split.
  - eexists. split; [exact Hp|]. apply pay_stored_unit.
  - rewrite Hm. destruct (field df c_mix i) as [q| |t]; try done.
    eexists. split; [reflexivity|]. apply rescale_unit.
Qed.

Lemma C4_witness :
  in_unit_interval (cell_at (spike_out Batch) c_pay 0) ∧
  in_unit_interval (cell_at (spike_out Batch) c_mixnorm 0).
Proof.
  destruct (C4_normalised_values_range Batch spike_frame (spike_out Batch) 0)
    as [H1 H2].
  - apply wf_spike_frame.
  - apply engine_spike_frame.
  - simpl; lia.
  - split; [exact H1 | exact H2].
Defined.

(** ** C8: what the flags of a record depend on *)

(** C8 as stated fails: appending a record whose payment ratio is on the
    percent scale makes the engine divide the whole column by 100, which
    raises [flag_low_pay_ratio] (and the score and tier) on the record that
    was already there, whose own fields have not changed. *)
Lemma C8_counterexample :
  Forall (λ c, field lone_frame_extended c 0 = field lone_frame c 0) rule_inputs ∧
  lone_runs Batch ∧ lone_runs Serving.
Proof.
  split; [repeat constructor|].
  split; vm_compute; repeat split; reflexivity.
Qed.

(** C8, amended.  The flags, score, tier and reasons of a record are a
    function of that record's own six rule inputs together with two facts
    about the whole table: whether some payment ratio exceeds 1.5 and
    whether some merchant-mix value exceeds 1.5.  Two records of two
    accepted tables that agree on these have the same outputs; so adding
    or removing other records changes nothing as long as the two
    column-wide facts stay the same. *)
Theorem C8_flags_depend_on_row_and_scale (p : path) (df1 df2 out1 out2 : DataFrame)
    (i j : nat) :
  wf df1 → wf df2 →
  engine p df1 = Ok out1 → engine p df2 = Ok out2 →
  i < nrows df1 → j < nrows df2 →
  (∀ c, c ∈ rule_inputs → field df1 c i = field df2 c j) →
  pct_scale (col_or NaN df1 c_pay) = pct_scale (col_or NaN df2 c_pay) →
  pct_scale (mixcol df1) = pct_scale (mixcol df2) →
  ∀ c, c ∈ rule_outputs → cell_at out1 c i = cell_at out2 c j.
Proof.
  intros Hwf1 Hwf2 Hrun1 Hrun2 Hi Hj Hfields Hps Hms.
  destruct (engine_row df1 i Hwf1 Hi p out1 Hrun1) as [Hf1 Hs1 Ht1 Hr1 _ _].
  destruct (engine_row df2 j Hwf2 Hj p out2 Hrun2) as [Hf2 Hs2 Ht2 Hr2 _ _].
  assert (Hrow : row_flags df1 i = row_flags df2 j).
  { unfold row_flags. rewrite Hps, Hms.
    rewrite !Hfields by (unfold rule_inputs; in_list). done. }
  rewrite Hrow in *. unfold flag_cols in Hf1, Hf2.
  destruct (row_flags_five df2 j) as (b1 & b2 & b3 & b4 & b5 & Hb).
  rewrite Hb in *. cbn [fmap list_fmap] in Hf1, Hf2.
  injection Hf1 as ?????. injection Hf2 as ?????.
  intros c. unfold rule_outputs, flag_cols. cbn [app].
  rewrite !elem_of_cons, elem_of_nil.
  intros [->|[->|[->|[->|[->|[->|[->|[->|[]]]]]]]]]; congruence.
Qed.

Lemma C8_witness :
  cell_at (run_or_self Serving lone_frame) "flag_low_pay_ratio" 0
  = cell_at (run_or_self Serving lone_frame_grown) "flag_low_pay_ratio" 0.
Proof.
  apply (C8_flags_depend_on_row_and_scale Serving lone_frame lone_frame_grown
           (run_or_self Serving lone_frame) (run_or_self Serving lone_frame_grown)
           0 0).
  - apply wf_frame_of. repeat constructor.
  - apply wf_frame_of. repeat constructor.
  - vm_compute; reflexivity.
  - vm_compute; reflexivity.
  - simpl; lia.
  - simpl; lia.
  - intros c. unfold rule_inputs. rewrite !elem_of_cons, elem_of_nil.
    intros [->|[->|[->|[->|[->|[->|[]]]]]]]; vm_compute; reflexivity.
  - vm_compute; reflexivity.
  - vm_compute; reflexivity.
  - unfold rule_outputs, flag_cols. cbn [app]. in_list.
Defined.

(** ** The input columns of the returned frame *)

Section returned_inputs.

Lemma closed_nrows p df tp : nrows (closed p df tp) = nrows df.
Proof.
  destruct p; unfold closed, BatchForm.out, BatchForm.flagged, ServerForm.out,
    with_flags, BatchForm.pre, ServerForm.pre; cbn [nrows setitem]; [|done].
  apply defaults_nrows.
Qed.

Lemma closed_lookup_pay p df tp :
  columns (closed p df tp) !! c_pay
  = Some (of_float (match p with Batch => BatchForm.P df | Serving => ServerForm.P df end)).
Proof.
  destruct p; unfold closed, BatchForm.out, BatchForm.flagged, ServerForm.out;
    cbn [columns setitem]; rewrite ?lookup_insert_ne by done;
    rewrite with_flags_other by (unfold flag_outputs; notin_list);
    unfold BatchForm.pre, ServerForm.pre; cbn [columns setitem];
    by rewrite lookup_insert_eq.
Qed.

Lemma closed_lookup_mixnorm p df tp :
  columns (closed p df tp) !! c_mixnorm = Some (of_float (mix_norm (mixcol df))).
Proof.
  destruct p; unfold closed, BatchForm.out, BatchForm.flagged, ServerForm.out;
    cbn [columns setitem]; rewrite ?lookup_insert_ne by done;
    rewrite with_flags_other by (unfold flag_outputs; notin_list);
    unfold BatchForm.pre, ServerForm.pre; cbn [columns setitem];
    rewrite !lookup_insert_ne by done; by rewrite lookup_insert_eq.
Qed.

Lemma closed_lookup_input p df tp c :
  c ∈ [c_util; c_mindue; c_cash; c_spend] →
  columns (closed p df tp) !! c
  = Some (of_float (match p with
                    | Batch => ffill 0 (fnum (col_or NaN df c))
                    | Serving => fnum (col_or NaN df c)
                    end)).
Proof.
  rewrite !elem_of_cons, elem_of_nil. intros Hc.
  destruct p; unfold closed, BatchForm.out, BatchForm.flagged, ServerForm.out;
    cbn [columns setitem].
  all: destruct Hc as [->|[->|[->|[->|[]]]]].
  all: rewrite ?lookup_insert_ne by done.
  all: rewrite with_flags_other by (unfold flag_outputs; notin_list).
  all: unfold BatchForm.pre, ServerForm.pre; cbn [columns setitem].
  all: rewrite ?lookup_insert_ne by done.
  all: by rewrite lookup_insert_eq.
Qed.

(** Columns the engine never assigns come back as they were; on the batch
    path [safe_load_defaults] may have created them. *)
Lemma closed_lookup_other p df tp c :
  c ∉ numeric_cols → c ∉ flag_outputs → c ≠ c_mixnorm → c ≠ "target_positive" →
  columns (closed p df tp) !! c
  = match p with
    | Batch => columns (RiskUtils.safe_load_defaults df) !! c
    | Serving => columns df !! c
    end.
Proof.
  unfold numeric_cols. rewrite !not_elem_of_cons.
  intros (?&?&?&?&?&_) Hfl ? ?.
  destruct p; unfold closed, BatchForm.out, BatchForm.flagged, ServerForm.out;
    cbn [columns setitem]; rewrite ?lookup_insert_ne by done;
    rewrite with_flags_other by done;
    unfold BatchForm.pre, ServerForm.pre; cbn [columns setitem];
    by rewrite !lookup_insert_ne by done.
Qed.

Lemma closed_mixcol p df tp : mixcol (closed p df tp) = mixcol df.
Proof.
  unfold mixcol, col_or at 1. rewrite closed_nrows.
  rewrite closed_lookup_other
    by first [ notin_list | unfold flag_outputs; notin_list | done ].
  destruct p.
  - rewrite defaults_required by in_list. done.
  - done.
Qed.

Lemma closed_input_cell p df tp c i :
  wf df → i < nrows df →
  c ∈ [c_util; c_mindue; c_cash; c_spend] →
  cell_at (closed p df tp) c i = Some (coerced p (field df c i)).
Proof.
  intros Hwf Hi Hc. unfold cell_at. rewrite closed_lookup_input by done.
  cbn [mbind option_bind]. unfold of_float, ffill, fnum.
  destruct p; rewrite !list_lookup_fmap, field_lookup by done; cbn; [done|].
  by destruct (field df c i).
Qed.

Lemma foldl_zip_length {A B} (f : A → B → A) (acc : list A) (xss : list (list B)) :
  Forall (λ xs, length xs = length acc) xss →
  length (foldl (zip_with f) acc xss) = length acc.
Proof.
  revert acc. induction xss as [|xs xss IH]; intros acc H; simpl; [done|].
  apply Forall_cons in H as [H1 H2]. rewrite IH.
  - rewrite length_zip_with. lia.
  - eapply Forall_impl; [exact H2|]. intros l Hl. simpl in Hl.
    rewrite length_zip_with. lia.
Qed.

Lemma wf_with_flags D f1 f2 f3 f4 f5 :
  wf D →
  length f1 = nrows D → length f2 = nrows D → length f3 = nrows D →
  length f4 = nrows D → length f5 = nrows D →
  wf (with_flags D f1 f2 f3 f4 f5).
Proof.
  intros HD L1 L2 L3 L4 L5.
  assert (Hsc : length (score_col (nrows D) [f1; f2; f3; f4; f5]) = nrows D).
  { unfold score_col. rewrite foldl_zip_length; rewrite length_replicate; [done|].
    repeat constructor; unfold bits; by rewrite length_fmap. }
  unfold with_flags. cbn zeta.
  repeat apply wf_setitem; try done; cbn [nrows setitem].
  all: unfold astype_int, reasons_col, tier_col;
    rewrite ?length_fmap, ?length_seq; done.
Qed.

Lemma mapR_length {A B} (f : A → result B) l bs :
  mapR f l = Ok bs → length bs = length l.
Proof. intros H%mapR_Ok_inv. symmetry. by eapply Forall2_length. Qed.

Lemma batch_target_length df tp :
  wf df → BatchForm.target df = Ok tp → length tp = nrows df.
Proof.
  intros Hwf. unfold BatchForm.target, has_col, getitem.
  assert (Hn : length (ne_zero (fillna (Num 0) (col_or NaN df c_next))) = nrows df).
  { unfold ne_zero, fillna. by rewrite !length_fmap, col_or_length. }
  destruct (columns df !! c_cur) as [cur|] eqn:Hcur; cbn [rbind];
    [|by intros [= <-]].
  destruct (isnull_all cur); cbn [negb]; [by intros [= <-]|].
  intros H%mapR_length. rewrite H, length_zip. unfold fillna.
  rewrite !length_fmap, col_or_length by done.
  rewrite (wf_lookup df c_cur cur) by done. lia.
Qed.

Lemma wf_closed p df tp :
  wf df → target_of p df = Ok tp → wf (closed p df tp).
Proof.
  intros Hwf Htp. destruct p; unfold closed.
  - unfold BatchForm.out, BatchForm.flagged.
    destruct (batch_lengths df Hwf) as (L1 & L2 & L3 & L4).
    assert (Hpre : nrows (BatchForm.pre df (mix_norm (mixcol df))) = nrows df).
    { unfold BatchForm.pre. cbn [nrows setitem]. apply defaults_nrows. }
    apply wf_setitem.
    + apply wf_with_flags; rewrite ?Hpre; try done.
      * unfold BatchForm.pre. cbn zeta.
        repeat apply wf_setitem; cbn [nrows setitem]; rewrite ?defaults_nrows.
        1: by apply wf_defaults.
        all: unfold of_float; rewrite length_fmap.
        all: first [ by apply mixcol_length
                   | unfold BatchForm.U, BatchForm.P0, BatchForm.M, BatchForm.C,
                       BatchForm.R, BatchForm.P, BatchForm.P0; len ].
      * unfold BatchForm.f5, fcmp. rewrite length_fmap. by apply mixcol_length.
    + unfold astype_int. rewrite length_fmap.
      cbn [nrows setitem with_flags]. rewrite Hpre.
      by apply batch_target_length.
  - unfold ServerForm.out.
    destruct (server_lengths df Hwf) as (L1 & L2 & L3 & L4).
    assert (Hpre : nrows (ServerForm.pre df (mix_norm (mixcol df))) = nrows df)
      by done.
    apply wf_with_flags; rewrite ?Hpre; try done.
    + unfold ServerForm.pre. cbn zeta.
      repeat apply wf_setitem; cbn [nrows setitem]; try done.
      all: unfold of_float; rewrite length_fmap.
      all: first [ by apply mixcol_length
                 | unfold ServerForm.U, ServerForm.P0, ServerForm.M, ServerForm.C,
                     ServerForm.R, ServerForm.P, ServerForm.P0; len ].
    + unfold ServerForm.f5, fcmp, ffill. rewrite !length_fmap. by apply mixcol_length.
Qed.

End returned_inputs.

(** ** C5: the merchant-mix normalisation *)

Section merchant_mix.

Lemma max_foldl_gt (l : list Q) (acc : option Q) (t : Q) :
  scalar_gt (foldl (λ acc q, Some (match acc with Some m => Qmaxb m q | None => q end))
                   acc l) t
  = scalar_gt acc t || existsb (Qltb t) l.
Proof.
  revert acc. induction l as [|q l IH]; intros acc; simpl.
  { by rewrite orb_false_r. }
  rewrite IH, orb_assoc. f_equal. destruct acc as [m|]; simpl; [|done].
  unfold Qmaxb. destruct (Qle_bool m q) eqn:E.
  - destruct (Qltb t m) eqn:E1; [|done]. simpl.
    apply Qltb_lt. apply Qltb_lt in E1. apply Qle_bool_iff in E.
    eapply Qlt_le_trans; eauto.
  - destruct (Qltb t q) eqn:E1; [|by rewrite orb_false_r].
    rewrite orb_true_r. apply Qltb_lt. apply Qltb_lt in E1.
    apply not_true_iff_false in E. rewrite Qle_bool_iff in E.
    apply Qnot_le_lt in E. eapply Qlt_trans; eauto.
Qed.

Lemma max_foldl_None (l : list Q) (acc : option Q) :
  foldl (λ acc q, Some (match acc with Some m => Qmaxb m q | None => q end)) acc l
  = None → acc = None ∧ l = [].
Proof.
  revert acc. induction l as [|q l IH]; intros acc; simpl; [done|].
  intros H%IH. by destruct H.
Qed.

Lemma existsb_observed t (s : list cell) :
  existsb (Qltb t) (observed s)
  = existsb (λ c, match numv c with Some q => Qltb t q | None => false end) s.
Proof.
  unfold observed. induction s as [|c s IH]; [done|].
  cbn [omap list_omap existsb]. destruct (numv c); cbn [existsb]; by rewrite IH.
Qed.

Lemma observed_nil_isnull s :
  numeric s → observed s = [] → isnull_all s = true.
Proof.
  unfold observed, isnull_all. induction 1 as [|c s Hc _ IH]; [done|].
  cbn [omap list_omap forallb]. destruct c; try done.
Qed.

Lemma isnull_observed_nil s : isnull_all s = true → observed s = [].
Proof.
  unfold observed, isnull_all. induction s as [|c s IH]; [done|].
  cbn [omap list_omap forallb]. intros [Hc Hs]%andb_true_iff.
  destruct c; try done. simpl. by apply IH.
Qed.

Lemma on_numbers_of_float f s :
  numeric s → on_numbers f s = of_float ((fmap f : option Q → option Q) <$> fnum s).
Proof.
  unfold on_numbers, of_float, fnum. rewrite <- !list_fmap_compose.
  intros H. apply Forall_fmap_ext_1. eapply Forall_impl; [exact H|].
  by intros [q| |t].
Qed.

Lemma spec_merchant_mix_norm_closed s :
  numeric s → spec_merchant_mix_norm s = of_float (mix_norm s).
Proof.
  intros Hs. unfold spec_merchant_mix_norm, mix_norm, max_observed.
  destruct (foldl _ None (observed s)) as [m|] eqn:Hm.
  - assert (Hgt : Qltb 1.5 m = pct_scale s).
    { change (Qltb 1.5 m) with (scalar_gt (Some m) 1.5). rewrite <- Hm.
      rewrite max_foldl_gt. simpl. apply existsb_observed. }
    destruct (isnull_all s) eqn:E.
    { apply isnull_observed_nil in E. rewrite E in Hm. discriminate. }
    rewrite Hgt. unfold fclip, fscale, fdiv. rewrite scaled_fnum.
    destruct (pct_scale s).
    + rewrite on_numbers_of_float by (rewrite on_numbers_of_float by done;
                                        apply numeric_of_float).
      rewrite on_numbers_of_float by done.
      f_equal. unfold fnum, of_float. rewrite <- !list_fmap_compose.
      apply list_fmap_ext. by intros _ [q| |t] _.
    + by rewrite on_numbers_of_float.
  - apply max_foldl_None in Hm as [_ Hm].
    rewrite (observed_nil_isnull s Hs Hm). by apply numeric_fnum.
Qed.

End merchant_mix.

(** C5.  On a column of numbers and missing values, [normalize_merchant_mix]
    of either module returns what the specification describes: the column
    itself when it is entirely missing, else the column divided by 100 when
    its maximum exceeds 1.5, clipped to [0,1].  And the [MerchantMix_norm]
    column of every frame the engine returns is that function of the input's
    "Merchant Mix Index" column (a column of missing values when the input
    has none). *)
Theorem C5_normalize_merchant_mix_spec (s : list cell) (p : path)
    (df out : DataFrame) :
  (numeric s →
   RiskUtils.normalize_merchant_mix s = Ok (spec_merchant_mix_norm s) ∧
   Server.normalize_merchant_mix s = Ok (spec_merchant_mix_norm s)) ∧
  (wf df → engine p df = Ok out →
   columns out !! c_mixnorm = Some (spec_merchant_mix_norm (mixcol df))).
Proof.
  split.
  - intros Hs. rewrite spec_merchant_mix_norm_closed by done.
    split; [by apply batch_normalize_numeric | by apply server_normalize_numeric].
  - intros Hwf (Hnum & tp & _ & ->)%engine_inv; [|done].
    rewrite spec_merchant_mix_norm_closed by done. apply closed_lookup_mixnorm.
Qed.

Lemma C5_witness :
  (RiskUtils.normalize_merchant_mix pct_column = Ok [Num 0.90%Q; NaN; Num 0.20%Q] ∧
   Server.normalize_merchant_mix pct_column = Ok [Num 0.90%Q; NaN; Num 0.20%Q]) ∧
  columns (spike_out Serving) !! c_mixnorm = Some [Num 0.90%Q].
Proof.
  destruct (C5_normalize_merchant_mix_spec pct_column Serving spike_frame
              (spike_out Serving)) as [H1 H2].
  split.
  - apply H1. repeat constructor.
  - rewrite H2; [reflexivity | apply wf_spike_frame | apply engine_spike_frame].
Defined.

(** ** C6: which input columns come back unchanged *)

(** C6 as stated fails: the engine overwrites "Avg Payment Ratio" with
    the normalised value and adds no separate field for it. *)
Lemma C6_counterexample :
  columns pay_pct_frame !! c_pay = Some [Num 50%Q] ∧
  pay_pct_run Batch ∧ pay_pct_run Serving.
Proof.
  split; [reflexivity|].
  split; vm_compute; repeat split; try reflexivity; discriminate.
Qed.

(** C6, amended.  Every input column the engine does not assign comes
    back unchanged, "Merchant Mix Index" among them, and the merchant-mix
    normalisation is added as the separate column [MerchantMix_norm].  The
    five coerced columns are assigned: "Avg Payment Ratio" comes back
    holding the normalised ratio, and the other four keep every number
    they hold while a missing or non-numeric cell comes back as 0 (batch)
    or as missing (serving). *)
Theorem C6_unassigned_columns_unchanged (p : path) (df out : DataFrame) :
  wf df → engine p df = Ok out →
  (∀ c s, columns df !! c = Some s → c ∉ assigned → columns out !! c = Some s) ∧
  (∀ s, columns df !! c_mix = Some s → columns out !! c_mix = Some s) ∧
  is_Some (columns out !! c_mixnorm) ∧
  (∀ i, i < nrows df →
        cell_at out c_pay i
        = Some (Num (pay_stored p (pct_scale (col_or NaN df c_pay)) (field df c_pay i)))) ∧
  (∀ i c, i < nrows df → c ∈ [c_util; c_mindue; c_cash; c_spend] →
          cell_at out c i = Some (coerced p (field df c i))).
Proof.
  intros Hwf Hrun.
  assert (Hframe : ∀ c s, columns df !! c = Some s → c ∉ assigned →
                          columns out !! c = Some s).
  { intros c s Hc Hna.
    apply engine_inv in Hrun as (_ & tp & _ & ->); [|done].
    unfold assigned in Hna. rewrite !not_elem_of_app in Hna.
    destruct Hna as (H1 & H2 & H3 & H4).
    rewrite closed_lookup_other; try done.
    - destruct p; [by apply defaults_keeps | done].
    - by apply not_elem_of_cons in H2 as [? _].
    - by apply not_elem_of_cons in H4 as [? _]. }
  split; [exact Hframe|]. split; [|split; [|split]].
  - intros s Hs. apply Hframe; [done|].
    unfold assigned, flag_outputs, numeric_cols. cbn [app]. notin_list.
  - pose proof Hrun as (_ & tp & _ & ->)%engine_inv; [|done].
    rewrite closed_lookup_mixnorm. eauto.
  - intros i Hi. by destruct (engine_row df i Hwf Hi p out Hrun).
  - intros i c Hi Hc. pose proof Hrun as (_ & tp & _ & ->)%engine_inv; [|done].
    by apply closed_input_cell.
Qed.

Lemma C6_witness :
  columns (spike_out Batch) !! c_mix = Some [Num 90%Q].
Proof.
  destruct (C6_unassigned_columns_unchanged Batch spike_frame (spike_out Batch))
    as (_ & H & _).
  - apply wf_spike_frame.
  - apply engine_spike_frame.
  - apply H. by vm_compute.
Defined.

(** ** C10: absent and non-numeric inputs *)

(** C10 as stated fails: "Merchant Mix Index" is a numeric column that
    neither path coerces, and a non-numeric value in it makes both raise,
    here on a table that has no "Utilisation %" column. *)
Lemma C10_counterexample :
  wf text_mix_frame ∧
  columns text_mix_frame !! c_util = None ∧
  engine Batch text_mix_frame = Raise TypeError ∧
  engine Serving text_mix_frame = Raise ValueError.
Proof.
  split; [apply wf_frame_of; repeat constructor|].
  repeat split; vm_compute; reflexivity.
Qed.

Section no_raise.

Lemma mapR_Ok_exists {A B} (f : A → result B) (l : list A) :
  Forall (λ a, ∃ b, f a = Ok b) l → ∃ bs, mapR f l = Ok bs.
Proof.
  induction 1 as [|a l [b Hb] _ [bs IH]]; simpl; [by eexists|].
  rewrite Hb, IH. by eexists.
Qed.

Lemma series_gt_numeric a b :
  numeric a → numeric b →
  ∃ bs, series_gt (fillna (Num 0) a) (fillna (Num 0) b) = Ok bs.
Proof.
  intros Ha Hb. apply mapR_Ok_exists. unfold fillna.
  revert b Hb. induction Ha as [|x a Hx _ IH]; intros b Hb; [constructor|].
  destruct Hb as [|y b Hy Hb]; [constructor|].
  rewrite !fmap_cons. cbn [zip zip_with]. constructor; [|by apply IH].
  destruct x, y; simpl in *; try discriminate; by eexists.
Qed.

Lemma batch_target_numeric df :
  numeric (col_or NaN df c_next) → numeric (col_or NaN df c_cur) →
  ∃ tp, BatchForm.target df = Ok tp.
Proof.
  intros Hn Hc. unfold BatchForm.target, has_col, getitem.
  unfold col_or in Hc.
  destruct (columns df !! c_cur) as [cur|]; cbn [rbind]; [|by eexists].
  destruct (isnull_all cur); cbn [negb]; [by eexists|].
  by apply series_gt_numeric.
Qed.

Lemma target_of_numeric p df :
  (∀ c, c ∈ uncoerced p → numeric (col_or NaN df c)) →
  ∃ tp, target_of p df = Ok tp.
Proof.
  intros H. destruct p; simpl; [|by eexists].
  apply batch_target_numeric; apply H; unfold uncoerced; in_list.
Qed.

End no_raise.

(** C10, amended.  Take a table with at least one record in which the
    columns the path does not coerce ("Merchant Mix Index", and on the batch
    path the two DPD columns) hold numbers or missing values only.  Then the
    engine raises nothing, whatever the five coerced columns hold: a
    missing or non-numeric cell of those columns comes back as the default
    (0 on the batch path, missing on the serving path, where the rules read
    it as 0), and when "Utilisation %" is absent altogether its cells read
    as missing and [flag_util_spike] and [flag_cash_advance] are 0 on
    every record. *)
Theorem C10_coerced_columns_never_raise (p : path) (df : DataFrame) :
  wf df → 0 < nrows df →
  (∀ c, c ∈ uncoerced p → numeric (col_or NaN df c)) →
  ∃ out,
    engine p df = Ok out ∧
    (∀ i c, i < nrows df → c ∈ [c_util; c_mindue; c_cash; c_spend] →
            numv (field df c i) = None →
            cell_at out c i = Some (match p with Batch => Num 0 | Serving => NaN end)) ∧
    (columns df !! c_util = None →
     ∀ i, i < nrows df →
          field df c_util i = NaN ∧
          cell_at out "flag_util_spike" i = Some (Num 0) ∧
          cell_at out "flag_cash_advance" i = Some (Num 0)).
Proof.
  intros Hwf _ Hnum.
  assert (Hmix : numeric (mixcol df)) by (apply Hnum; destruct p; in_list).
  destruct (target_of_numeric p df Hnum) as [tp Htp].
  exists (closed p df tp). split; [|split].
  - rewrite engine_run by done. by rewrite Htp.
  - intros i c Hi Hc Hmiss. rewrite closed_input_cell by done.
    unfold coerced, n0. rewrite Hmiss. by destruct p.
  - intros Habs i Hi.
    assert (Hf : field df c_util i = NaN).
    { unfold field, col_or. rewrite Habs. simpl.
      by rewrite lookup_replicate_2. }
    split; [done|].
    destruct (closed_row df i Hwf Hi p tp) as [Hfl _ _ _ _ _].
    unfold row_flags, flag_cols in Hfl. cbn [fmap list_fmap] in Hfl.
    injection Hfl as H1 _ _ H4 _. rewrite H1, H4, Hf.
    unfold rule_util_spike, rule_cash_advance, flag_cell.
    change (n0 NaN) with 0%Q. change (Qle_bool 80 0) with false.
    change (Qltb 70 0) with false. by rewrite andb_false_r.
Qed.

Lemma C10_witness :
  ∃ out, engine Batch no_util_frame = Ok out ∧
         cell_at out "flag_util_spike" 1 = Some (Num 0) ∧
         cell_at out "flag_cash_advance" 0 = Some (Num 0) ∧
         cell_at out c_spend 0 = Some (Num 0).
Proof.
  destruct (C10_coerced_columns_never_raise Batch no_util_frame)
    as (out & Hrun & Hdef & Habs).
  - apply wf_frame_of. repeat constructor.
  - simpl; lia.
  - intros c. unfold uncoerced. rewrite !elem_of_cons, elem_of_nil.
    intros [->|[->|[->|[]]]]; vm_compute; repeat constructor.
  - exists out. split; [exact Hrun|].
    destruct (Habs eq_refl 0) as (_ & _ & H0); [simpl; lia|].
    destruct (Habs eq_refl 1) as (_ & H1 & _); [simpl; lia|].
    repeat split; try assumption.
    apply (Hdef 0 c_spend); [simpl; lia | in_list | reflexivity].
Defined.

(** ** C7: a second run on the engine's own output *)

Section second_run.

Lemma form_flags_lookup p df i :
  wf df → i < nrows df →
  Forall2 (λ f b, f !! i = Some b) (form_flags p df) (row_flags df i).
Proof.
  intros Hwf Hi. destruct p; [by apply batch_flags_lookup | by apply server_flags_lookup].
Qed.

Lemma form_flags_length p df :
  wf df → Forall (λ f : list bool, length f = nrows df) (form_flags p df).
Proof.
  intros Hwf. destruct p; unfold form_flags.
  - destruct (batch_lengths df Hwf) as (L1 & L2 & L3 & L4).
    repeat constructor; try done.
    unfold BatchForm.f5, fcmp. rewrite length_fmap. by apply mixcol_length.
  - destruct (server_lengths df Hwf) as (L1 & L2 & L3 & L4).
    repeat constructor; try done.
    unfold ServerForm.f5, fcmp, ffill. rewrite !length_fmap. by apply mixcol_length.
Qed.

Lemma closed_flag_cols p df tp :
  Forall2 (λ c f, columns (closed p df tp) !! c = Some (astype_int f))
          flag_cols (form_flags p df).
Proof.
  destruct p; unfold closed, form_flags, flag_cols, BatchForm.out,
    BatchForm.flagged, ServerForm.out, with_flags; cbn [columns setitem].
  all: repeat constructor.
  all: rewrite ?lookup_insert_ne by done; by rewrite lookup_insert_eq.
Qed.

(** Series that agree row by row are equal. *)
Lemma rows_determine_series (fs gs : list (list bool)) (n : nat)
    (rows : nat → list bool) :
  Forall (λ f, length f = n) fs → Forall (λ g, length g = n) gs →
  (∀ i, i < n → Forall2 (λ f b, f !! i = Some b) fs (rows i)) →
  (∀ i, i < n → Forall2 (λ g b, g !! i = Some b) gs (rows i)) →
  length fs = length gs →
  fs = gs.
Proof.
  revert gs rows. induction fs as [|f fs IH]; intros gs rows Hf Hg Hfr Hgr Hlen.
  { by destruct gs. }
  destruct gs as [|g gs]; [done|].
  apply Forall_cons in Hf as [Lf Hf]. apply Forall_cons in Hg as [Lg Hg].
  f_equal.
  - apply list_eq. intros i. destruct (decide (i < n)) as [Hi|Hi].
    + destruct (Forall2_cons_inv_l _ _ _ _ (Hfr i Hi)) as (b & l & Hb & _ & Hr).
      destruct (Forall2_cons_inv_l _ _ _ _ (Hgr i Hi)) as (b' & l' & Hb' & _ & Hr').
      rewrite Hr in Hr'. injection Hr' as -> _. by rewrite Hb, Hb'.
    + rewrite !lookup_ge_None_2 by lia. done.
  - apply (IH gs (λ i, tail (rows i))); [done|done| | |by injection Hlen].
    + intros i Hi.
      destruct (Forall2_cons_inv_l _ _ _ _ (Hfr i Hi)) as (b & l & _ & Hl & ->).
      done.
    + intros i Hi.
      destruct (Forall2_cons_inv_l _ _ _ _ (Hgr i Hi)) as (b & l & _ & Hl & ->).
      done.
Qed.

Lemma form_flags_ext p df df' :
  wf df → wf df' → nrows df' = nrows df →
  (∀ i, i < nrows df → row_flags df' i = row_flags df i) →
  form_flags p df' = form_flags p df.
Proof.
  intros Hwf Hwf' Hn Hrows.
  apply (rows_determine_series _ _ (nrows df) (row_flags df)).
  - rewrite <- Hn. by apply form_flags_length.
  - by apply form_flags_length.
  - intros i Hi. rewrite <- Hrows by done. apply form_flags_lookup; [done|lia].
  - intros i Hi. by apply form_flags_lookup.
  - by destruct p.
Qed.

Lemma clipq_idem q : clipq 0 1 (clipq 0 1 q) = clipq 0 1 q.
Proof.
  unfold clipq at 2 3. destruct (Qltb q 0) eqn:E0; [done|].
  destruct (Qltb 1 q) eqn:E1; [done|]. unfold clipq. by rewrite E0, E1.
Qed.

Lemma n0_coerced p c : n0 (coerced p c) = n0 c.
Proof. destruct p, c; done. Qed.

Lemma low_pay_stored p ps a :
  rule_low_pay_ratio false (Num (pay_stored p ps a)) = rule_low_pay_ratio ps a.
Proof.
  unfold rule_low_pay_ratio, pay_stored, n0. cbn [numv default]. unfold id.
  unfold rescale at 1. destruct p.
  - unfold rescale. by rewrite clipq_idem.
  - destruct (numv a) as [q|]; simpl.
    + unfold rescale. by rewrite clipq_idem.
    + by destruct ps.
Qed.

Lemma existsb_false_lookup {A} (g : A → bool) (s : list A) :
  (∀ i x, s !! i = Some x → g x = false) → existsb g s = false.
Proof.
  induction s as [|x s IH]; intros H; simpl; [done|].
  rewrite (H 0 x eq_refl). simpl. apply IH. intros i y Hy. exact (H (S i) y Hy).
Qed.

Lemma field_of_cell df' out c i v :
  columns df' !! c = columns out !! c →
  cell_at out c i = Some v → field df' c i = v.
Proof.
  unfold field, col_or, cell_at. intros ->.
  destruct (columns out !! c) as [s|]; simpl; [|done]. by intros ->.
Qed.

(** A frame that holds the input columns of an engine output makes the
    engine compute the same flags again. *)
Lemma rerun p df tp df' :
  wf df → numeric (mixcol df) → target_of p df = Ok tp →
  wf df' → nrows df' = nrows df →
  (∀ c, c ∈ engine_inputs → columns df' !! c = columns (closed p df tp) !! c) →
  ∃ out2, engine p df' = Ok out2 ∧
          ∀ c, c ∈ flag_cols → columns out2 !! c = columns (closed p df tp) !! c.
Proof.
  intros Hwf Hnum Htp Hwf' Hn Hagree.
  set (out := closed p df tp) in *.
  assert (Hmix : mixcol df' = mixcol df).
  { rewrite <- (closed_mixcol p df tp). fold out. unfold mixcol, col_or.
    rewrite Hagree by (unfold engine_inputs; in_list).
    unfold out. by rewrite closed_nrows, Hn. }
  assert (Htp' : target_of p df' = Ok tp).
  { destruct p; [|done]. cbn [target_of] in *. rewrite <- Htp.
    assert (Hnext : columns df' !! c_next = Some (col_or NaN df c_next)).
    { rewrite Hagree by (unfold engine_inputs; in_list). unfold out.
      rewrite closed_lookup_other
        by first [ notin_list | unfold flag_outputs; notin_list | done ].
      apply defaults_required. in_list. }
    assert (Hcur : columns df' !! c_cur = columns df !! c_cur).
    { rewrite Hagree by (unfold engine_inputs; in_list). unfold out.
      rewrite closed_lookup_other
        by first [ notin_list | unfold flag_outputs; notin_list | done ].
      apply defaults_other. notin_list. }
    unfold BatchForm.target, has_col, getitem, col_or.
    by rewrite Hnext, Hcur. }
  assert (Hcells : ∀ i c, i < nrows df →
            c ∈ [c_util; c_mindue; c_cash; c_spend] →
            field df' c i = coerced p (field df c i)).
  { intros i c Hi Hc. apply (field_of_cell df' out).
    - apply Hagree. revert Hc. unfold engine_inputs.
      rewrite !elem_of_cons, !elem_of_nil. tauto.
    - by apply closed_input_cell. }
  assert (Hpay : ∀ i, i < nrows df →
            field df' c_pay i
            = Num (pay_stored p (pct_scale (col_or NaN df c_pay)) (field df c_pay i))).
  { intros i Hi. apply (field_of_cell df' out).
    - apply Hagree. unfold engine_inputs. in_list.
    - by destruct (closed_row df i Hwf Hi p tp). }
  assert (Hps : pct_scale (col_or NaN df' c_pay) = false).
  { apply existsb_false_lookup. intros i x Hx.
    assert (Hi : i < nrows df).
    { rewrite <- Hn, <- (col_or_length NaN df' c_pay) by done.
      by eapply lookup_lt_Some. }
    rewrite field_lookup in Hx by (done || lia). injection Hx as <-.
    rewrite Hpay by done. cbn [numv].
    apply Qltb_ge. destruct (pay_stored_unit p (pct_scale (col_or NaN df c_pay))
                               (field df c_pay i)). lra. }
  assert (Hrows : ∀ i, i < nrows df → row_flags df' i = row_flags df i).
  { intros i Hi.
    assert (Hm : field df' c_mix i = field df c_mix i).
    { unfold field. fold (mixcol df') (mixcol df). by rewrite Hmix. }
    unfold row_flags. rewrite Hmix, Hps, Hm.
    rewrite Hpay by done. rewrite low_pay_stored.
    rewrite !Hcells by (done || in_list).
    unfold rule_util_spike, rule_min_due_streak, rule_cash_advance.
    by rewrite !n0_coerced. }
  exists (closed p df' tp). split.
  - rewrite engine_run by (done || by rewrite Hmix). by rewrite Htp'.
  - pose proof (closed_flag_cols p df' tp) as H2.
    pose proof (closed_flag_cols p df tp) as H1.
    rewrite (form_flags_ext p df df') in H2 by done.
    fold out in H1. revert H1 H2. generalize (form_flags p df).
    unfold flag_cols. intros fs H1 H2 c.
    rewrite !elem_of_cons, elem_of_nil.
    repeat match goal with
           | H : Forall2 _ (_ :: _) _ |- _ => inversion H; clear H; subst
           end.
    intros [->|[->|[->|[->|[->|[]]]]]]; congruence.
Qed.

Lemma drop_derived_lookup df c :
  c ∉ derived_cols → columns (drop_derived df) !! c = columns df !! c.
Proof.
  unfold derived_cols. rewrite !not_elem_of_cons.
  intros (?&?&?&?&?&?&?&?&?&?&_).
  unfold drop_derived, derived_cols; cbn [columns foldr].
  by rewrite !lookup_delete_ne.
Qed.

Lemma wf_drop_derived df : wf df → wf (drop_derived df).
Proof.
  intros H. unfold wf, drop_derived, derived_cols; cbn [columns nrows foldr].
  repeat apply map_Forall_delete. exact H.
Qed.

End second_run.

(** C7.  Running the engine again on its own output, whether the columns
    it added are left in place or dropped first, raises nothing and yields
    the same five flag columns as the first run. *)
Theorem C7_flags_idempotent (p : path) (df out df' : DataFrame) :
  wf df → engine p df = Ok out →
  df' = out ∨ df' = drop_derived out →
  ∃ out2, engine p df' = Ok out2 ∧
          ∀ c, c ∈ flag_cols → columns out2 !! c = columns out !! c.
Proof.
  intros Hwf Hrun Hdf'.
  apply engine_inv in Hrun as (Hnum & tp & Htp & ->); [|done].
  pose proof (wf_closed p df tp Hwf Htp) as Hwfo.
  apply rerun; try done.
  - destruct Hdf' as [->| ->]; [done | by apply wf_drop_derived].
  - destruct Hdf' as [->| ->]; apply closed_nrows.
  - intros c Hc. destruct Hdf' as [->| ->]; [done|].
    apply drop_derived_lookup. unfold engine_inputs in Hc.
    rewrite !elem_of_cons, elem_of_nil in Hc. unfold derived_cols.
    destruct Hc as [->|[->|[->|[->|[->|[->|[->|[->|[]]]]]]]]]; notin_list.
Qed.

Lemma C7_witness :
  ∃ out2, engine Batch (drop_derived (spike_out Batch)) = Ok out2 ∧
          columns out2 !! "flag_util_spike" = Some [Num 1%Q].
Proof.
  destruct (C7_flags_idempotent Batch spike_frame (spike_out Batch)
              (drop_derived (spike_out Batch))) as (out2 & Hrun & Hsame).
  - apply wf_spike_frame.
  - apply engine_spike_frame.
  - by right.
  - exists out2. split; [exact Hrun|].
    rewrite Hsame by (unfold flag_cols; in_list). by vm_compute.
Defined.

(** ** Further properties of the engine *)

(** *** The two copies of the engine agree *)

(** X1.  The batch and the serving copy of [compute_flags] compute the
    same thing: every table with at least one record that the batch path
    accepts is accepted by the serving path, and the two outputs hold the
    same flags, score, tier and reasons on every record. *)
Theorem X1_paths_agree_on_rule_outputs (df ob : DataFrame) :
  wf df → 0 < nrows df → engine Batch df = Ok ob →
  ∃ os, engine Serving df = Ok os ∧
        ∀ i c, i < nrows df → c ∈ rule_outputs →
               cell_at ob c i = cell_at os c i.
Proof.
  intros Hwf _ Hb. pose proof Hb as (Hnum & _)%engine_inv; [|done].
  exists (closed Serving df []). split.
  { by rewrite engine_run. }
  intros i c Hi Hc.
  destruct (engine_row df i Hwf Hi Batch ob Hb) as [Hf1 Hs1 Ht1 Hr1 _ _].
  pose proof (closed_row df i Hwf Hi Serving []) as H2. revert H2.
  generalize (closed Serving df []). intros os [Hf2 Hs2 Ht2 Hr2 _ _].
  unfold flag_cols in Hf1, Hf2.
  destruct (row_flags_five df i) as (b1 & b2 & b3 & b4 & b5 & Hb5).
  rewrite Hb5 in *. cbn [fmap list_fmap] in Hf1, Hf2.
  injection Hf1 as ?????. injection Hf2 as ?????.
  unfold rule_outputs, flag_cols in Hc. cbn [app] in Hc.
  rewrite !elem_of_cons, elem_of_nil in Hc.
  destruct Hc as [->|[->|[->|[->|[->|[->|[->|[->|[]]]]]]]]]; congruence.
Qed.

Lemma X1_witness :
  ∃ os, engine Serving spike_frame = Ok os ∧
        cell_at (spike_out Batch) "reasons" 0 = cell_at os "reasons" 0.
Proof.
  destruct (X1_paths_agree_on_rule_outputs spike_frame (spike_out Batch))
    as (os & Hos & Hsame).
  - apply wf_spike_frame.
  - simpl; lia.
  - apply engine_spike_frame.
  - exists os. split; [exact Hos|]. apply Hsame; [simpl; lia|].
    unfold rule_outputs, flag_cols. cbn [app]. in_list.
Defined.

(** *** Which exception a non-numeric merchant-mix value raises *)

Section raising.

Lemma not_numeric_cons c s :
  ¬ numeric (c :: s) → is_text c = false → ¬ numeric s.
Proof. intros H Hc Hs. apply H. by constructor. Qed.

Lemma as_float_not_numeric s : ¬ numeric s → as_float s = Raise TypeError.
Proof.
  unfold as_float. induction s as [|c s IH]; intros H.
  { destruct H. constructor. }
  cbn [mapR]. destruct c as [q| |t]; cbn [as_num rbind]; [| |done].
  all: rewrite IH by (by apply (not_numeric_cons _ _ H)); done.
Qed.

Lemma astype_float_not_numeric s : ¬ numeric s → astype_float s = Raise ValueError.
Proof.
  unfold astype_float. induction s as [|c s IH]; intros H.
  { destruct H. constructor. }
  cbn [mapR]. destruct c as [q| |t]; cbn [rbind]; [| |done].
  all: rewrite IH by (by apply (not_numeric_cons _ _ H)); done.
Qed.

Lemma not_numeric_not_null s : ¬ numeric s → isnull_all s = false.
Proof.
  intros H. destruct (isnull_all s) eqn:E; [|done].
  destruct H. by apply isnull_all_numeric.
Qed.

Lemma batch_normalize_not_numeric s :
  ¬ numeric s → RiskUtils.normalize_merchant_mix s = Raise TypeError.
Proof.
  intros H. unfold RiskUtils.normalize_merchant_mix, series_max.
  by rewrite not_numeric_not_null, as_float_not_numeric.
Qed.

Lemma server_normalize_not_numeric s :
  ¬ numeric s → Server.normalize_merchant_mix s = Raise ValueError.
Proof.
  intros H. unfold Server.normalize_merchant_mix.
  by rewrite not_numeric_not_null, astype_float_not_numeric.
Qed.

Lemma batch_not_numeric df :
  ¬ numeric (mixcol df) → engine Batch df = Raise TypeError.
Proof.
  intros H. simpl.
  apply (batch_raise df c_mix (mixcol df)); [apply getitem_defaults_mix|].
  by apply batch_normalize_not_numeric.
Qed.

Lemma serving_not_numeric df :
  ¬ numeric (mixcol df) → engine Serving df = Raise ValueError.
Proof.
  intros H. simpl.
  apply server_raise. unfold ServerForm.mixnorm. fold (mixcol df).
  destruct (has_col df c_mix) eqn:E; [by apply server_normalize_not_numeric|].
  destruct H. unfold mixcol, col_or, has_col in *.
  destruct (columns df !! c_mix); [done|]. apply numeric_replicate_NaN.
Qed.

End raising.

(** X2.  A table whose "Merchant Mix Index" column holds a non-numeric
    value is refused by both paths, with a [TypeError] on the batch path
    (from [s.max() > 1.5]) and a [ValueError] on the serving path (from
    [astype(float)]), whatever the other columns hold. *)
Theorem X2_text_in_merchant_mix_raises (df : DataFrame) :
  ¬ numeric (mixcol df) →
  engine Batch df = Raise TypeError ∧ engine Serving df = Raise ValueError.
Proof.
  intros H. split; [by apply batch_not_numeric | by apply serving_not_numeric].
Qed.

Lemma X2_witness :
  engine Batch text_mix_frame = Raise TypeError ∧
  engine Serving text_mix_frame = Raise ValueError.
Proof.
  apply X2_text_in_merchant_mix_raises.
  intros H.
  assert (E : mixcol text_mix_frame = [Text "high"]) by (vm_compute; reflexivity).
  rewrite E in H. apply Forall_cons in H as [H _]. discriminate H.
Defined.

(** *** An absent merchant column *)

Section key_error.

Lemma mapR_Raise_inv {A B} (f : A → result B) (l : list A) (e : exn) :
  mapR f l = Raise e → ∃ a, a ∈ l ∧ f a = Raise e.
Proof.
  induction l as [|a l IH]; cbn [mapR]; [done|].
  destruct (f a) as [b|e'] eqn:Ha; cbn [rbind].
  - destruct (mapR f l) as [bs|e'] eqn:Hl; cbn [rbind]; [done|].
    intros [= ->]. destruct IH as (a' & Ha' & Hf); [done|].
    exists a'. split; [by right | done].
  - intros [= ->]. exists a. split; [by left | done].
Qed.

Lemma batch_target_raises df e : BatchForm.target df = Raise e → e = TypeError.
Proof.
  unfold BatchForm.target, getitem, has_col.
  destruct (columns df !! c_cur) as [cur|]; cbn [rbind]; [|done].
  destruct (isnull_all cur); cbn [negb]; [done|].
  intros ((a & b) & _ & H)%mapR_Raise_inv. simpl in H.
  destruct a, b; simpl in H; congruence.
Qed.

End key_error.

(** X3.  [risk_utils.compute_flags] called with a [merchant_col] of the
    caller's choice raises [KeyError] exactly when that column is neither
    in the table nor one of the required columns that
    [safe_load_defaults] creates. *)
Theorem X3_merchant_col_key_error (df : DataFrame) (mc : string) :
  wf df →
  (RiskUtils.compute_flags df mc = Raise KeyError ↔
   columns df !! mc = None ∧ (mc ∉ RiskUtils.REQUIRED_COLUMNS)).
Proof.
  intros Hwf. split.
  - intros Hrun.
    destruct (columns (RiskUtils.safe_load_defaults df) !! mc) as [mm|] eqn:Hmc.
    + exfalso. pose proof (getitem_Some _ _ _ Hmc) as Hget.
      destruct (decide (numeric mm)) as [Hnum|Hnum].
      * rewrite (batch_exec df mc mm (mix_norm mm)) in Hrun;
          [|done| |done|by apply batch_normalize_numeric].
        -- destruct (BatchForm.target df) as [tp|e] eqn:Htp; [done|].
           apply batch_target_raises in Htp. simpl in Hrun. congruence.
        -- rewrite mix_norm_length, <- (defaults_nrows df).
           apply (wf_lookup _ mc); [by apply wf_defaults | done].
      * rewrite (batch_raise df mc mm TypeError) in Hrun; [done|done|].
        by apply batch_normalize_not_numeric.
    + unfold RiskUtils.safe_load_defaults in Hmc.
      rewrite (proj2 (defaults_columns RiskUtils.REQUIRED_COLUMNS df mc)) in Hmc.
      destruct (columns df !! mc); [done|]. case_bool_decide; [done|]. done.
  - intros [Hnone Hreq]. unfold RiskUtils.compute_flags, getitem.
    by rewrite defaults_other, Hnone.
Qed.

Lemma X3_witness :
  RiskUtils.compute_flags spike_frame "Merchant Mix" = Raise KeyError.
Proof.
  apply X3_merchant_col_key_error; [apply wf_spike_frame|].
  split; [reflexivity | notin_list].
Defined.

(** *** The shape of the output *)

Section shape.

Lemma is_Some_setitem D a s c :
  is_Some (columns (setitem D a s) !! c) ↔ c = a ∨ is_Some (columns D !! c).
Proof.
  unfold setitem; cbn [columns]. rewrite lookup_insert_is_Some'.
  split; (intros [H|H]; [left; by symmetry | by right]).
Qed.

Lemma is_Some_defaults df c :
  is_Some (columns (RiskUtils.safe_load_defaults df) !! c)
  ↔ is_Some (columns df !! c) ∨ c ∈ RiskUtils.REQUIRED_COLUMNS.
Proof.
  unfold RiskUtils.safe_load_defaults.
  rewrite (proj2 (defaults_columns RiskUtils.REQUIRED_COLUMNS df c)).
  destruct (columns df !! c) as [s|]; [by split; eauto|].
  case_bool_decide; split; eauto; intros [[? [=]]|?]; done.
Qed.

Lemma is_Some_closed p df tp c :
  is_Some (columns (closed p df tp) !! c)
  ↔ is_Some (columns df !! c) ∨ c ∈ created p.
Proof.
  destruct p; unfold closed, created, BatchForm.out, BatchForm.flagged,
    ServerForm.out, with_flags, BatchForm.pre, ServerForm.pre, flag_outputs,
    RiskUtils.REQUIRED_COLUMNS, numeric_cols; cbn zeta; cbn [app].
  all: rewrite !is_Some_setitem, ?is_Some_defaults.
  all: unfold RiskUtils.REQUIRED_COLUMNS; rewrite !elem_of_cons, elem_of_nil.
  all: tauto.
Qed.

End shape.

(** X4.  The frame the engine returns has as many rows as its input, and
    every one of its columns, derived or not, has one cell per row. *)
Theorem X4_output_is_well_formed (p : path) (df out : DataFrame) :
  wf df → engine p df = Ok out → nrows out = nrows df ∧ wf out.
Proof.
  intros Hwf (_ & tp & Htp & ->)%engine_inv; [|done].
  split; [apply closed_nrows | by apply wf_closed].
Qed.

Lemma X4_witness : nrows (spike_out Batch) = 1 ∧ wf (spike_out Batch).
Proof.
  apply (X4_output_is_well_formed Batch spike_frame);
    [apply wf_spike_frame | apply engine_spike_frame].
Defined.

(** X5.  The columns of the returned frame are exactly the input's columns
    together with the ones the path creates: the coerced and derived columns
    on both paths, and on the batch path also the remaining required columns
    and [target_positive].  The serving path adds no [target_positive] and
    none of "Customer ID", "Credit Limit", "Merchant Mix Index" or
    "DPD Bucket Next Month". *)
Theorem X5_output_columns (p : path) (df out : DataFrame) (c : string) :
  wf df → engine p df = Ok out →
  is_Some (columns out !! c) ↔ is_Some (columns df !! c) ∨ c ∈ created p.
Proof.
  intros Hwf (_ & tp & _ & ->)%engine_inv; [|done]. apply is_Some_closed.
Qed.

Lemma X5_witness :
  is_Some (columns (spike_out Batch) !! "target_positive") ∧
  ¬ is_Some (columns (spike_out Serving) !! "target_positive").
Proof.
  split.
  - apply (X5_output_columns Batch spike_frame);
      [apply wf_spike_frame | apply engine_spike_frame |].
    right. unfold created, flag_outputs, RiskUtils.REQUIRED_COLUMNS. cbn [app].
    in_list.
  - rewrite (X5_output_columns Serving spike_frame);
      [|apply wf_spike_frame | apply engine_spike_frame].
    intros [[s Hs]|H]; [discriminate Hs|].
    assert (Hn : "target_positive" ∉ created Serving)
      by (unfold created, flag_outputs, numeric_cols; cbn [app]; notin_list).
    by apply Hn.
Defined.

(** *** The training label [target_positive] *)

Section target.

Lemma target_cell df tp i :
  cell_at (closed Batch df tp) "target_positive" i = flag_cell <$> tp !! i.
Proof.
  unfold closed, BatchForm.out. rewrite cell_at_setitem_eq.
  unfold astype_int. by rewrite list_lookup_fmap.
Qed.

Lemma fillna_lookup v s i : fillna v s !! i = (λ c, if isnull c then v else c) <$> s !! i.
Proof. unfold fillna. by rewrite list_lookup_fmap. Qed.

Lemma target_without_current df tp i :
  wf df → i < nrows df → has_current_dpd df = false →
  BatchForm.target df = Ok tp →
  tp !! i = Some (differs_from_zero (filled0 (field df c_next i))).
Proof.
  intros Hwf Hi Hcur. unfold BatchForm.target, has_current_dpd, has_col, getitem in *.
  assert (Hnz : ne_zero (fillna (Num 0) (col_or NaN df c_next)) !! i
                = Some (differs_from_zero (filled0 (field df c_next i)))).
  { unfold ne_zero. by rewrite list_lookup_fmap, fillna_lookup, field_lookup. }
  destruct (columns df !! c_cur) as [cur|]; cbn [rbind]; [|by intros [= <-]].
  apply negb_false_iff in Hcur. rewrite Hcur. cbn [negb]. by intros [= <-].
Qed.

Lemma target_with_current df tp i :
  wf df → i < nrows df → has_current_dpd df = true →
  BatchForm.target df = Ok tp →
  ∃ b, tp !! i = Some b ∧
       cell_gt (filled0 (field df c_next i)) (filled0 (field df c_cur i)) = Ok b.
Proof.
  intros Hwf Hi Hcur. unfold BatchForm.target, has_current_dpd, has_col, getitem in *.
  destruct (columns df !! c_cur) as [cur|] eqn:Ec; [|done]. cbn [rbind].
  rewrite Hcur. intros H%mapR_Ok_inv.
  assert (Hc : cur !! i = Some (field df c_cur i)).
  { rewrite <- field_lookup by done. unfold col_or. by rewrite Ec. }
  assert (Hz : zip (fillna (Num 0) (col_or NaN df c_next)) (fillna (Num 0) cur) !! i
               = Some (filled0 (field df c_next i), filled0 (field df c_cur i))).
  { rewrite lookup_zip_with. rewrite !fillna_lookup. rewrite field_lookup by done.
    by rewrite Hc. }
  destruct (Forall2_lookup_l _ _ _ _ _ H Hz) as (b & Hb & Hgt). eauto.
Qed.

End target.

(** X6.  On the batch path, when the table has no "Current DPD Bucket"
    column, or one that is entirely missing, [target_positive] is 1 on the
    records whose "DPD Bucket Next Month" holds something other than 0, and
    0 on the records where it is 0 or missing. *)
Theorem X6_target_without_current_bucket (df out : DataFrame) (i : nat) :
  wf df → engine Batch df = Ok out → i < nrows df →
  has_current_dpd df = false →
  cell_at out "target_positive" i
  = Some (flag_cell (differs_from_zero (filled0 (field df c_next i)))).
Proof.
  intros Hwf (_ & tp & Htp & ->)%engine_inv Hi Hcur; [|done].
  rewrite target_cell. by rewrite (target_without_current df tp i).
Qed.

Lemma X6_witness : cell_at (spike_out Batch) "target_positive" 0 = Some (Num 0).
Proof.
  rewrite (X6_target_without_current_bucket spike_frame (spike_out Batch) 0).
  - reflexivity.
  - apply wf_spike_frame.
  - apply engine_spike_frame.
  - simpl; lia.
  - reflexivity.
Defined.

(** X7.  On the batch path, when "Current DPD Bucket" has at least one
    value, [target_positive] of a record whose two DPD cells are numbers or
    missing is 1 exactly when the next-month bucket, read as 0 when
    missing, is greater than the current one, read likewise. *)
Theorem X7_target_with_current_bucket (df out : DataFrame) (i : nat) :
  wf df → engine Batch df = Ok out → i < nrows df →
  has_current_dpd df = true →
  is_text (field df c_next i) = false → is_text (field df c_cur i) = false →
  cell_at out "target_positive" i
  = Some (flag_cell (Qltb (n0 (field df c_cur i)) (n0 (field df c_next i)))).
Proof.
  intros Hwf (_ & tp & Htp & ->)%engine_inv Hi Hcur Hn Hc; [|done].
  rewrite target_cell.
  destruct (target_with_current df tp i Hwf Hi Hcur Htp) as (b & -> & Hb).
  cbn [fmap option_fmap option_map]. do 2 f_equal.
  destruct (field df c_next i), (field df c_cur i); try discriminate.
  all: cbn [filled0 isnull cell_gt] in Hb; by injection Hb as <-.
Qed.

Lemma wf_dpd_frame : wf dpd_frame.
Proof. apply wf_frame_of. repeat constructor. Defined.

Lemma engine_dpd_frame : engine Batch dpd_frame = Ok (run_or_self Batch dpd_frame).
Proof. vm_compute; reflexivity. Defined.

Lemma X7_witness :
  cell_at (run_or_self Batch dpd_frame) "target_positive" 0 = Some (Num 1) ∧
  cell_at (run_or_self Batch dpd_frame) "target_positive" 1 = Some (Num 0).
Proof.
  split.
  - apply (X7_target_with_current_bucket dpd_frame (run_or_self Batch dpd_frame) 0
             wf_dpd_frame engine_dpd_frame); [simpl; lia | reflexivity..].
  - apply (X7_target_with_current_bucket dpd_frame (run_or_self Batch dpd_frame) 1
             wf_dpd_frame engine_dpd_frame); [simpl; lia | reflexivity..].
Defined.

(** *** The five rules, in terms of the input *)

Section rules.

Lemma flag_cell_one b : Some (flag_cell b) = Some (Num 1) ↔ b = true.
Proof. destruct b; split; intros; done. Qed.

Lemma Qdiv_100_le (q t : Q) : (q / 100 <= t ↔ q <= 100 * t)%Q.
Proof.
  change (q / 100)%Q with (q * (1 # 100))%Q. split; intros H; lra.
Qed.

Lemma clipq_le (x t : Q) :
  (0 <= t)%Q → (t < 1)%Q → (clipq 0 1 x <= t ↔ x <= t)%Q.
Proof.
  intros H0 H1. unfold clipq.
  destruct (Qltb x 0) eqn:E0.
  { apply Qltb_lt in E0. split; intros; lra. }
  destruct (Qltb 1 x) eqn:E1.
  { apply Qltb_lt in E1. split; intros; lra. }
  done.
Qed.

Lemma rescale_le (ps : bool) (x t : Q) :
  (0 <= t)%Q → (t < 1)%Q →
  Qle_bool (rescale ps x) t = true
  ↔ (if ps then x <= 100 * t else x <= t)%Q.
Proof.
  intros H0 H1. rewrite Qle_bool_iff. unfold rescale. rewrite clipq_le by done.
  destruct ps; [apply Qdiv_100_le | done].
Qed.

End rules.

(** X8.  The three unscaled rules, read off the input of the record, a
    missing or non-numeric cell counting as 0: [flag_util_spike] is 1
    exactly when utilisation is at least 80 and the recent spend change at
    least 20; [flag_min_due_streak] exactly when the minimum-due frequency
    is at least 2; [flag_cash_advance] exactly when the cash withdrawal is
    above 0 and utilisation above 70. *)
Theorem X8_threshold_rules (p : path) (df out : DataFrame) (i : nat) :
  wf df → engine p df = Ok out → i < nrows df →
  (cell_at out "flag_util_spike" i = Some (Num 1)
   ↔ (80 <= n0 (field df c_util i) ∧ 20 <= n0 (field df c_spend i))%Q) ∧
  (cell_at out "flag_min_due_streak" i = Some (Num 1)
   ↔ (2 <= n0 (field df c_mindue i))%Q) ∧
  (cell_at out "flag_cash_advance" i = Some (Num 1)
   ↔ (0 < n0 (field df c_cash i) ∧ 70 < n0 (field df c_util i))%Q).
Proof.
  intros Hwf Hrun Hi.
  destruct (engine_row df i Hwf Hi p out Hrun) as [Hf _ _ _ _ _].
  unfold row_flags, flag_cols in Hf. cbn [fmap list_fmap] in Hf.
  injection Hf as H1 H2 _ H4 _. rewrite H1, H2, H4, !flag_cell_one.
  unfold rule_util_spike, rule_min_due_streak, rule_cash_advance.
  rewrite !andb_true_iff, !Qle_bool_iff, !Qltb_lt. done.
Qed.

Lemma X8_witness :
  cell_at (spike_out Serving) "flag_util_spike" 0 = Some (Num 1).
Proof.
  destruct (X8_threshold_rules Serving spike_frame (spike_out Serving) 0)
    as (H & _ & _).
  - apply wf_spike_frame.
  - apply engine_spike_frame.
  - simpl; lia.
  - apply H. split; vm_compute; discriminate.
Defined.

(** X9.  The two scaled rules, read off the input.  [flag_low_pay_ratio]
    is 1 exactly when the record's payment ratio, a missing or non-numeric
    one counting as 0, is at most 0.4, or at most 40 when some payment ratio
    of the table exceeds 1.5.  [flag_merchant_shift] is 1 exactly when the
    record has a merchant-mix value and it is at most 0.35, or at most 35
    when some merchant-mix value of the table exceeds 1.5. *)
Theorem X9_scaled_rules (p : path) (df out : DataFrame) (i : nat) :
  wf df → engine p df = Ok out → i < nrows df →
  (cell_at out "flag_low_pay_ratio" i = Some (Num 1)
   ↔ (if pct_scale (col_or NaN df c_pay)
      then n0 (field df c_pay i) <= 40
      else n0 (field df c_pay i) <= 0.4)%Q) ∧
  (cell_at out "flag_merchant_shift" i = Some (Num 1)
   ↔ ∃ q : Q, field df c_mix i = Num q ∧
              (if pct_scale (mixcol df) then q <= 35 else q <= 0.35)%Q).
Proof.
  intros Hwf Hrun Hi. pose proof (engine_numeric p df out Hrun) as Hnum.
  destruct (engine_row df i Hwf Hi p out Hrun) as [Hf _ _ _ _ _].
  unfold row_flags, flag_cols in Hf. cbn [fmap list_fmap] in Hf.
  injection Hf as _ _ H3 _ H5. rewrite H3, H5, !flag_cell_one.
  unfold rule_low_pay_ratio, rule_merchant_shift. split.
  - rewrite rescale_le by lra.
    destruct (pct_scale (col_or NaN df c_pay)); split; intros; lra.
  - destruct (field df c_mix i) as [q| |t]; cbn [numv].
    + rewrite rescale_le by lra. split.
      * intros H. exists q. split; [done|]. destruct (pct_scale (mixcol df)); lra.
      * intros (q' & [= <-] & H). destruct (pct_scale (mixcol df)); lra.
    + split; [done | by intros (q & [=] & _)].
    + split; [done | by intros (q & [=] & _)].
Qed.

Lemma X9_witness :
  cell_at (run_or_self Batch lone_frame_extended) "flag_low_pay_ratio" 0 = Some (Num 1).
Proof.
  destruct (X9_scaled_rules Batch lone_frame_extended
              (run_or_self Batch lone_frame_extended) 0) as (H & _).
  - apply wf_frame_of. repeat constructor.
  - vm_compute; reflexivity.
  - simpl; lia.
  - apply H. vm_compute. discriminate.
Defined.

(** X10.  On every record the engine returns, [reasons] is the string
    "None" exactly when [risk_score] is 0, and it is never empty. *)
Theorem X10_reasons_none_iff_score_zero (p : path) (df out : DataFrame) (i : nat) :
  wf df → engine p df = Ok out → i < nrows df →
  (cell_at out "reasons" i = Some (Text "None")
   ↔ cell_at out "risk_score" i = Some (Num 0)) ∧
  cell_at out "reasons" i ≠ Some (Text "").
Proof.
  intros Hwf Hrun Hi.
  destruct (engine_row df i Hwf Hi p out Hrun) as [_ Hs _ Hr _ _].
  destruct (row_flags_five df i) as (b1 & b2 & b3 & b4 & b5 & Hb).
  rewrite Hb in Hs, Hr. rewrite Hs, Hr.
  destruct b1, b2, b3, b4, b5; vm_compute; split; try split; intros; congruence.
Qed.

Lemma X10_witness :
  cell_at (run_or_self Serving lone_frame) "reasons" 0 = Some (Text "None").
Proof.
  destruct (X10_reasons_none_iff_score_zero Serving lone_frame
              (run_or_self Serving lone_frame) 0) as ([_ H] & _).
  - apply wf_frame_of. repeat constructor.
  - vm_compute; reflexivity.
  - simpl; lia.
  - apply H. vm_compute; reflexivity.
Defined.

(** *** [safe_load_defaults] *)

Section defaults.

Lemma frame_eq (a b : DataFrame) :
  nrows a = nrows b → columns a = columns b → a = b.
Proof. destruct a, b; simpl. by intros -> ->. Qed.

End defaults.

(** X11.  [safe_load_defaults] keeps the row count and every column the
    table has, creates each required column the table lacks as a column of
    missing values, and adds nothing else; a well-formed table stays well
    formed. *)
Theorem X11_safe_load_defaults_columns (df : DataFrame) (c : string) :
  nrows (RiskUtils.safe_load_defaults df) = nrows df ∧
  columns (RiskUtils.safe_load_defaults df) !! c
  = match columns df !! c with
    | Some s => Some s
    | None => if bool_decide (c ∈ RiskUtils.REQUIRED_COLUMNS)
              then Some (replicate (nrows df) NaN) else None
    end ∧
  (wf df → wf (RiskUtils.safe_load_defaults df)).
Proof.
  split; [apply defaults_nrows|]. split; [|apply wf_defaults].
  apply (defaults_columns RiskUtils.REQUIRED_COLUMNS df c).
Qed.

(** X12.  [safe_load_defaults] is idempotent: a second application changes
    nothing. *)
Theorem X12_safe_load_defaults_idempotent (df : DataFrame) :
  RiskUtils.safe_load_defaults (RiskUtils.safe_load_defaults df)
  = RiskUtils.safe_load_defaults df.
Proof.
  apply frame_eq; [by rewrite !defaults_nrows|].
  apply map_eq. intros c.
  unfold RiskUtils.safe_load_defaults at 1.
  rewrite (proj2 (defaults_columns RiskUtils.REQUIRED_COLUMNS _ c)).
  fold (RiskUtils.safe_load_defaults df).
  destruct (columns (RiskUtils.safe_load_defaults df) !! c) as [s|] eqn:E; [done|].
  case_bool_decide as Hc; [|done]. by rewrite defaults_required in E.
Qed.

(** *** More on [normalize_merchant_mix] *)

Section normalise_more.

Lemma mix_stored_idem ps c : mix_stored false (mix_stored ps c) = mix_stored ps c.
Proof.
  unfold mix_stored. destruct (numv c) as [q|]; [|done]. cbn.
  unfold rescale. by rewrite clipq_idem.
Qed.

Lemma mix_stored_small ps c q : numv (mix_stored ps c) = Some q → Qltb 1.5 q = false.
Proof.
  unfold mix_stored. destruct (numv c) as [x|]; [|done]. cbn. intros [= <-].
  apply Qltb_ge. destruct (rescale_unit ps x). lra.
Qed.

Lemma normalised_not_scaled s : pct_scale (of_float (mix_norm s)) = false.
Proof.
  apply existsb_false_lookup. intros i x Hx.
  rewrite mix_norm_lookup in Hx. destruct (s !! i) as [c|]; [|done].
  injection Hx as <-. destruct (numv (mix_stored (pct_scale s) c)) as [q|] eqn:E; [|done].
  by eapply mix_stored_small.
Qed.

Lemma mix_norm_idem s :
  of_float (mix_norm (of_float (mix_norm s))) = of_float (mix_norm s).
Proof.
  apply list_eq. intros i. rewrite mix_norm_lookup, normalised_not_scaled.
  rewrite mix_norm_lookup. destruct (s !! i) as [c|]; [|done]. simpl.
  by rewrite mix_stored_idem.
Qed.

End normalise_more.

(** X13.  Normalising twice is normalising once: applied to its own
    result, [normalize_merchant_mix] of either module returns that result
    unchanged. *)
Theorem X13_normalize_merchant_mix_idempotent (s r : list cell) :
  (RiskUtils.normalize_merchant_mix s = Ok r →
   RiskUtils.normalize_merchant_mix r = Ok r) ∧
  (Server.normalize_merchant_mix s = Ok r →
   Server.normalize_merchant_mix r = Ok r).
Proof.
  split; intros H.
  - pose proof (batch_normalize_Ok s r H) as Hs.
    rewrite batch_normalize_numeric in H by done. injection H as <-.
    rewrite batch_normalize_numeric by apply numeric_of_float.
    by rewrite mix_norm_idem.
  - pose proof (server_normalize_Ok s r H) as Hs.
    rewrite server_normalize_numeric in H by done. injection H as <-.
    rewrite server_normalize_numeric by apply numeric_of_float.
    by rewrite mix_norm_idem.
Qed.

Lemma X13_witness :
  RiskUtils.normalize_merchant_mix [Num 0.90%Q; NaN; Num 0.20%Q]
  = Ok [Num 0.90%Q; NaN; Num 0.20%Q].
Proof.
  apply (X13_normalize_merchant_mix_idempotent pct_column). reflexivity.
Defined.

(** X14.  When [normalize_merchant_mix] of either module returns, the
    result has the length of the input, is missing exactly where the input
    is missing, and holds a number of [0,1] everywhere else. *)
Theorem X14_normalize_merchant_mix_shape (s r : list cell) :
  RiskUtils.normalize_merchant_mix s = Ok r ∨ Server.normalize_merchant_mix s = Ok r →
  length r = length s ∧
  ∀ i, (r !! i = Some NaN ↔ s !! i = Some NaN) ∧
       (∀ c, r !! i = Some c → c = NaN ∨ ∃ q, c = Num q ∧ (0 <= q ∧ q <= 1)%Q).
Proof.
  intros H.
  assert (Hs : numeric s)
    by (destruct H; [by eapply batch_normalize_Ok | by eapply server_normalize_Ok]).
  assert (r = of_float (mix_norm s)) as ->.
  { destruct H as [H|H];
      [rewrite batch_normalize_numeric in H by done
      |rewrite server_normalize_numeric in H by done]; by injection H. }
  split; [unfold of_float; by rewrite length_fmap, mix_norm_length|].
  intros i. rewrite mix_norm_lookup.
  destruct (s !! i) as [c|] eqn:Hc; [|split; [done | by intros c [=]]].
  assert (Hnt : is_text c = false).
  { eapply (proj1 (Forall_lookup _ _) Hs); eauto. }
  cbn [fmap option_fmap option_map]. unfold mix_stored.
  destruct c as [q| |t]; cbn; [| |done].
  - split; [split; intros [=] |]. intros c [= <-]. right. eexists.
    split; [done|]. apply rescale_unit.
  - split; [done|]. intros c [= <-]. by left.
Qed.

Lemma X14_witness :
  length [Num 0.90%Q; NaN; Num 0.20%Q] = length pct_column ∧
  ([Num 0.90%Q; NaN; Num 0.20%Q] !! 1 = Some NaN ↔ pct_column !! 1 = Some NaN).
Proof.
  destruct (X14_normalize_merchant_mix_shape pct_column
              [Num 0.90%Q; NaN; Num 0.20%Q]) as [H1 H2].
  - right. reflexivity.
  - split; [exact H1 | exact (proj1 (H2 1))].
Defined.

(** X15.  A column on the percent scale (some value above 1.5) whose
    values do not exceed 150 normalises to the same result as that column
    divided by 100 beforehand, in either module. *)
Theorem X15_normalize_merchant_mix_scale (s : list cell) :
  numeric s → pct_scale s = true →
  Forall (λ c, ∀ q, c = Num q → (q <= 150)%Q) s →
  RiskUtils.normalize_merchant_mix (on_numbers (λ q, q / 100)%Q s)
  = RiskUtils.normalize_merchant_mix s ∧
  Server.normalize_merchant_mix (on_numbers (λ q, q / 100)%Q s)
  = Server.normalize_merchant_mix s.
Proof.
  intros Hs Hps Hmax.
  set (s' := on_numbers (λ q, q / 100)%Q s).
  assert (Hs' : numeric s').
  { unfold s'. rewrite on_numbers_of_float by done. apply numeric_of_float. }
  assert (Hnull : isnull_all s = false).
  { destruct (isnull_all s) eqn:E; [|done]. exfalso.
    apply isnull_observed_nil in E. revert Hps. unfold pct_scale.
    rewrite <- existsb_observed, E. done. }
  assert (Hnull' : isnull_all s' = false).
  { rewrite <- Hnull. unfold s', isnull_all, on_numbers. clear.
    induction s as [|c s IH]; [done|]. rewrite fmap_cons. cbn [forallb].
    rewrite IH. by destruct c. }
  assert (Hps' : pct_scale s' = false).
  { apply existsb_false_lookup. intros i x Hx. unfold s', on_numbers in Hx.
    rewrite list_lookup_fmap in Hx. destruct (s !! i) as [c|] eqn:Hc; [|done].
    injection Hx as <-. destruct c as [q| |t]; cbn; [|done..].
    apply Qltb_ge. pose proof (proj1 (Forall_lookup _ _) Hmax i _ Hc q eq_refl).
    change (q / 100)%Q with (q * (1 # 100))%Q. lra. }
  assert (Hnorm : mix_norm s' = mix_norm s).
  { unfold mix_norm, fscale. rewrite Hnull, Hnull', !scaled_fnum, Hps, Hps'.
    f_equal. unfold s', fdiv, fnum, on_numbers. rewrite <- !list_fmap_compose.
    apply list_fmap_ext. by intros _ [q| |t] _. }
  rewrite !batch_normalize_numeric, !server_normalize_numeric by done.
  by rewrite Hnorm.
Qed.

Lemma X15_witness :
  RiskUtils.normalize_merchant_mix [Num (90 / 100)%Q; NaN; Num (20 / 100)%Q]
  = RiskUtils.normalize_merchant_mix pct_column.
Proof.
  apply (X15_normalize_merchant_mix_scale pct_column).
  - repeat constructor.
  - reflexivity.
  - repeat constructor; intros q [= <-]; vm_compute; discriminate.
Defined.

(** *** [reasons_for_row] on an arbitrary row *)

(** X16.  [reasons_for_row] (and [get_reasons], the same code) raises
    [KeyError] on a row that lacks one of the five flag entries; on a row
    that has them all it returns the labels of the entries that are true in
    Python's sense, in declaration order and joined by ", ", or "None" when
    there is none. *)
Theorem X16_reasons_for_row (r : gmap string cell) :
  (Forall (λ c, is_Some (r !! c)) flag_cols →
   RiskUtils.reasons_for_row r
   = Ok (match raised_in_row r with
         | [] => "None"
         | ls => String.concat ", " ls
         end)) ∧
  (¬ Forall (λ c, is_Some (r !! c)) flag_cols →
   RiskUtils.reasons_for_row r = Raise KeyError) ∧
  Server.get_reasons r = RiskUtils.reasons_for_row r.
Proof.
  unfold RiskUtils.reasons_for_row, Server.get_reasons, reasons_body, row_get,
    raised_in_row, flag_labels, flag_cols. cbn [List.filter fst].
  split; [|split; [|done]].
  - intros H. repeat (apply Forall_cons in H as [[? ->] H]).
    cbn [rbind is_raised].
    repeat match goal with |- context [truthy ?v] => destruct (truthy v) end;
      reflexivity.
  - intros H.
    destruct (r !! "flag_util_spike") as [v1|] eqn:E1; [|done].
    destruct (r !! "flag_min_due_streak") as [v2|] eqn:E2; [|done].
    destruct (r !! "flag_low_pay_ratio") as [v3|] eqn:E3; [|done].
    destruct (r !! "flag_cash_advance") as [v4|] eqn:E4; [|done].
    destruct (r !! "flag_merchant_shift") as [v5|] eqn:E5; [|done].
    destruct H.
    repeat (apply Forall_cons; split;
            [rewrite ?E1, ?E2, ?E3, ?E4, ?E5; by eexists|]).
    by apply Forall_nil.
Qed.

Lemma X16_witness :
  RiskUtils.reasons_for_row odd_row
  = Ok "Min Due Streak, Low Payment Ratio, Merchant Mix Shift" ∧
  RiskUtils.reasons_for_row (delete "flag_cash_advance" odd_row) = Raise KeyError.
Proof.
  destruct (X16_reasons_for_row odd_row) as (H1 & _ & _).
  destruct (X16_reasons_for_row (delete "flag_cash_advance" odd_row)) as (_ & H2 & _).
  split.
  - rewrite H1; [reflexivity|]. repeat (apply Forall_cons; split; [by eexists|]).
    by apply Forall_nil.
  - apply H2. intros H. do 3 (apply Forall_cons in H as [_ H]).
    apply Forall_cons in H as [[v Hv] _]. discriminate Hv.
Defined.

(** ** The pipeline script: reading the input *)

Section load.

Local Abbreviation chars := String.list_ascii_of_string.

Lemma append_cons a s t : String a s +:+ t = String a (s +:+ t).
Proof. reflexivity. Qed.

Lemma append_nil s : "" +:+ s = s.
Proof. reflexivity. Qed.

Lemma chars_app s t : chars (s +:+ t) = chars s ++ chars t.
Proof.
  induction s as [|a s IH]; [done|].
  rewrite append_cons. cbn [String.list_ascii_of_string]. by rewrite IH.
Qed.

Lemma chars_inj s t : chars s = chars t → s = t.
Proof.
  intros H. rewrite <- (String.string_of_list_ascii_of_string s),
    <- (String.string_of_list_ascii_of_string t). by rewrite H.
Qed.

Lemma lower_app s t : Pipeline.lower (s +:+ t) = Pipeline.lower s +:+ Pipeline.lower t.
Proof.
  induction s as [|a s IH]; [done|].
  rewrite append_cons. cbn [Pipeline.lower]. by rewrite IH, append_cons.
Qed.

Lemma endswith_spec s suf :
  Pipeline.endswith s suf = true ↔ ∃ pre, s = pre +:+ suf.
Proof.
  split.
  - induction s as [|a s IH]; cbn [Pipeline.endswith].
    + destruct (String.eqb_spec "" suf) as [<-|]; [|done]. by exists "".
    + destruct (String.eqb_spec (String a s) suf) as [<-|]; [by exists ""|].
      intros [pre ->]%IH. by exists (String a pre).
  - intros [pre ->]. induction pre as [|a pre IH].
    + rewrite append_nil. destruct suf; cbn [Pipeline.endswith];
        by rewrite String.eqb_refl.
    + rewrite append_cons. cbn [Pipeline.endswith]. rewrite IH.
      by destruct (String.eqb _ _).
Qed.

Lemma same_suffix p1 p2 a b :
  p1 +:+ a = p2 +:+ b → length (chars a) = length (chars b) → a = b.
Proof.
  intros H Hl. apply (f_equal chars) in H. rewrite !chars_app in H.
  apply app_inj_2 in H as [_ H]; [|done]. by apply chars_inj.
Qed.

Lemma endswith_tail s a suf :
  Pipeline.endswith s (String a suf) = true → Pipeline.endswith s suf = true.
Proof.
  rewrite !endswith_spec. intros [pre ->]. exists (pre +:+ String a "").
  apply chars_inj. rewrite !chars_app. cbn [String.list_ascii_of_string].
  by rewrite <- app_assoc.
Qed.

Lemma endswith_other L a b :
  length (chars a) = length (chars b) → a ≠ b →
  Pipeline.endswith (L +:+ a) b = false.
Proof.
  intros Hl Hne. destruct (Pipeline.endswith (L +:+ a) b) eqn:E; [|done].
  apply endswith_spec in E as [pre E]. destruct Hne. by eapply same_suffix.
Qed.

Lemma lower_ascii_dot a : Pipeline.lower_ascii a = Pipeline.dot → a = Pipeline.dot.
Proof.
  destruct a as [[] [] [] [] [] [] [] []]; vm_compute; congruence.
Qed.

Lemma lower_dot s : Pipeline.dot ∈ chars (Pipeline.lower s) → Pipeline.dot ∈ chars s.
Proof.
  induction s as [|a s IH]; cbn [Pipeline.lower String.list_ascii_of_string]; [done|].
  rewrite !elem_of_cons. intros [H|H]; [left | right; by apply IH].
  symmetry. by apply lower_ascii_dot.
Qed.

Lemma endswith_dot s suf :
  Pipeline.dot ∈ chars suf → Pipeline.endswith s suf = true → Pipeline.dot ∈ chars s.
Proof.
  intros Hd [pre ->]%endswith_spec. rewrite chars_app, elem_of_app. by right.
Qed.

End load.

(** X17.  [load_data] chooses the reader by the extension of the path,
    whatever the letter case of the extension and whatever precedes it:
    [read_csv] for ".csv", [read_excel] for ".xls" and ".xlsx".  The reader
    receives the path as given, not lower-cased, and its result or exception
    is passed on unchanged. *)
Theorem X17_load_data_by_extension
    (read_excel read_csv : string → result DataFrame) (stem ext : string) :
  Pipeline.lower ext ∈ [".csv"; ".xls"; ".xlsx"] →
  Pipeline.load_data read_excel read_csv (stem +:+ ext)
  = (if String.eqb (Pipeline.lower ext) ".csv" then read_csv else read_excel)
      (stem +:+ ext).
Proof.
  rewrite !elem_of_cons, elem_of_nil. unfold Pipeline.load_data.
  rewrite lower_app. intros [->|[->|[->|[]]]].
  - rewrite (endswith_other _ ".csv" ".xls") by done.
    destruct (Pipeline.endswith (Pipeline.lower stem +:+ ".csv") ".xlsx") eqn:E.
    { apply endswith_tail in E.
      by rewrite (endswith_other _ ".csv" "xlsx") in E. }
    cbn [orb]. by rewrite (proj2 (endswith_spec _ _)) by eauto.
  - by rewrite (proj2 (endswith_spec _ ".xls")) by eauto.
  - rewrite (proj2 (endswith_spec _ ".xlsx")) by eauto.
    by rewrite orb_true_r.
Qed.

Lemma X17_witness :
  Pipeline.load_data (λ _, Raise KeyError) (λ _, Ok spike_frame) "data/May.CSV"
  = Ok spike_frame.
Proof.
  apply (X17_load_data_by_extension (λ _, Raise KeyError) (λ _, Ok spike_frame)
           "data/May" ".CSV").
  vm_compute. by left.
Defined.

(** X18.  A path that contains no dot has none of the supported
    extensions: [load_data] raises [ValueError] and calls neither reader. *)
Theorem X18_load_data_needs_extension
    (read_excel read_csv : string → result DataFrame) (path : string) :
  Pipeline.dot ∉ String.list_ascii_of_string path →
  Pipeline.load_data read_excel read_csv path = Raise ValueError.
Proof.
  intros Hd. unfold Pipeline.load_data.
  assert (H : ∀ suf, Pipeline.dot ∈ String.list_ascii_of_string suf →
                     Pipeline.endswith (Pipeline.lower path) suf = false).
  { intros suf Hs. destruct (Pipeline.endswith _ suf) eqn:E; [|done].
    destruct Hd. by apply lower_dot, (endswith_dot _ suf). }
  rewrite !H; [done|..]; cbn [String.list_ascii_of_string]; by left.
Qed.

Lemma X18_witness :
  Pipeline.load_data (λ _, Ok spike_frame) (λ _, Ok spike_frame) "customers_csv"
  = Raise ValueError.
Proof.
  apply X18_load_data_needs_extension.
  cbn [String.list_ascii_of_string]. rewrite !not_elem_of_cons.
  repeat (split; [discriminate|]). apply not_elem_of_nil.
Defined.

(** ** The pipeline script: the data of the two charts *)

Section plots.

Lemma value_count_cons l c s :
  Pipeline.value_count l (c :: s)
  = (match c with Text t => if String.eqb t l then 1 else 0 | _ => 0 end)
    + Pipeline.value_count l s.
Proof.
  unfold Pipeline.value_count. cbn [List.filter].
  destruct c as [q| |t]; [done..|]. by destruct (String.eqb t l).
Qed.

Lemma value_count_tiers s :
  Forall (λ c, c ∈ [Text "Low"; Text "Medium"; Text "High"]) s →
  Pipeline.value_count "Low" s + Pipeline.value_count "Medium" s
  + Pipeline.value_count "High" s = length s.
Proof.
  induction 1 as [|c s Hc _ IH]; [done|].
  rewrite !value_count_cons. cbn [length]. rewrite <- IH.
  rewrite !elem_of_cons, elem_of_nil in Hc.
  destruct Hc as [->|[->|[->|[]]]]; cbn; lia.
Qed.

Lemma tier_is_label bs :
  length bs = 5 →
  cut1 tier_bins tier_labels (score_of bs) ∈ [Text "Low"; Text "Medium"; Text "High"].
Proof.
  intros H. do 5 (destruct bs as [|[] bs]; [done|..]).
  all: destruct bs; [|done].
  all: rewrite !elem_of_cons; vm_compute; auto.
Qed.

Lemma dropna_numbers (xs : list Q) :
  Pipeline.dropna (Num <$> xs) = Num <$> xs.
Proof.
  unfold Pipeline.dropna. induction xs as [|x xs IH]; [done|].
  cbn [fmap list_fmap List.filter isnull negb]. by rewrite IH.
Qed.

End plots.

(** X19.  On the frame the batch engine returns, the bar chart of
    [basic_plots] has three bars, Low, Medium and High in that order, and
    their heights add up to the number of records: every record falls in
    one of the three tiers and [reindex] has nothing to fill. *)
Theorem X19_tier_counts_cover_the_rows (df out : DataFrame) :
  wf df → engine Batch df = Ok out →
  ∃ low medium high,
    Pipeline.tier_counts out = Some [low; medium; high] ∧
    low + medium + high = nrows df.
Proof.
  intros Hwf Hrun.
  pose proof Hrun as (_ & tp & Htp & Hout)%engine_inv; [|done].
  assert (Hwo : wf out) by (subst out; by apply wf_closed).
  assert (Hn : nrows out = nrows df) by (subst out; apply closed_nrows).
  destruct (proj2 (is_Some_closed Batch df tp "risk_tier")) as [s Hs].
  { right. unfold created, flag_outputs, RiskUtils.REQUIRED_COLUMNS. cbn [app].
    in_list. }
  rewrite <- Hout in Hs.
  pose proof (wf_lookup _ _ _ Hwo Hs) as Hlen. rewrite Hn in Hlen.
  exists (Pipeline.value_count "Low" s), (Pipeline.value_count "Medium" s),
    (Pipeline.value_count "High" s).
  split; [unfold Pipeline.tier_counts; by rewrite Hs|].
  rewrite <- Hlen. apply value_count_tiers, Forall_lookup. intros i c Hc.
  assert (Hi : i < nrows df) by (rewrite <- Hlen; by eapply lookup_lt_Some).
  destruct (engine_row df i Hwf Hi Batch out Hrun) as [_ _ Ht _ _ _].
  unfold cell_at in Ht. rewrite Hs in Ht. cbn [mbind option_bind] in Ht.
  rewrite Hc in Ht. apply (inj Some) in Ht. rewrite Ht.
  apply tier_is_label.
  destruct (row_flags_five df i) as (b1 & b2 & b3 & b4 & b5 & ->). done.
Qed.

Lemma X19_witness :
  ∃ low medium high,
    Pipeline.tier_counts (spike_out Batch) = Some [low; medium; high] ∧
    low + medium + high = 1.
Proof.
  apply (X19_tier_counts_cover_the_rows spike_frame (spike_out Batch)).
  - apply wf_spike_frame.
  - apply engine_spike_frame.
Defined.

(** X20.  On the frame the batch engine returns, the histogram of
    [basic_plots] is drawn from one number per record: [dropna] removes
    nothing, because the batch path has filled the missing and non-numeric
    utilisation values with 0. *)
Theorem X20_histogram_keeps_every_row (df out : DataFrame) :
  wf df → engine Batch df = Ok out →
  ∃ h, Pipeline.hist_data out = Some h ∧
       columns out !! c_util = Some h ∧
       length h = nrows df ∧
       ∀ i, i < nrows df → h !! i = Some (Num (n0 (field df c_util i))).
Proof.
  intros Hwf Hrun.
  pose proof Hrun as (_ & tp & Htp & Hout)%engine_inv; [|done].
  assert (Hu : c_util ∈ [c_util; c_mindue; c_cash; c_spend]) by in_list.
  pose proof (closed_lookup_input Batch df tp c_util Hu) as Hs.
  rewrite <- Hout in Hs. cbn beta iota in Hs.
  set (h := of_float (ffill 0 (fnum (col_or NaN df c_util)))) in *.
  assert (Hh : h = Num <$> ((λ c, n0 c) <$> col_or NaN df c_util)).
  { unfold h, of_float, ffill, fnum. rewrite <- !list_fmap_compose.
    apply list_fmap_ext. intros _ c _. by destruct c. }
  exists h. split; [|split; [done|split]].
  - unfold Pipeline.hist_data. rewrite Hs. cbn [fmap option_fmap option_map].
    by rewrite Hh, dropna_numbers.
  - rewrite Hh, !length_fmap. by apply col_or_length.
  - intros i Hi. rewrite Hh, !list_lookup_fmap, field_lookup by done. done.
Qed.

Lemma X20_witness :
  ∃ h, Pipeline.hist_data (spike_out Batch) = Some h ∧
       columns (spike_out Batch) !! c_util = Some h ∧
       length h = 1 ∧
       ∀ i, i < 1 → h !! i = Some (Num (n0 (field spike_frame c_util i))).
Proof.
  apply (X20_histogram_keeps_every_row spike_frame (spike_out Batch)).
  - apply wf_spike_frame.
  - apply engine_spike_frame.
Defined.

(** ** The upload route *)

Section route.

Variables read_csv read_excel : string → result DataFrame.
Variable where_notnull : list cell → list cell.

Lemma to_records_length n out : length (Route.to_records n out) = n.
Proof. unfold Route.to_records. by rewrite length_fmap, length_seq. Qed.

Lemma to_records_lookup n out i :
  i < n →
  Route.to_records n out !! i
  = Some (omap (λ cs : string * list cell, (λ v, (cs.1, v)) <$> cs.2 !! i) out).
Proof.
  intros Hi. unfold Route.to_records.
  by rewrite list_lookup_fmap, lookup_seq_lt.
Qed.

Lemma serving_run df :
  wf df → numeric (mixcol df) → engine Serving df = Ok (closed Serving df []).
Proof. intros Hwf Hnum. by rewrite engine_run. Qed.

Lemma has_col_is_Some df c : has_col df c = true ↔ is_Some (columns df !! c).
Proof.
  unfold has_col. destruct (columns df !! c); split; try done.
  all: by intros [? [=]].
Qed.

Lemma has_col_closed p df tp c :
  has_col (closed p df tp) c = has_col df c || bool_decide (c ∈ created p).
Proof.
  apply eq_true_iff_eq.
  rewrite orb_true_iff, !has_col_is_Some, bool_decide_eq_true.
  apply is_Some_closed.
Qed.

(** The columns of the response: "Customer ID" when the upload has it,
    then the seven columns the engine always creates *)
Lemma response_columns df :
  List.filter (has_col (closed Serving df [])) Route.cols
  = if has_col df "Customer ID" then Route.cols else tail Route.cols.
Proof.
  unfold Route.cols. cbn [List.filter tail].
  rewrite !has_col_closed.
  repeat match goal with
         | |- context [bool_decide (?c ∈ created Serving)] =>
             let b := eval vm_compute in (bool_decide (c ∈ created Serving)) in
             replace (bool_decide (c ∈ created Serving)) with b
               by (vm_compute; reflexivity)
         end.
  rewrite !orb_true_r, orb_false_r. by destruct (has_col df "Customer ID").
Qed.

(** One record of the response, read off the columns it was built from *)
Lemma record_of_columns (D : DataFrame) (L : list string) (i : nat) :
  wf D → i < nrows D →
  (∀ s, length (where_notnull s) = length s) →
  Forall (λ c, has_col D c = true) L →
  let row := omap (λ cs : string * list cell, (λ v, (cs.1, v)) <$> cs.2 !! i)
               ((λ cs : string * list cell, (cs.1, where_notnull cs.2))
                  <$> Route.select D L) in
  row.*1 = L ∧
  ∀ k v, (k, v) ∈ row → ∃ s, columns D !! k = Some s ∧ where_notnull s !! i = Some v.
Proof.
  intros Hwf Hi Hlen HL. cbn zeta. induction HL as [|c L Hc _ [IH1 IH2]].
  { split; [done|]. intros k v H. by apply elem_of_nil in H. }
  apply has_col_is_Some in Hc as [s Hs].
  unfold Route.select. cbn [omap list_omap]. rewrite Hs.
  cbn [fmap option_fmap option_map list_fmap omap list_omap fst snd].
  fold (Route.select D L).
  destruct (lookup_lt_is_Some_2 (where_notnull s) i) as [v Hv].
  { rewrite Hlen, (wf_lookup _ _ _ Hwf Hs). done. }
  rewrite Hv. cbn [fmap option_fmap option_map list_fmap omap list_omap fst snd].
  split.
  - cbn [fmap list_fmap fst]. f_equal. exact IH1.
  - intros k w [[= -> ->]|H]%elem_of_cons; [by exists s|]. by apply IH2.
Qed.

End route.

(** X21.  The status of the upload route once a file with at least one
    record has been read.  With a numeric "Merchant Mix Index" column, or
    none, the answer is 200, its [count] is the number of records of the
    upload and [rows] has one entry per record.  A non-numeric value in that column makes [compute_flags]
    raise, and the answer is 500 with the [ValueError] as processing error.
    What [where] does to the cells plays no part in either. *)
Theorem X21_upload_status
    (read_csv read_excel : string → result DataFrame)
    (where_notnull : list cell → list cell)
    (files : gmap string Route.FileStorage) (file : Route.FileStorage)
    (df : DataFrame) :
  files !! "file" = Some file →
  Route.filename file ≠ "" →
  Route.read_stream read_csv read_excel (Route.content file) = Ok df →
  wf df → 0 < nrows df →
  (numeric (mixcol df) →
     ∃ rows, Route.upload_file read_csv read_excel where_notnull files
             = (200, Route.scored (nrows df) rows) ∧
             length rows = nrows df) ∧
  (¬ numeric (mixcol df) →
     Route.upload_file read_csv read_excel where_notnull files
     = (500, Route.processing_error ValueError)).
Proof.
  intros Hf Hname Hread Hwf _. unfold Route.upload_file.
  rewrite Hf, (proj2 (String.eqb_neq _ _) Hname), Hread.
  change (Server.compute_flags df) with (engine Serving df).
  split; intros Hnum.
  - rewrite serving_run by done. cbn zeta.
    match goal with
    | |- ∃ rows, (_, Route.scored _ ?R) = _ ∧ _ => exists R
    end.
    by rewrite !to_records_length, closed_nrows.
  - by rewrite serving_not_numeric.
Qed.

Lemma X21_witness :
  ∃ rows,
    Route.upload_file (λ _, Raise ValueError) (λ _, Ok spike_frame) (λ s, s)
      {[ "file" := Route.mkFile "may.xlsx" "" ]}
    = (200, Route.scored 1 rows) ∧ length rows = 1.
Proof.
  refine (proj1 (X21_upload_status (λ _, Raise ValueError) (λ _, Ok spike_frame)
                   (λ s, s) {[ "file" := Route.mkFile "may.xlsx" "" ]}
                   (Route.mkFile "may.xlsx" "") spike_frame _ _ _ _ _) _).
  - reflexivity.
  - discriminate.
  - reflexivity.
  - apply wf_spike_frame.
  - simpl; lia.
  - apply (engine_numeric Serving spike_frame (spike_out Serving)),
      engine_spike_frame.
Defined.

(** X22.  The rows of a 200 answer.  Every row has the same keys, in the
    order of [cols]: "Customer ID" when the upload has that column, then the
    seven columns the engine always creates.  Under "risk_score",
    "risk_tier", "reasons" and "Avg Payment Ratio" row [i] carries the cell
    the engine computed for record [i]; the engine never leaves these four
    missing, so [where] has nothing to replace in them.  Of [where] this
    assumes that it keeps the length of a column and every cell that is not
    missing. *)
Theorem X22_upload_rows
    (read_csv read_excel : string → result DataFrame)
    (where_notnull : list cell → list cell)
    (files : gmap string Route.FileStorage)
    (df out : DataFrame) (count : nat) (rows : list (list (string * cell)))
    (file : Route.FileStorage) (i : nat) (row : list (string * cell)) :
  (∀ s, length (where_notnull s) = length s) →
  (∀ s i c, s !! i = Some c → isnull c = false → where_notnull s !! i = Some c) →
  files !! "file" = Some file →
  Route.read_stream read_csv read_excel (Route.content file) = Ok df →
  wf df →
  Server.compute_flags df = Ok out →
  Route.upload_file read_csv read_excel where_notnull files
  = (200, Route.scored count rows) →
  rows !! i = Some row →
  i < nrows df ∧
  row.*1 = (if has_col df "Customer ID" then Route.cols else tail Route.cols) ∧
  ∀ k v, (k, v) ∈ row →
         k ∈ ["risk_score"; "risk_tier"; "reasons"; "Avg Payment Ratio"] →
         cell_at out k i = Some v.
Proof.
  intros Hlen Hkeep Hf Hread Hwf Hrun Hresp Hrow.
  change (Server.compute_flags df) with (engine Serving df) in Hrun.
  pose proof Hrun as (Hnum & tp & _ & Hout)%engine_inv; [|done].
  cbn [closed] in Hout. change (ServerForm.out df (mix_norm (mixcol df)))
    with (closed Serving df []) in Hout.
  unfold Route.upload_file in Hresp. rewrite Hf in Hresp.
  destruct (String.eqb (Route.filename file) ""); [discriminate|].
  rewrite Hread in Hresp.
  change (Server.compute_flags df) with (engine Serving df) in Hresp.
  rewrite Hrun in Hresp. cbn zeta in Hresp.
  remember (List.filter (has_col out) Route.cols) as L eqn:HL.
  injection Hresp as _ <-.
  assert (Hn : nrows out = nrows df) by (rewrite Hout; apply closed_nrows).
  assert (Hwo : wf out) by (rewrite Hout; by apply wf_closed).
  assert (Hi : i < nrows df).
  { rewrite <- Hn. apply lookup_lt_Some in Hrow.
    by rewrite to_records_length in Hrow. }
  rewrite to_records_lookup in Hrow by (by rewrite Hn).
  apply (inj Some) in Hrow. subst row.
  destruct (record_of_columns where_notnull out L i) as [Hkeys Hvals];
    [done | by rewrite Hn | done | |].
  { subst L. apply Forall_forall. intros c Hc.
    by apply list_elem_of_In, List.filter_In in Hc as [_ Hc]. }
  split; [done|]. split.
  { rewrite Hkeys, HL, Hout. apply response_columns. }
  intros k v Hkv Hk. destruct (Hvals k v Hkv) as (s & Hs & Hv).
  destruct (engine_row df i Hwf Hi Serving out Hrun) as [_ Hsc Htier Hreas Hpay _].
  unfold cell_at in *. rewrite Hs. cbn [mbind option_bind].
  rewrite !elem_of_cons, elem_of_nil in Hk.
  assert (Hc : ∃ c, s !! i = Some c ∧ isnull c = false).
  { destruct Hk as [->|[->|[->|[->|[]]]]].
    - rewrite Hs in Hsc. eauto.
    - rewrite Hs in Htier. eexists. split; [exact Htier|].
      destruct (row_flags_five df i) as (b1 & b2 & b3 & b4 & b5 & ->).
      by destruct b1, b2, b3, b4, b5.
    - rewrite Hs in Hreas. eauto.
    - rewrite Hs in Hpay. eauto. }
  destruct Hc as (c & Hc & Hnn). rewrite Hc.
  rewrite (Hkeep s i c Hc Hnn) in Hv. by injection Hv as ->.
Qed.

Lemma X22_witness :
  0 < nrows spike_frame ∧
  spike_row.*1 = tail Route.cols ∧
  ∀ k v, (k, v) ∈ spike_row →
         k ∈ ["risk_score"; "risk_tier"; "reasons"; "Avg Payment Ratio"] →
         cell_at (spike_out Serving) k 0 = Some v.
Proof.
  apply (X22_upload_rows (λ _, Ok spike_frame) (λ _, Raise ValueError) (λ s, s)
           spike_upload spike_frame (spike_out Serving) 1 [spike_row]
           (Route.mkFile "may.csv" "") 0 spike_row).
  - done.
  - by intros.
  - reflexivity.
  - reflexivity.
  - apply wf_spike_frame.
  - apply (engine_spike_frame Serving).
  - vm_compute. reflexivity.
  - reflexivity.
Defined.
